(** * Miro insights and risks: reconciliation pipeline and its two transports

    A shallow embedding of [miro-poc.ts] (retry wrapper, REST helpers, grid
    layout, main flow) and of [transport-mcp.ts] (the stdio tool client),
    followed by the properties of the specification that concern them.

    JavaScript strings are sequences of UTF-16 code units, JavaScript
    numbers are IEEE 754 doubles, JavaScript values are a small tagged
    union, asynchronous calls are functions that thread the state of the
    outside world and either return or throw. *)

From Stdlib Require Strings.Byte.
From Stdlib Require Import String Ascii DecimalString Bool Arith ZArith NArith Lia List.
From Stdlib Require Import PrimFloat SpecFloat FloatOps.
Import ListNotations.
Open Scope list_scope.

Set Implicit Arguments.
Set Warnings "-register-all,-abstract-large-number".

(* ================================================================== *)
(** ** JavaScript strings and values *)
(* ================================================================== *)

Module Js.

(** A string is its list of UTF-16 code units. *)
Definition jsstring := list N.

(** ASCII literal to JavaScript string. *)
Definition js (s : string) : jsstring :=
  map N_of_ascii (list_ascii_of_string s).

Fixpoint str_eqb (a b : jsstring) : bool :=
  match a, b with
  | [], [] => true
  | x :: a', y :: b' => N.eqb x y && str_eqb a' b'
  | _, _ => false
  end.

Fixpoint starts_with (p s : jsstring) : bool :=
  match p, s with
  | [], _ => true
  | x :: p', y :: s' => N.eqb x y && starts_with p' s'
  | _ :: _, [] => false
  end.

(** [s.includes(p)] *)
Fixpoint includes (s p : jsstring) : bool :=
  starts_with p s ||
  match s with
  | [] => false
  | _ :: s' => includes s' p
  end.

(** [s.split(sep)] for a separator of one code unit. *)
Fixpoint split (sep : N) (s : jsstring) : list jsstring :=
  match s with
  | [] => [[]]
  | c :: s' =>
      if N.eqb c sep then [] :: split sep s'
      else match split sep s' with
           | l :: ls => (c :: l) :: ls
           | [] => [[c]]
           end
  end.

(** White space and line terminators of ECMAScript, as [trim] strips them. *)
Definition is_space (c : N) : bool :=
  (((9 <=? c) && (c <=? 13)) || (c =? 32) || (c =? 160) || (c =? 5760)
   || ((8192 <=? c) && (c <=? 8202)) || (c =? 8232) || (c =? 8233)
   || (c =? 8239) || (c =? 8287) || (c =? 12288) || (c =? 65279))%N.

Fixpoint trim_start (s : jsstring) : jsstring :=
  match s with
  | c :: s' => if is_space c then trim_start s' else s
  | [] => []
  end.

(** [s.trim()] *)
Definition trim (s : jsstring) : jsstring :=
  rev (trim_start (rev (trim_start s))).

(** [arr.join(sep)] on strings. *)
Fixpoint join (sep : jsstring) (l : list jsstring) : jsstring :=
  match l with
  | [] => []
  | [x] => x
  | x :: rest => x ++ sep ++ join sep rest
  end.

(** Numbers are binary64 values with the arithmetic of IEEE 754, round
    to nearest even: the primitive floats, whose [+], [-], [*], [/] and
    [=?] are the operators of the source. *)
Definition number : Set := float.

(** The number an integer converts to. *)
Definition of_Z (z : Z) : number :=
  SF2Prim (binary_normalize prec emax z 0 false).

(** An array index as a number. *)
Definition of_index (n : nat) : number := of_Z (Z.of_nat n).

(** [Math.floor(x)]: a number with a negative exponent is below 2^53 in
    absolute value, and its integer part is computed on its mantissa. *)
Definition floor (x : number) : number :=
  match Prim2SF x with
  | S754_finite s m e =>
      if (0 <=? e)%Z then x
      else
        let n := Z.shiftr (Zpos m) (- e) in
        let exact := Z.eqb (Z.shiftl n (- e)) (Zpos m) in
        if s then of_Z (- (if exact then n else n + 1))
        else of_Z n
  | _ => x
  end.

(** [a % b]: the remainder of the truncating division, with the sign of
    [a]; it is computed exactly on the two mantissas brought to the
    smaller exponent. *)
Definition fmod (a b : number) : number :=
  match Prim2SF a, Prim2SF b with
  | S754_nan, _ | _, S754_nan => nan
  | S754_infinity _, _ => nan
  | _, S754_zero _ => nan
  | S754_zero _, _ => a
  | S754_finite _ _ _, S754_infinity _ => a
  | S754_finite sa ma ea, S754_finite _ mb eb =>
      let e := Z.min ea eb in
      let A := (Zpos ma * 2 ^ (ea - e))%Z in
      let B := (Zpos mb * 2 ^ (eb - e))%Z in
      let r := (A mod B)%Z in
      if (r =? 0)%Z then (if sa then (-0)%float else 0%float)
      else SF2Prim (binary_normalize prec emax (if sa then (- r)%Z else r) e false)
  end.

(** Values, as far as the program inspects them. *)
Inductive JsVal : Type :=
| VUndefined
| VNull
| VBool (b : bool)
| VNum (q : number)
| VStr (s : jsstring)
| VArr (items : list JsVal)
| VObj (fields : list (jsstring * JsVal)).

Fixpoint lookup (k : jsstring) (fields : list (jsstring * JsVal)) : JsVal :=
  match fields with
  | [] => VUndefined
  | (k', v) :: rest => if str_eqb k k' then v else lookup k rest
  end.

(** [v.k]: [None] is the TypeError of reading a property of [null] or
    [undefined]; own data properties only. *)
Definition prop (v : JsVal) (k : jsstring) : option JsVal :=
  match v with
  | VUndefined | VNull => None
  | VObj fields => Some (lookup k fields)
  | _ => Some VUndefined
  end.

(** [v?.k] *)
Definition optprop (v : JsVal) (k : jsstring) : JsVal :=
  match prop v k with
  | Some x => x
  | None => VUndefined
  end.

Definition truthy (v : JsVal) : bool :=
  match v with
  | VUndefined | VNull => false
  | VBool b => b
  | VNum q => negb (PrimFloat.eqb q 0%float) && PrimFloat.eqb q q   (* not 0, -0 or NaN *)
  | VStr s => match s with [] => false | _ => true end
  | VArr _ | VObj _ => true
  end.

(** [a || b] *)
Definition or_else (a b : JsVal) : JsVal := if truthy a then a else b.

(** [v === n] for a number literal [n]. *)
Definition is_num (v : JsVal) (n : Z) : bool :=
  match v with
  | VNum q => PrimFloat.eqb q (of_Z n)
  | _ => false
  end.

(** [v === s] for a string [s]. *)
Definition is_str (v : JsVal) (s : jsstring) : bool :=
  match v with
  | VStr t => str_eqb t s
  | _ => false
  end.

(** [a === b]; two objects or arrays read from different documents are
    never the same object. *)
Definition strict_eq (a b : JsVal) : bool :=
  match a, b with
  | VUndefined, VUndefined => true
  | VNull, VNull => true
  | VBool x, VBool y => Bool.eqb x y
  | VNum x, VNum y => PrimFloat.eqb x y
  | VStr x, VStr y => str_eqb x y
  | _, _ => false
  end.

(** [v ?? d] on values: every value but [null] and [undefined] is kept. *)
Definition nullish_or (v d : JsVal) : JsVal :=
  match v with
  | VUndefined | VNull => d
  | _ => v
  end.

(** The operand of an arithmetic operator as a number; [ToNumber] is the
    conversion of a string, an array or an object. *)
Definition to_number (ToNumber : JsVal -> number) (v : JsVal) : number :=
  match v with
  | VNum n => n
  | VUndefined => nan
  | VNull => 0%float
  | VBool b => if b then 1%float else 0%float
  | other => ToNumber other
  end.

(** [new Error(msg)] and the TypeError of a bad property read. *)
Definition mkError (msg : jsstring) : JsVal :=
  VObj [(js "message", VStr msg)].

Definition typeError : JsVal :=
  VObj [(js "name", VStr (js "TypeError"))].

End Js.

Import Js.

(** An asynchronous call against a world of type [W]: it throws ([inl]) or
    returns ([inr]), and leaves the world in a new state either way. *)
Definition Async (W A : Type) : Type := W -> (JsVal + A) * W.

Definition ret {W A} (a : A) : Async W A := fun w => (inr a, w).

Definition throw {W A} (e : JsVal) : Async W A := fun w => (inl e, w).

Definition bind {W A B} (m : Async W A) (k : A -> Async W B) : Async W B :=
  fun w =>
    match m w with
    | (inl e, w') => (inl e, w')
    | (inr a, w') => k a w'
    end.

Declare Scope async_scope.
Delimit Scope async_scope with async.
Notation "x <- m ;; k" := (bind m (fun x => k))
  (at level 61, m at next level, right associativity) : async_scope.

(* ================================================================== *)
(** ** Retry with exponential backoff ([backoff], miro-poc.ts) *)
(* ================================================================== *)

Module Retry.

(** What a run of [backoff] does besides calling [fn]. *)
Inductive Event : Type :=
| Attempt (n : nat)              (* fn() is called for the n-th time *)
| Sleep (ms : Z)                 (* await sleep(ms) *)
| Warn (attempt : nat) (ms : Z). (* console.warn: attempt n failed; retrying in ms *)

(** [err?.status || err?.code] *)
Definition carried_status (err : JsVal) : JsVal :=
  or_else (optprop err (js "status")) (optprop err (js "code")).

(** [status === 401 || status === 403] *)
Definition is_auth (err : JsVal) : bool :=
  is_num (carried_status err) 401 || is_num (carried_status err) 403.

Section Backoff.
Context {W T : Type}.
Variable fn : Async W T.
Variable maxAttempts : nat.

(** The [for] loop from [attempt] on; [remaining] counts the iterations
    the loop condition [attempt <= maxAttempts] still allows. *)
Fixpoint backoff_loop (remaining attempt : nat) (delay : Z) (lastErr : JsVal)
    (w : W) : (JsVal + T) * W * list Event :=
  match remaining with
  | O => (inl lastErr, w, [])
  | S remaining' =>
      match fn w with
      | (inr v, w') => (inr v, w', [Attempt attempt])
      | (inl err, w') =>
          if is_auth err then (inl err, w', [Attempt attempt])
          else if Nat.eqb attempt maxAttempts then (inl err, w', [Attempt attempt])
          else
            let delay' := Z.min (delay * 2)%Z 8000%Z in
            let '(r, w'', evs) :=
              backoff_loop remaining' (S attempt) delay' err w' in
            (r, w'', Attempt attempt :: Sleep delay :: Warn attempt delay' :: evs)
      end
  end.

Definition backoff_trace (w : W) : (JsVal + T) * W * list Event :=
  backoff_loop maxAttempts 1 500%Z VUndefined w.

Definition backoff : Async W T := fun w => fst (backoff_trace w).
End Backoff.

Fixpoint sleeps (evs : list Event) : list Z :=
  match evs with
  | [] => []
  | Sleep ms :: rest => ms :: sleeps rest
  | _ :: rest => sleeps rest
  end.

Fixpoint attempts (evs : list Event) : nat :=
  match evs with
  | [] => 0
  | Attempt _ :: rest => S (attempts rest)
  | _ :: rest => attempts rest
  end.

(** The delay slept after the [k]-th failed attempt, counting from 0. *)
Definition delay_at (k : nat) : Z := Z.min (500 * 2 ^ Z.of_nat k)%Z 8000%Z.

End Retry.

(* ================================================================== *)
(** ** Grid layout ([gridLayoutInFrame], miro-poc.ts) *)
(* ================================================================== *)

Module Layout.

(** [interface FrameSpec].  The fields hold what the transport put in
    them: the id and, for the centre and the size, the value read from the
    service when there is one, the number asked for otherwise. *)
Record FrameSpec : Type := mkFrame {
  frame_id : JsVal;
  frame_title : jsstring;
  frame_x : JsVal;
  frame_y : JsVal;
  frame_width : JsVal;
  frame_height : JsVal
}.

(** [interface StickySpec] *)
Record StickySpec : Type := mkSticky {
  content : jsstring;
  note_x : number;
  note_y : number;
  note_width : option number;
  note_height : option number;
  parentId : option JsVal
}.

(** The [opts] argument; an absent field is [None], and an absent [opts]
    has every field absent. *)
Record LayoutOpts : Type := mkOpts {
  opt_columns : option number;
  opt_gap : option number;
  opt_pad : option number;
  opt_noteW : option number;
  opt_noteH : option number;
  opt_runId : option jsstring   (* accepted and never read *)
}.

(** [v ?? d] *)
Definition nullish {A} (v : option A) (d : A) : A :=
  match v with Some a => a | None => d end.

Definition columns_of (opts : LayoutOpts) : number := nullish (opt_columns opts) 3%float.
Definition gap_of (opts : LayoutOpts) : number := nullish (opt_gap opts) 20%float.
Definition pad_of (opts : LayoutOpts) : number := nullish (opt_pad opts) 40%float.
Definition noteW_of (opts : LayoutOpts) : number := nullish (opt_noteW opts) 180%float.
Definition noteH_of (opts : LayoutOpts) : number := nullish (opt_noteH opts) 120%float.

(** [idx % columns] and [Math.floor(idx / columns)] *)
Definition col_of (idx : nat) (columns : number) : number :=
  fmod (of_index idx) columns.

Definition row_of (idx : nat) (columns : number) : number :=
  floor (of_index idx / columns)%float.

Section Grid.
(** The conversion to a number of a string, an array or an object. *)
Variable ToNumber : JsVal -> number.

Definition startX (frame : FrameSpec) (opts : LayoutOpts) : number :=
  ((to_number ToNumber (frame_x frame) - to_number ToNumber (frame_width frame) / 2)
   + pad_of opts)%float.

Definition startY (frame : FrameSpec) (opts : LayoutOpts) : number :=
  ((to_number ToNumber (frame_y frame) - to_number ToNumber (frame_height frame) / 2)
   + pad_of opts)%float.

(** The body of the [forEach] callback. *)
Definition place (frame : FrameSpec) (opts : LayoutOpts) (text : jsstring)
    (idx : nat) : StickySpec :=
  let col := col_of idx (columns_of opts) in
  let row := row_of idx (columns_of opts) in
  let x := (startX frame opts + col * (noteW_of opts + gap_of opts))%float in
  let y := (startY frame opts + row * (noteH_of opts + gap_of opts))%float in
  mkSticky text x y (Some (noteW_of opts)) None None.

Fixpoint forEach_from (frame : FrameSpec) (opts : LayoutOpts) (idx : nat)
    (items : list jsstring) : list StickySpec :=
  match items with
  | [] => []
  | text :: rest => place frame opts text idx :: forEach_from frame opts (S idx) rest
  end.

Definition gridLayoutInFrame (frame : FrameSpec) (items : list jsstring)
    (opts : LayoutOpts) : list StickySpec :=
  forEach_from frame opts 0 items.
End Grid.

(** A property of every number below a bound, as a conjunction. *)
Fixpoint below (n : nat) (P : nat -> Prop) : Prop :=
  match n with
  | 0 => True
  | S k => P k /\ below k P
  end.

(** [insightsNotes.forEach((n) => (n.parentId = frame.id))] *)
Definition set_parent (fid : JsVal) (n : StickySpec) : StickySpec :=
  mkSticky (content n) (note_x n) (note_y n) (note_width n) (note_height n) (Some fid).

End Layout.

Import Layout.

(* ================================================================== *)
(** ** Batch creation over REST ([bulkCreateStickies], miro-poc.ts) *)
(* ================================================================== *)

Module Batch.

(** The [results] object both transports build and return. *)
Record BatchResult : Type := mkResult {
  ok : nat;
  created : list JsVal;
  failed : list (StickySpec * JsVal)
}.

Definition empty : BatchResult := mkResult 0 [] [].

Definition incr_ok (r : BatchResult) : BatchResult :=
  mkResult (S (ok r)) (created r) (failed r).

Definition push_created (r : BatchResult) (id : JsVal) : BatchResult :=
  mkResult (ok r) (created r ++ [id]) (failed r).

Definition push_failed (r : BatchResult) (n : StickySpec) (e : JsVal) : BatchResult :=
  mkResult (ok r) (created r) (failed r ++ [(n, e)]).

(** [notes.slice(i, j)] for [0 <= i <= j] *)
Definition slice {A} (l : list A) (i j : nat) : list A :=
  firstn (j - i) (skipn i l).

(** The errors thrown in a sequence of per-note calls, each with its
    note. *)
Fixpoint thrown (calls : list (StickySpec * (JsVal + JsVal)))
    : list (StickySpec * JsVal) :=
  match calls with
  | [] => []
  | (n, inl e) :: rest => (n, e) :: thrown rest
  | (_, inr _) :: rest => thrown rest
  end.

Section Rest.
Context {W : Type}.
(** [createSticky(boardId, n)], with the board fixed. *)
Variable createSticky : StickySpec -> Async W JsVal.

(** The create calls a batch makes when it visits [notes] in order,
    each with what it threw or returned. *)
Fixpoint calls_of (notes : list StickySpec) (w : W)
    : list (StickySpec * (JsVal + JsVal)) :=
  match notes with
  | [] => []
  | n :: rest =>
      let '(o, w') := createSticky n w in
      (n, o) :: calls_of rest w'
  end.

(** One iteration of the inner loop: the [try] block and its [catch].
    [results] is mutated in place, so the increment of [ok] outlives a
    throw of the statement after it. *)
Definition create_one (results : BatchResult) (n : StickySpec) (w : W)
    : BatchResult * W :=
  match createSticky n w with
  | (inr r, w') =>
      let results1 := incr_ok results in
      match prop r (js "id") with
      | Some id => (push_created results1 id, w')
      | None => (push_failed results1 n typeError, w')
      end
  | (inl err, w') => (push_failed results n err, w')
  end.

(** [for (const n of chunk) { ... }] *)
Fixpoint for_chunk (chunk : list StickySpec) (results : BatchResult) (w : W)
    : BatchResult * W :=
  match chunk with
  | [] => (results, w)
  | n :: rest =>
      let '(results', w') := create_one results n w in
      for_chunk rest results' w'
  end.

(** [for (let i = ...; i < notes.length; i += chunkSize)], unrolled at
    most [fuel] times; [None] when the loop is still running then. *)
Fixpoint chunk_loop (fuel : nat) (notes : list StickySpec) (chunkSize i : nat)
    (results : BatchResult) (w : W) : option (BatchResult * W) :=
  if i <? length notes then
    match fuel with
    | O => None
    | S fuel' =>
        let chunk := slice notes i (i + chunkSize) in
        let '(results', w') := for_chunk chunk results w in
        chunk_loop fuel' notes chunkSize (i + chunkSize) results' w'
    end
  else Some (results, w).

Definition bulkCreateStickies_fuel (fuel : nat) (notes : list StickySpec)
    (chunkSize : nat) (w : W) : option (BatchResult * W) :=
  chunk_loop fuel notes chunkSize 0 empty w.

(** As many iterations as there are notes are enough when
    [chunkSize >= 1] (see [chunk_loop_enough]). *)
Definition bulkCreateStickies (notes : list StickySpec) (chunkSize : nat)
    (w : W) : option (BatchResult * W) :=
  bulkCreateStickies_fuel (length notes) notes chunkSize w.
End Rest.

End Batch.

Import Batch.

(* ================================================================== *)
(** ** The stdio tool transport ([McpTransport], transport-mcp.ts) *)
(* ================================================================== *)

Module Mcp.

(** *** Tool lookup by name pattern *)

(** The patterns of the source are words with optional underscores,
    matched anywhere in the name and without regard to case. *)
Inductive Atom : Type :=
| Lit (c : N)   (* c  *)
| Opt (c : N).  (* c? *)

Definition Regex := list Atom.

Definition lits (s : string) : Regex := map Lit (js s).

Definition upper (c : N) : N :=
  (if (97 <=? c) && (c <=? 122) then c - 32 else c)%N.

Definition ci_eq (a b : N) : bool := N.eqb (upper a) (upper b).

Fixpoint match_here (re : Regex) (s : jsstring) : bool :=
  match re with
  | [] => true
  | Lit c :: re' =>
      match s with
      | x :: s' => ci_eq c x && match_here re' s'
      | [] => false
      end
  | Opt c :: re' =>
      match s with
      | x :: s' => (ci_eq c x && match_here re' s') || match_here re' s
      | [] => match_here re' s
      end
  end.

(** [pattern.test(s)] *)
Fixpoint test (re : Regex) (s : jsstring) : bool :=
  match_here re s ||
  match s with
  | [] => false
  | _ :: s' => test re s'
  end.

Definition underscore : N := 95%N.

(** [/create_?sticky/i] and [/create_?sticky_?note/i] *)
Definition re_create_sticky : Regex :=
  lits "create" ++ [Opt underscore] ++ lits "sticky".

Definition re_create_sticky_note : Regex :=
  lits "create" ++ [Opt underscore] ++ lits "sticky" ++ [Opt underscore] ++ lits "note".

(** [interface McpTool] *)
Record McpTool : Type := mkTool {
  tool_name : jsstring;
  tool_description : jsstring
}.

(** [this.tools] as [connect] fills it in; it is [[]] before. *)
Definition connected_tools : list McpTool :=
  [ mkTool (js "get_board_info") (js "Get information about a Miro board");
    mkTool (js "list_boards") (js "List available Miro boards");
    mkTool (js "create_sticky_note") (js "Create a sticky note on a board");
    mkTool (js "bulk_create_items") (js "Create multiple items at once");
    mkTool (js "create_shape") (js "Create a shape on a board");
    mkTool (js "get_frames") (js "Get all frames from a board");
    mkTool (js "get_items_in_frame") (js "Get items in a specific frame") ].

(** [findTool(patterns)] *)
Fixpoint findTool (tools : list McpTool) (patterns : list Regex) : option McpTool :=
  match patterns with
  | [] => None
  | pattern :: rest =>
      match find (fun t => test pattern (tool_name t)) tools with
      | Some tool => Some tool
      | None => findTool tools rest
      end
  end.

(** *** Batch creation through the tool *)

Definition is_digit (c : N) : bool := ((48 <=? c) && (c <=? 57))%N.

Fixpoint take_digits (s : jsstring) : jsstring :=
  match s with
  | c :: s' => if is_digit c then c :: take_digits s' else []
  | [] => []
  end.

Definition created_prefix : jsstring := js "Created sticky note ".

Definition match_created_here (s : jsstring) : option jsstring :=
  if starts_with created_prefix s then
    match take_digits (skipn (length created_prefix) s) with
    | [] => None
    | digits => Some digits
    end
  else None.

(** [s.match(/Created sticky note (\d+)/)], giving the capture. *)
Fixpoint match_created (s : jsstring) : option jsstring :=
  match match_created_here s with
  | Some digits => Some digits
  | None =>
      match s with
      | [] => None
      | _ :: s' => match_created s'
      end
  end.

(** The [args] of one [create_sticky_note] call: no parent is sent. *)
Definition sticky_args (boardId : jsstring) (note : StickySpec) : JsVal :=
  VObj [ (js "boardId", VStr boardId);
         (js "content", VStr (content note));
         (js "x", VNum (note_x note));
         (js "y", VNum (note_y note));
         (js "color", VStr (js "yellow")) ].

(** What the [try] block does with the result of the call. *)
Definition record_created (results : BatchResult) (result : JsVal) : BatchResult :=
  let results1 := incr_ok results in
  if truthy (optprop result (js "id")) then
    push_created results1 (optprop result (js "id"))
  else
    match optprop result (js "result") with
    | VStr text =>
        if includes text (js "Created sticky note") then
          match match_created text with
          | Some digits => push_created results1 (VStr digits)
          | None => results1
          end
        else results1
    | _ => results1
    end.

Section Bulk.
Context {W : Type}.
(** [this.call(tool, args)] and the passing of [ms] milliseconds. *)
Variable call : McpTool -> JsVal -> Async W JsVal.
Variable pause : Z -> W -> W.
Variable tools : list McpTool.
Variable boardId : jsstring.

(** The tool calls a batch makes when it visits [notes] in order. *)
Fixpoint calls_of (singleTool : McpTool) (notes : list StickySpec) (w : W)
    : list (StickySpec * (JsVal + JsVal)) :=
  match notes with
  | [] => []
  | note :: rest =>
      match call singleTool (sticky_args boardId note) w with
      | (inr result, w') => (note, inr result) :: calls_of singleTool rest (pause 100 w')
      | (inl error, w') => (note, inl error) :: calls_of singleTool rest w'
      end
  end.

Definition create_one (singleTool : McpTool) (results : BatchResult)
    (note : StickySpec) (w : W) : BatchResult * W :=
  match call singleTool (sticky_args boardId note) w with
  | (inr result, w') => (record_created results result, pause 100 w')
  | (inl error, w') => (push_failed results note error, w')
  end.

Fixpoint for_notes (singleTool : McpTool) (notes : list StickySpec)
    (results : BatchResult) (w : W) : BatchResult * W :=
  match notes with
  | [] => (results, w)
  | note :: rest =>
      let '(results', w') := create_one singleTool results note w in
      for_notes singleTool rest results' w'
  end.

Definition lacks_tool : JsVal :=
  mkError (js "MCP server lacks sticky note creation tool").

Definition bulkCreateStickies (notes : list StickySpec) (chunkSize : nat)
    : Async W BatchResult :=
  match findTool tools [re_create_sticky; re_create_sticky_note] with
  | None => throw lacks_tool
  | Some singleTool =>
      fun w =>
        let '(results, w') := for_notes singleTool notes Batch.empty w in
        (inr results, w')
  end.
End Bulk.

End Mcp.

(* ================================================================== *)
(** ** One pending tool call on the child's stdout ([McpTransport.call]) *)
(* ================================================================== *)

Module Stdio.

(** *** [data.toString()]: UTF-8 decoding with replacement

    Each [data] event carries a [Buffer]; [toString()] decodes it on its
    own as UTF-8, and every byte that is not part of a well-formed
    sequence inside that buffer becomes U+FFFD. *)

Definition Buffer := list Byte.byte.

Definition replacement : N := 65533%N.

(** A multi-byte sequence in progress. *)
Record Partial : Type := mkPartial {
  acc : N;          (* bits of the code point read so far *)
  remaining : nat;  (* continuation bytes still expected, at least 1 *)
  lower : N;        (* range allowed for the next byte *)
  upper : N
}.

Definition between (lo b hi : N) : bool := ((lo <=? b) && (b <=? hi))%N.

(** A byte met when no sequence is in progress. *)
Definition start (b : N) : list N * option Partial :=
  if (b <=? 127)%N then ([b], None)
  else if between 194 b 223 then
    ([], Some (mkPartial (N.land b 31) 1 128 191))
  else if between 224 b 239 then
    ([], Some (mkPartial (N.land b 15) 2
                 (if (b =? 224)%N then 160 else 128)
                 (if (b =? 237)%N then 159 else 191))%N)
  else if between 240 b 244 then
    ([], Some (mkPartial (N.land b 7) 3
                 (if (b =? 240)%N then 144 else 128)
                 (if (b =? 244)%N then 143 else 191))%N)
  else ([replacement], None).

Definition step (st : option Partial) (b : N) : list N * option Partial :=
  match st with
  | None => start b
  | Some p =>
      if between (lower p) b (upper p) then
        let acc' := N.lor (N.shiftl (acc p) 6) (N.land b 63) in
        match remaining p with
        | S (S r) => ([], Some (mkPartial acc' (S r) 128 191))
        | _ => ([acc'], None)
        end
      else
        let '(out, st') := start b in (replacement :: out, st')
  end.

(** Code points of a buffer; a sequence cut off by the end of the buffer
    is replaced as well. *)
Fixpoint decode_from (st : option Partial) (bs : Buffer) : list N :=
  match bs with
  | [] => match st with None => [] | Some _ => [replacement] end
  | b :: rest =>
      let '(out, st') := step st (Byte.to_N b) in
      out ++ decode_from st' rest
  end.

(** The code points read from [bs], without the replacement for a
    sequence still open at the end, and that sequence. *)
Fixpoint feed (st : option Partial) (bs : Buffer) : list N * option Partial :=
  match bs with
  | [] => ([], st)
  | b :: rest =>
      let '(out, st') := step st (Byte.to_N b) in
      let '(outs, st'') := feed st' rest in
      (out ++ outs, st'')
  end.

(** What the end of a buffer adds for a sequence still open. *)
Definition flush (st : option Partial) : list N :=
  match st with
  | None => []
  | Some _ => [replacement]
  end.

(** The buffer ends between two characters. *)
Definition ends_on_boundary (bs : Buffer) : bool :=
  match snd (feed None bs) with
  | None => true
  | Some _ => false
  end.

(** UTF-16 code units of a code point. *)
Definition utf16 (cp : N) : jsstring :=
  if (cp <? 65536)%N then [cp]
  else
    let v := (cp - 65536)%N in
    [ (55296 + N.shiftr v 10)%N; (56320 + N.land v 1023)%N ].

Definition toString (data : Buffer) : jsstring :=
  flat_map utf16 (decode_from None data).

(** Bytes of an ASCII literal. *)
Definition bytes (s : string) : Buffer := list_byte_of_string s.

(** *** The [data] listener of one call *)

Definition quote : N := 34%N.
Definition newline : N := 10%N.

(** The text ["id"], quotes included. *)
Definition id_key : jsstring := quote :: js "id" ++ [quote].

Section Call.
(** [JSON.parse]; [None] is its SyntaxError. *)
Variable JSON_parse : jsstring -> option JsVal.
(** The string conversion [join] applies to an element that is neither
    a string nor [null] nor [undefined]. *)
Variable ToString : JsVal -> jsstring.
(** [Date.now()] and the random suffix, as text. *)
Variable now : jsstring.
Variable random_suffix : jsstring.

Variable toolName : jsstring.
Variable args : JsVal.
(** [message.id] *)
Variable messageId : Z.

Definition decimal (n : nat) : jsstring :=
  js (NilEmpty.string_of_uint (Nat.to_uint n)).

(** [args.items?.map((_, index) => ({ id: ..., type: 'sticky_note' }))] *)
Fixpoint synth_items (index : nat) (items : list JsVal) : list JsVal :=
  match items with
  | [] => []
  | _ :: rest =>
      VObj [ (js "id", VStr (js "mcp_item_" ++ now ++ js "_" ++ decimal index));
             (js "type", VStr (js "sticky_note")) ]
      :: synth_items (S index) rest
  end.

(** [parseToolResponse(toolName, textContent, args)]; [None] when it
    throws a TypeError. *)
Definition parseToolResponse (textContent : jsstring) : option JsVal :=
  if str_eqb toolName (js "bulk_create_items") then
    match prop args (js "items") with
    | None => None
    | Some (VArr items) => Some (VObj [(js "created", VArr (synth_items 0 items))])
    | Some VUndefined | Some VNull => Some (VObj [(js "created", VArr [])])
    | Some _ => None
    end
  else if str_eqb toolName (js "create_frame") then
    match prop args (js "data"), prop args (js "position"), prop args (js "geometry") with
    | Some d, Some p, Some g =>
        Some (VObj [ (js "id", VStr (js "mcp_frame_" ++ now ++ js "_" ++ random_suffix));
                     (js "type", VStr (js "frame"));
                     (js "data", d); (js "position", p); (js "geometry", g) ])
    | _, _, _ => None
    end
  else if str_eqb toolName (js "get_frames")
          || str_eqb toolName (js "get_items_in_frame") then
    match JSON_parse textContent with
    | Some v => Some v
    | None => Some (VArr [])
    end
  else Some (VObj [(js "result", VStr textContent)]).

(** [content.filter((c) => c.type === 'text').map((c) => c.text)];
    [None] when an element is [null]. *)
Fixpoint text_blocks (content : list JsVal) : option (list JsVal) :=
  match content with
  | [] => Some []
  | c :: rest =>
      match prop c (js "type"), text_blocks rest with
      | Some ty, Some texts =>
          if is_str ty (js "text") then Some (optprop c (js "text") :: texts)
          else Some texts
      | _, _ => None
      end
  end.

Definition join_text (v : JsVal) : jsstring :=
  match v with
  | VStr s => s
  | VUndefined | VNull => []
  | other => ToString other
  end.

(** What the promise is resolved with for a response whose id matched
    (the statements after [off]); [None] when they throw. *)
Definition resolved_value (response : JsVal) : option JsVal :=
  let result := optprop response (js "result") in
  match optprop result (js "content") with
  | VArr content =>
      match text_blocks content with
      | Some texts =>
          let textContent := join [newline] (map join_text texts) in
          match JSON_parse textContent with
          | Some parsed => Some parsed
          | None => parseToolResponse textContent
          end
      | None => None
      end
  | _ => Some result
  end.

(** [for (const line of lines) { ... }]: whether [off] was called, and
    the value [resolve] was called with.  A throw after [off] is caught
    by the [catch] of the loop body, and the loop goes on. *)
Fixpoint scan (lines : list jsstring) : bool * option JsVal :=
  match lines with
  | [] => (false, None)
  | line :: rest =>
      if truthy (VStr (trim line)) && includes line id_key then
        match JSON_parse line with
        | Some response =>
            match prop response (js "id") with
            | Some id =>
                if is_num id messageId then
                  match resolved_value response with
                  | Some v => (true, Some v)
                  | None => (true, snd (scan rest))
                  end
                else scan rest
            | None => scan rest
            end
        | None => scan rest
        end
      else scan rest
  end.

(** The call as the event loop sees it. *)
Record Pending : Type := mkPending {
  responseData : jsstring;
  listening : bool;                  (* onData is registered on stdout *)
  settled : option (JsVal + JsVal)   (* rejected with / resolved with *)
}.

Definition initial : Pending := mkPending [] true None.

(** A promise is settled once. *)
Definition settle (old : option (JsVal + JsVal)) (v : JsVal + JsVal)
    : option (JsVal + JsVal) :=
  match old with
  | Some _ => old
  | None => Some v
  end.

Definition onData (p : Pending) (data : Buffer) : Pending :=
  let buffer := responseData p ++ toString data in
  let '(off, resolved) := scan (split newline buffer) in
  mkPending buffer
            (if off then false else listening p)
            (match resolved with
             | Some v => settle (settled p) (inr v)
             | None => settled p
             end).

Definition timeout_error : JsVal := mkError (js "Tool call timeout").

Inductive StreamEvent : Type :=
| Data (data : Buffer)   (* stdout emits 'data' *)
| Timeout.               (* the 10 s timer fires *)

Definition deliver (p : Pending) (ev : StreamEvent) : Pending :=
  match ev with
  | Data data => if listening p then onData p data else p
  | Timeout =>
      mkPending (responseData p) false (settle (settled p) (inl timeout_error))
  end.

Definition run (events : list StreamEvent) : Pending :=
  fold_left deliver events initial.
End Call.

End Stdio.

(* ================================================================== *)
(** ** The REST helpers ([miroGET], [miroPOST], frames and stickies) *)
(* ================================================================== *)

Module Rest.

(** The three requests the program sends to the board service. *)
Inductive Request : Type :=
| ListItems (type : jsstring) (limit : nat)  (* GET  /boards/{id}/items?type=..&limit=.. *)
| CreateFrame (body : JsVal)                 (* POST /boards/{id}/frames *)
| CreateStickyNote (body : JsVal).           (* POST /boards/{id}/sticky_notes *)

(** What [fetch] resolves with; [resp_json] is [None] when the body is
    not a JSON document. *)
Record Response : Type := mkResponse {
  resp_ok : bool;
  resp_status : Z;
  resp_text : jsstring;
  resp_json : option JsVal
}.

Definition is_write (r : Request) : bool :=
  match r with
  | ListItems _ _ => false
  | CreateFrame _ | CreateStickyNote _ => true
  end.

Definition syntaxError : JsVal := VObj [(js "name", VStr (js "SyntaxError"))].

Section Helpers.
Context {W : Type}.
Variable fetch : Request -> Async W Response.

(** The part [miroGET] and [miroPOST] share; the message of the error is
    shortened to its first words. *)
Definition miro (verb : string) (req : Request) : Async W JsVal :=
  (resp <- Retry.backoff (fetch req) 5 ;;
   if negb (resp_ok resp) then
     throw (VObj [ (js "message", VStr (js verb));
                   (js "status", VNum (of_Z (resp_status resp)));
                   (js "body", VStr (resp_text resp)) ])
   else
     match resp_json resp with
     | Some v => ret v
     | None => throw syntaxError
     end)%async.

Definition miroGET (req : Request) : Async W JsVal := miro "Miro GET" req.
Definition miroPOST (req : Request) : Async W JsVal := miro "Miro POST" req.

(** [f?.data?.title?.trim() === title.trim()]; [None] when [trim] is
    called on something that has no such method. *)
Definition title_matches (title : jsstring) (f : JsVal) : option bool :=
  match optprop (optprop f (js "data")) (js "title") with
  | VUndefined | VNull => Some false
  | VStr t => Some (str_eqb (trim t) (trim title))
  | _ => None
  end.

(** [arr.find(pred)] for a predicate that may throw. *)
Fixpoint find_throwing (pred : JsVal -> option bool) (arr : list JsVal)
    : option (option JsVal) :=
  match arr with
  | [] => Some None
  | f :: rest =>
      match pred f with
      | None => None
      | Some true => Some (Some f)
      | Some false => find_throwing pred rest
      end
  end.

(** [(v?.data || [])] as the array a method is called on. *)
Definition data_array (v : JsVal) : option (list JsVal) :=
  match or_else (optprop v (js "data")) (VArr []) with
  | VArr arr => Some arr
  | _ => None
  end.

(** The [FrameSpec] built from a service item [m]. *)
Definition frame_of (m : JsVal) (title : jsstring) (x y width height : number)
    : FrameSpec :=
  let position := optprop m (js "position") in
  let geometry := optprop m (js "geometry") in
  mkFrame (optprop m (js "id")) title
          (nullish_or (optprop position (js "x")) (VNum x))
          (nullish_or (optprop position (js "y")) (VNum y))
          (nullish_or (optprop geometry (js "width")) (VNum width))
          (nullish_or (optprop geometry (js "height")) (VNum height)).

Definition frame_body (title : jsstring) (x y width height : number) : JsVal :=
  VObj [ (js "data", VObj [(js "title", VStr title)]);
         (js "position", VObj [(js "x", VNum x); (js "y", VNum y)]);
         (js "geometry", VObj [(js "width", VNum width); (js "height", VNum height)]);
         (js "style", VObj [(js "fillColor", VStr (js "transparent"))]) ].

Definition getOrCreateFrame (title : jsstring) (x y width height : number)
    : Async W FrameSpec :=
  (frames <- miroGET (ListItems (js "frame") 50) ;;
   match data_array frames with
   | None => throw typeError
   | Some arr =>
       match find_throwing (title_matches title) arr with
       | None => throw typeError
       | Some (Some m) => ret (frame_of m title x y width height)
       | Some None =>
           created <- miroPOST (CreateFrame (frame_body title x y width height)) ;;
           match prop created (js "id") with
           | None => throw typeError
           | Some _ => ret (frame_of created title x y width height)
           end
       end
   end)%async.

(** [n?.parent?.id === frameId] *)
Definition in_frame (frameId : JsVal) (n : JsVal) : bool :=
  strict_eq (optprop (optprop n (js "parent")) (js "id")) frameId.

Definition listStickyNotesInFrame (frameId : JsVal) : Async W (list JsVal) :=
  (notes <- miroGET (ListItems (js "sticky_note") 50) ;;
   match data_array notes with
   | None => throw typeError
   | Some arr => ret (filter (in_frame frameId) arr)
   end)%async.

(** The body [createSticky] posts: content, position and, for a truthy
    width, geometry.  [note.parentId] is not read. *)
Definition sticky_body (note : StickySpec) : JsVal :=
  VObj ([ (js "data", VObj [(js "content", VStr (content note))]);
          (js "position", VObj [(js "x", VNum (note_x note));
                                (js "y", VNum (note_y note))]) ]
        ++ match note_width note with
           | Some w =>
               if truthy (VNum w)
               then [(js "geometry", VObj [(js "width", VNum w)])]
               else []
           | None => []
           end).

Definition createSticky (note : StickySpec) : Async W JsVal :=
  miroPOST (CreateStickyNote (sticky_body note)).

(** [bulkCreateStickies(boardId, notes, chunkSize)] as the main flow
    awaits it.  The loop ends for [chunkSize >= 1]
    ([bulk_rest_returns]); for [chunkSize = 0] and a note to create it
    never does, and no value is awaited. *)
Definition bulkCreateStickies (notes : list StickySpec) (chunkSize : nat)
    : W -> option ((JsVal + BatchResult) * W) :=
  fun w =>
    match Batch.bulkCreateStickies createSticky notes chunkSize w with
    | Some (results, w') => Some (inr results, w')
    | None => None
    end.
End Helpers.

(** *** The board service

    The service is outside the repository.  It is taken to keep the
    items of one board in creation order, to answer a listing with the
    first [limit] items of the type asked for, and to store a created
    item with a fresh id, its type and the fields of the request body
    (items are [{id, type, data, position, geometry, parent}]). *)

Record World : Type := mkWorld {
  items : list JsVal;
  next_id : nat;
  requests : list Request   (* every request received, oldest first *)
}.

Definition fresh_id (w : World) : jsstring :=
  js (NilEmpty.string_of_uint (Nat.to_uint (next_id w))).

Definition has_type (ty : jsstring) (item : JsVal) : bool :=
  is_str (optprop item (js "type")) ty.

Definition store (ty : string) (body : JsVal) (w : World) : JsVal :=
  VObj ((js "id", VStr (fresh_id w)) :: (js "type", VStr (js ty))
        :: match body with VObj fields => fields | _ => [] end).

Definition service (req : Request) : Async World Response :=
  fun w =>
    let log := requests w ++ [req] in
    match req with
    | ListItems ty limit =>
        let page := firstn limit (filter (has_type ty) (items w)) in
        (inr (mkResponse true 200 [] (Some (VObj [(js "data", VArr page)]))),
         mkWorld (items w) (next_id w) log)
    | CreateFrame body =>
        let item := store "frame" body w in
        (inr (mkResponse true 201 [] (Some item)),
         mkWorld (items w ++ [item]) (S (next_id w)) log)
    | CreateStickyNote body =>
        let item := store "sticky_note" body w in
        (inr (mkResponse true 201 [] (Some item)),
         mkWorld (items w ++ [item]) (S (next_id w)) log)
    end.

Definition empty_board : World := mkWorld [] 1 [].

End Rest.

(* ================================================================== *)
(** ** The main flow (miro-poc.ts) *)
(* ================================================================== *)

Module Main.

(** [interface InsightsRisks] *)
Record InsightsRisks : Type := mkExtracted {
  runId : jsstring;
  insights : list jsstring;
  risks : list jsstring
}.

(** [sha256(transcript).slice(0, 10)], from the hex digest. *)
Definition runId_of (digest : jsstring) : jsstring := firstn 10 digest.

(** What [getInsightsRisksFromClaude] returns for a transcript with this
    digest when the model's answer passes validation. *)
Definition extraction (digest : jsstring) (answer_insights answer_risks : list jsstring)
    : InsightsRisks :=
  mkExtracted (runId_of digest) (firstn 12 answer_insights) (firstn 12 answer_risks).

(** The marker [[runId:<id>]] *)
Definition marker (id : jsstring) : jsstring := js "[runId:" ++ id ++ js "]".

(** [decorate]: the text, an empty line, the marker. *)
Definition decorate (id : jsstring) (s : jsstring) : jsstring :=
  s ++ [Stdio.newline; Stdio.newline] ++ marker id.

(** [n?.data?.content] when it is a string. *)
Definition content_of (n : JsVal) : option jsstring :=
  match optprop (optprop n (js "data")) (js "content") with
  | VStr c => Some c
  | _ => None
  end.

Definition hasRunId (id : jsstring) (n : JsVal) : bool :=
  match content_of n with
  | Some c => includes c (marker id)
  | None => false
  end.

(** [new Set(existing.filter(hasRunId).map((n) => n.data.content))] *)
Definition skipSet (id : jsstring) (existing : list JsVal) : list jsstring :=
  flat_map (fun n => match content_of n with Some c => [c] | None => [] end)
           (filter (hasRunId id) existing).

(** [set.has(s)] *)
Definition has (set : list jsstring) (s : jsstring) : bool :=
  existsb (str_eqb s) set.

(** [bullets.filter((s) => !skip.has(s))] *)
Definition toCreate (id : jsstring) (existing : list JsVal) (bullets : list jsstring)
    : list jsstring :=
  filter (fun s => negb (has (skipSet id existing) s)) bullets.

(** [interface TransportLayer].  A batch may keep the caller waiting for
    ever, so its result is optional. *)
Record TransportLayer (W : Type) : Type := mkTransport {
  getOrCreateFrame : jsstring -> number -> number -> number -> number -> Async W FrameSpec;
  listStickyNotesInFrame : JsVal -> Async W (list JsVal);
  bulkCreateStickies : list StickySpec -> nat -> W -> option ((JsVal + BatchResult) * W)
}.

(** [class RestTransport] over a given [fetch]. *)
Definition RestTransport {W} (fetch : Rest.Request -> Async W Rest.Response)
    : TransportLayer W :=
  mkTransport (Rest.getOrCreateFrame fetch)
              (Rest.listStickyNotesInFrame fetch)
              (Rest.bulkCreateStickies fetch).

(** The preview object, with the notes it counts. *)
Record Preview : Type := mkPreview {
  insightsFrame : FrameSpec;
  risksFrame : FrameSpec;
  insightsToCreate : list jsstring;
  risksToCreate : list jsstring;
  insightsNotes : list StickySpec;
  risksNotes : list StickySpec
}.

(** The summary object. *)
Record Summary : Type := mkSummary {
  sum_created : nat;
  sum_failed : nat;
  insightsWithRunId : nat;
  risksWithRunId : nat;
  failures : list (StickySpec * JsVal)
}.

(** How a run that does not throw ends. *)
Inductive Outcome : Type :=
| DryRun (p : Preview)                  (* process.exit(0) at the gate *)
| Executed (p : Preview) (s : Summary).

Definition preview_of (o : Outcome) : Preview :=
  match o with
  | DryRun p => p
  | Executed p _ => p
  end.

(** [Promise.all([a, b])]: both calls are started; the first rejection
    wins. *)
Definition promise_all2 {W A B} (a : Async W A) (b : Async W B) : Async W (A * B) :=
  fun w =>
    let '(ra, w1) := a w in
    let '(rb, w2) := b w1 in
    match ra, rb with
    | inr x, inr y => (inr (x, y), w2)
    | inl e, _ => (inl e, w2)
    | _, inl e => (inl e, w2)
    end.

Definition FRAME_W : number := 1400%float.
Definition FRAME_H : number := 900%float.

Definition three_columns : LayoutOpts := mkOpts (Some 3%float) None None None None None.

Section Flow.
Context {W : Type}.
(** The conversion to a number of a string, an array or an object. *)
Variable ToNumber : JsVal -> number.
Variable transport : TransportLayer W.
Variable EXECUTE : bool.
Variable extracted : InsightsRisks.

(** Steps 2 to 5: frames, existing notes, delta, layout, preview. *)
Definition prepare : Async W Preview :=
  (let insightsBullets := map (decorate (runId extracted)) (insights extracted) in
   let risksBullets := map (decorate (runId extracted)) (risks extracted) in
   iFrame <- getOrCreateFrame transport (js "Insights") (-900)%float 0%float FRAME_W FRAME_H ;;
   rFrame <- getOrCreateFrame transport (js "Risks") 900%float 0%float FRAME_W FRAME_H ;;
   existing <- promise_all2
                 (listStickyNotesInFrame transport (frame_id iFrame))
                 (listStickyNotesInFrame transport (frame_id rFrame)) ;;
   let iToCreate := toCreate (runId extracted) (fst existing) insightsBullets in
   let rToCreate := toCreate (runId extracted) (snd existing) risksBullets in
   let iNotes := map (set_parent (frame_id iFrame))
                     (gridLayoutInFrame ToNumber iFrame iToCreate three_columns) in
   let rNotes := map (set_parent (frame_id rFrame))
                     (gridLayoutInFrame ToNumber rFrame rToCreate three_columns) in
   ret (mkPreview iFrame rFrame iToCreate rToCreate iNotes rNotes))%async.

Definition countRunId (arr : list JsVal) : nat :=
  length (filter (hasRunId (runId extracted)) arr).

(** Steps 6 and 7: create, list again, report. *)
Definition execute (p : Preview) (w : W) : option ((JsVal + Outcome) * W) :=
  match bulkCreateStickies transport (insightsNotes p) 20 w with
  | None => None
  | Some (inl e, w1) => Some (inl e, w1)
  | Some (inr created1, w1) =>
      match bulkCreateStickies transport (risksNotes p) 20 w1 with
      | None => None
      | Some (inl e, w2) => Some (inl e, w2)
      | Some (inr created2, w2) =>
          match promise_all2
                  (listStickyNotesInFrame transport (frame_id (insightsFrame p)))
                  (listStickyNotesInFrame transport (frame_id (risksFrame p))) w2 with
          | (inl e, w3) => Some (inl e, w3)
          | (inr (postInsights, postRisks), w3) =>
              Some (inr (Executed p
                      (mkSummary (ok created1 + ok created2)
                                 (length (failed created1) + length (failed created2))
                                 (countRunId postInsights)
                                 (countRunId postRisks)
                                 (failed created1 ++ failed created2))),
                    w3)
          end
      end
  end.

Definition main (w : W) : option ((JsVal + Outcome) * W) :=
  match prepare w with
  | (inl e, w') => Some (inl e, w')
  | (inr p, w') =>
      if negb EXECUTE then Some (inr (DryRun p), w')
      else execute p w'
  end.
End Flow.

(** The run against the board service of [Rest]. *)
Definition run_rest (ToNumber : JsVal -> number) (EXECUTE : bool)
    (extracted : InsightsRisks) (w : Rest.World)
    : option ((JsVal + Outcome) * Rest.World) :=
  main ToNumber (RestTransport Rest.service) EXECUTE extracted w.

End Main.

(* ================================================================== *)
(** ** Concrete collaborators used in examples *)
(* ================================================================== *)

Module Examples.

(** An error object carrying [status]. *)
Definition http_error (status : Z) : JsVal :=
  VObj [(js "message", VStr (js "request failed"));
        (js "status", VNum (of_Z status))].

(** Operations over a world that counts the calls made. *)
Definition always_throws (status : Z) : Async nat unit :=
  fun calls => (inl (http_error status), S calls).

Definition note (text : string) : StickySpec :=
  mkSticky (js text) 0%float 0%float (Some 180%float) None None.

Definition five_notes : list StickySpec :=
  [note "one"; note "two"; note "three"; note "four"; note "five"].

Definition item_with_id (calls : nat) : JsVal :=
  VObj [(js "id", VStr (js "item" ++ js (NilEmpty.string_of_uint (Nat.to_uint calls))))].

(** A create call that fails the third time it is made. *)
Definition third_fails : StickySpec -> Async nat JsVal :=
  fun _ calls =>
    if Nat.eqb calls 2 then (inl (http_error 500), S calls)
    else (inr (item_with_id calls), S calls).

Definition third_fails_call : Mcp.McpTool -> JsVal -> Async nat JsVal :=
  fun _ _ calls =>
    if Nat.eqb calls 2 then (inl (http_error 500), S calls)
    else (inr (item_with_id calls), S calls).

Definition no_pause : Z -> nat -> nat := fun _ calls => calls.

(** A conversion that finds no number in a string, an array or an object. *)
Definition not_a_number : JsVal -> number := fun _ => nan.

(** The frame of the main flow for the insights, and seven items. *)
Definition insights_frame : FrameSpec :=
  mkFrame (VStr (js "1")) (js "Insights")
          (VNum (-900)%float) (VNum 0%float) (VNum 1400%float) (VNum 900%float).

Definition seven_items : list jsstring :=
  [js "a"; js "b"; js "c"; js "d"; js "e"; js "f"; js "g"].

(** Hex digests of two transcripts, 64 characters each. *)
Definition digest_a : jsstring :=
  js "e3b0c44298fc1c149afbf4c8996fb92427ae41e4649b934ca495991b7852b855".

Definition digest_b : jsstring :=
  js "9f86d081884c7d659a2feaa0c55ad015a3bf4f1b2b0b822cd15d6c15b0f00a08".

(** A sticky note as the service lists it. *)
Definition listed (text : jsstring) : JsVal :=
  VObj [(js "id", VStr (js "7")); (js "type", VStr (js "sticky_note"));
        (js "data", VObj [(js "content", VStr text)])].

(** One insight, no risk. *)
Definition one_insight : Main.InsightsRisks :=
  Main.extraction digest_a [js "Ship on Friday"] [].

(** Bytes of a JSON text written with apostrophes for the quotes. *)
Definition json (s : string) : Stdio.Buffer :=
  map (fun b => if Byte.eqb b Byte.x27 then Byte.x22 else b) (Stdio.bytes s).

(** A response line whose result is the word cafe with an acute accent
    on its last letter (bytes C3 A9 in UTF-8), and the two
    stdout events that cut it between the two bytes of its last letter. *)
Definition line_head : Stdio.Buffer :=
  json "{'jsonrpc':'2.0','id':1,'result':'caf" ++ [Byte.xc3].

Definition line_tail : Stdio.Buffer := [Byte.xa9] ++ json "'}".

Definition first_event : Stdio.Buffer := line_head.
Definition second_event : Stdio.Buffer := line_tail ++ [Byte.x0a].

Definition response (id : Z) (result : JsVal) : JsVal :=
  VObj [(js "jsonrpc", VStr (js "2.0")); (js "id", VNum (of_Z id));
        (js "result", result)].

Definition cafe : jsstring := js "caf" ++ [233%N].
Definition cafe_replaced : jsstring := js "caf" ++ [65533%N; 65533%N].

(** A parser that knows the two texts of that line. *)
Definition two_line_parse (text : jsstring) : option JsVal :=
  if str_eqb text (Stdio.toString (line_head ++ line_tail))
  then Some (response 1 (VStr cafe))
  else if str_eqb text (Stdio.toString line_head ++ Stdio.toString line_tail)
  then Some (response 1 (VStr cafe_replaced))
  else None.

(** A service that answers every request with status 201 and the JSON
    document [null]. *)
Definition null_fetch : Rest.Request -> Async nat Rest.Response :=
  fun _ calls => (inr (Rest.mkResponse true 201 (js "null") (Some VNull)), S calls).

End Examples.

(* ================================================================== *)
(** ** Runs of the retry wrapper and states of the board *)
(* ================================================================== *)

Module Runs.

(** The world after [k] attempts of [fn] in a row that each threw
    something other than a 401 or a 403; [None] when one of them did
    anything else. *)
Fixpoint after_failures {W T : Type} (fn : Async W T) (k : nat) (w : W) : option W :=
  match k with
  | O => Some w
  | S k' =>
      match fn w with
      | (inl e, w') => if Retry.is_auth e then None else after_failures fn k' w'
      | (inr _, _) => None
      end
  end.

(** The frames and the sticky notes a board holds, in creation order. *)
Definition frames_on (w : Rest.World) : list JsVal :=
  filter (Rest.has_type (js "frame")) (Rest.items w).

Definition stickies_on (w : Rest.World) : list JsVal :=
  filter (Rest.has_type (js "sticky_note")) (Rest.items w).

(** The requests that change the board, among those received. *)
Definition writes (w : Rest.World) : list Rest.Request :=
  filter Rest.is_write (Rest.requests w).

Definition is_sticky_write (r : Rest.Request) : bool :=
  match r with
  | Rest.CreateStickyNote _ => true
  | _ => false
  end.

(** From [w] to [w']: no sticky note was added and no request to create
    one was sent; at most [k] items were added and at most [k] writes
    sent. *)
Definition adds_frames_only (k : nat) (w w' : Rest.World) : Prop :=
  stickies_on w' = stickies_on w
  /\ filter is_sticky_write (Rest.requests w') = filter is_sticky_write (Rest.requests w)
  /\ length (Rest.items w') <= length (Rest.items w) + k
  /\ length (writes w') <= length (writes w) + k.

(** The board after the create requests for [notes], sent in order. *)
Fixpoint after_creating (notes : list StickySpec) (w : Rest.World) : Rest.World :=
  match notes with
  | [] => w
  | n :: rest => after_creating rest (snd (Rest.createSticky Rest.service n w))
  end.

(** The ids the service gives them. *)
Fixpoint ids_created (notes : list StickySpec) (w : Rest.World) : list JsVal :=
  match notes with
  | [] => []
  | n :: rest =>
      VStr (Rest.fresh_id w)
      :: ids_created rest (snd (Rest.createSticky Rest.service n w))
  end.

End Runs.

(* ================================================================== *)
(** ** Names, without regard to case *)
(* ================================================================== *)

Module Names.

(** [p] is at the start of [s], letters compared without case. *)
Fixpoint ci_starts (p s : jsstring) : bool :=
  match p, s with
  | [], _ => true
  | a :: p', b :: s' => Mcp.ci_eq a b && ci_starts p' s'
  | _ :: _, [] => false
  end.

(** [p] occurs in [s], letters compared without case. *)
Fixpoint ci_includes (s p : jsstring) : bool :=
  ci_starts p s ||
  match s with
  | [] => false
  | _ :: s' => ci_includes s' p
  end.

End Names.

(* ================================================================== *)
(** ** Command line and start-up checks (miro-poc.ts) *)
(* ================================================================== *)

Module Cli.

Definition dashes : jsstring := js "--".
Definition equals : N := 61%N.

(** The [args] map: [set] replaces the value of a key or adds the key,
    [get] gives [undefined] for a key that was never set. *)
Definition Args := list (jsstring * JsVal).

Fixpoint set (k : jsstring) (v : JsVal) (m : Args) : Args :=
  match m with
  | [] => [(k, v)]
  | (k', v') :: rest =>
      if str_eqb k k' then (k, v) :: rest else (k', v') :: set k v rest
  end.

Definition get (k : jsstring) (m : Args) : JsVal := lookup k m.

(** [k.replace(/^--/, "")] *)
Definition strip (k : jsstring) : jsstring :=
  if starts_with dashes k then skipn 2 k else k.

(** The loop over [process.argv] from index 2 on; [argv] is that tail.
    An option written [--k=v] takes the text between the first and the
    second [=]; one written [--k] takes the next argument unless there is
    none or it starts with [--], and then skips it. *)
Fixpoint parse (argv : list jsstring) (args : Args) : Args :=
  match argv with
  | [] => args
  | a :: rest =>
      if starts_with dashes a then
        if includes a [equals] then
          match split equals a with
          | k :: v :: _ => parse rest (set (strip k) (VStr v) args)
          | [k] => parse rest (set (strip k) VUndefined args)
          | [] => parse rest args
          end
        else
          match rest with
          | [] => parse rest (set (strip a) (VBool true) args)
          | v :: rest' =>
              if starts_with dashes v
              then parse rest (set (strip a) (VBool true) args)
              else parse rest' (set (strip a) (VStr v) args)
          end
      else parse rest args
  end.

(** The environment variables the program reads; [None] is unset. *)
Record Env : Type := mkEnv {
  MIRO_BOARD_ID : option jsstring;
  env_MIRO_TOKEN : option jsstring;
  env_ANTHROPIC_API_KEY : option jsstring
}.

Definition env_val (v : option jsstring) : JsVal :=
  match v with
  | Some s => VStr s
  | None => VUndefined
  end.

(** The constants computed from the arguments and the environment. *)
Record Config : Type := mkConfig {
  BOARD_ID : JsVal;
  TRANSCRIPT_PATH : JsVal;
  EXECUTE : bool;
  MODEL : JsVal;
  TRANSPORT : JsVal;
  MCP_CMD : JsVal;
  MCP_ARGS : JsVal;
  MCP_SERVER_PATH : JsVal;
  MIRO_TOKEN : JsVal;
  ANTHROPIC_API_KEY : JsVal
}.

Definition config (argv : list jsstring) (env : Env) : Config :=
  let args := parse argv [] in
  mkConfig
    (or_else (get (js "board") args) (or_else (env_val (MIRO_BOARD_ID env)) (VStr [])))
    (or_else (get (js "transcript") args) (VStr []))
    (truthy (get (js "execute") args))
    (or_else (get (js "model") args) (VStr (js "claude-3-5-sonnet-latest")))
    (or_else (get (js "transport") args) (VStr (js "rest")))
    (or_else (get (js "mcp-cmd") args) (VStr (js "node")))
    (or_else (get (js "mcp-args") args) (VStr []))
    (or_else (get (js "mcp-server") args) (VStr (js "./miro-server.js")))
    (or_else (env_val (env_MIRO_TOKEN env)) (VStr []))
    (or_else (env_val (env_ANTHROPIC_API_KEY env)) (VStr [])).

(** The checks before the main flow: [Exit] is [console.error] of the
    message and [process.exit(1)]. *)
Inductive Startup : Type :=
| Exit (message : jsstring)
| Started (c : Config).

Definition startup (argv : list jsstring) (env : Env) : Startup :=
  let c := config argv env in
  if negb (truthy (BOARD_ID c)) then
    Exit (js "Missing --board <boardId> or MIRO_BOARD_ID env var")
  else if negb (truthy (TRANSCRIPT_PATH c)) then
    Exit (js "Missing --transcript <path>")
  else if negb (truthy (MIRO_TOKEN c)) then
    Exit (js "Missing MIRO_TOKEN env var")
  else if negb (truthy (ANTHROPIC_API_KEY c)) then
    Exit (js "Missing ANTHROPIC_API_KEY env var")
  else Started c.

End Cli.

(* ================================================================== *)
(** ** The extraction step ([validateLLMOutput], [getInsightsRisksFromClaude]) *)
(* ================================================================== *)

Module Extract.

(** [typeof s === "string" && s.trim().length > 0] *)
Definition is_bullet (s : JsVal) : bool :=
  match s with
  | VStr t => negb (Nat.eqb (length (trim t)) 0)
  | _ => false
  end.

(** [Array.isArray(a) && a.every(...)] *)
Definition isArrayOfStrings (a : JsVal) : bool :=
  match a with
  | VArr items => forallb is_bullet items
  | _ => false
  end.

(** [validateLLMOutput(obj)], as the truth of what it returns. *)
Definition validateLLMOutput (obj : JsVal) : bool :=
  truthy obj
  && isArrayOfStrings (optprop obj (js "insights"))
  && isArrayOfStrings (optprop obj (js "risks")).

(** The strings of an array that passed the validation. *)
Definition strings (a : JsVal) : list jsstring :=
  match a with
  | VArr items =>
      flat_map (fun v => match v with VStr s => [s] | _ => [] end) items
  | _ => []
  end.

(** [v?.[0]] *)
Definition first_of (v : JsVal) : JsVal :=
  match v with
  | VArr (x :: _) => x
  | VObj fields => lookup (js "0") fields
  | VStr (c :: _) => VStr [c]
  | _ => VUndefined
  end.

(** The body of the request to the messages API. *)
Record Request : Type := mkRequest {
  req_model : JsVal;
  req_max_tokens : Z;
  req_temperature : Z;
  req_system : jsstring;
  req_user : jsstring
}.

Definition system_prompt : jsstring :=
  js "You are an assistant that extracts concise, actionable bullets. Return ONLY valid JSON matching this schema:"
  ++ [Stdio.newline] ++ js "{" ++ [Stdio.newline]
  ++ js "  " ++ [Stdio.quote] ++ js "insights" ++ [Stdio.quote]
  ++ js ": string[] (max 12 items, short bullets)," ++ [Stdio.newline]
  ++ js "  " ++ [Stdio.quote] ++ js "risks" ++ [Stdio.quote]
  ++ js ": string[] (max 12 items, short bullets)" ++ [Stdio.newline] ++ js "}".

Definition fence : jsstring := [Stdio.quote; Stdio.quote; Stdio.quote].

Definition user_message (transcript : jsstring) : jsstring :=
  js "Transcript:" ++ [Stdio.newline] ++ fence ++ [Stdio.newline]
  ++ transcript ++ [Stdio.newline] ++ fence ++ [Stdio.newline; Stdio.newline]
  ++ js "Return JSON with keys: insights, risks. No commentary.".

Definition non_json : JsVal := mkError (js "Claude returned non-JSON content").

Definition failed_validation : JsVal :=
  mkError (js "Claude JSON failed validation (expected {insights: string[], risks: string[]})").

Definition api_error (resp : Rest.Response) : JsVal :=
  VObj [ (js "message",
          VStr (js "Claude API error: "
                ++ js (NilEmpty.string_of_int (Z.to_int (Rest.resp_status resp)))));
         (js "status", VNum (of_Z (Rest.resp_status resp)));
         (js "body", VStr (Rest.resp_text resp)) ].

Section Claude.
Context {W : Type}.
(** The hex digest of a text. *)
Variable sha256 : jsstring -> jsstring.
Variable fetch : Request -> Async W Rest.Response.
(** [JSON.parse]; [None] is its SyntaxError. *)
Variable JSON_parse : jsstring -> option JsVal.
(** The string conversion [JSON.parse] applies to what is not a string. *)
Variable ToString : JsVal -> jsstring.
Variable MODEL : JsVal.

Definition request (transcript : jsstring) : Request :=
  mkRequest MODEL 800 0 system_prompt (user_message transcript).

(** [data?.content?.[0]?.text || ""] *)
Definition answer_text (data : JsVal) : JsVal :=
  or_else (optprop (first_of (optprop data (js "content"))) (js "text")) (VStr []).

Definition as_text (v : JsVal) : jsstring :=
  match v with
  | VStr s => s
  | other => ToString other
  end.

Definition getInsightsRisksFromClaude (transcript : jsstring)
    : Async W Main.InsightsRisks :=
  (resp <- fetch (request transcript) ;;
   if negb (Rest.resp_ok resp) then throw (api_error resp)
   else
     match Rest.resp_json resp with
     | None => throw Rest.syntaxError
     | Some data =>
         match JSON_parse (as_text (answer_text data)) with
         | None => throw non_json
         | Some parsed =>
             if negb (validateLLMOutput parsed) then throw failed_validation
             else ret (Main.extraction (sha256 transcript)
                         (strings (optprop parsed (js "insights")))
                         (strings (optprop parsed (js "risks"))))
         end
     end)%async.
End Claude.

End Extract.

(* ================================================================== *)
(** ** Choosing and starting the transport (main flow, [connect]) *)
(* ================================================================== *)

Module Launch.

Definition space : N := 32%N.

(** [MCP_ARGS.trim().split(" ").filter(arg => arg.length > 0)] *)
Definition argParts (MCP_ARGS : jsstring) : list jsstring :=
  filter (fun arg => negb (Nat.eqb (length arg) 0)) (split space (trim MCP_ARGS)).

Definition not_provided : JsVal :=
  mkError (js "MCP server command and script path not provided").

(** How the choice of the transport ends, up to the start of the child. *)
Inductive Choice : Type :=
| UseRest                       (* new RestTransport() *)
| ExitNoArgs                    (* console.error, process.exit(1) *)
| Throws (e : JsVal)
| Spawn (cmd : JsVal) (serverPath : JsVal) (serverArgs : list JsVal).

(** The first statements of [connect] on [this.args]; the script path is
    the one given, before it is resolved against the working directory. *)
Definition connect (args : list JsVal) : Choice :=
  if length args <? 2 then Throws not_provided
  else
    match args with
    | cmd :: serverPath :: serverArgs => Spawn cmd serverPath serverArgs
    | _ => Throws not_provided
    end.

Definition choose (TRANSPORT MCP_CMD MCP_ARGS : JsVal) : Choice :=
  if is_str TRANSPORT (js "mcp") then
    if negb (truthy MCP_ARGS) then ExitNoArgs
    else
      match MCP_ARGS with
      | VStr s => connect (MCP_CMD :: map VStr (argParts s))
      | _ => Throws typeError     (* [trim] is not a function *)
      end
  else UseRest.

Definition of_config (c : Cli.Config) : Choice :=
  choose (Cli.TRANSPORT c) (Cli.MCP_CMD c) (Cli.MCP_ARGS c).

End Launch.

(* ================================================================== *)
(** ** Frames and listings through the tools ([McpTransport]) *)
(* ================================================================== *)

Module McpBoard.

Import Mcp.

(** [/get_?frames/i], [/create_?shape/i], [/get_?items_?in_?frame/i] *)
Definition re_get_frames : Regex :=
  lits "get" ++ [Opt underscore] ++ lits "frames".

Definition re_create_shape : Regex :=
  lits "create" ++ [Opt underscore] ++ lits "shape".

Definition re_get_items_in_frame : Regex :=
  lits "get" ++ [Opt underscore] ++ lits "items" ++ [Opt underscore]
  ++ lits "in" ++ [Opt underscore] ++ lits "frame".

(** [Array.isArray(v) ? v : (v.data || [])] as the array a method is
    called on; [None] is a TypeError. *)
Definition array_or_data (v : JsVal) : option (list JsVal) :=
  match v with
  | VArr arr => Some arr
  | _ =>
      match prop v (js "data") with
      | None => None
      | Some d =>
          match or_else d (VArr []) with
          | VArr arr => Some arr
          | _ => None
          end
      end
  end.

(** [n?.type === 'sticky_note'] *)
Definition is_sticky_note (n : JsVal) : bool :=
  is_str (optprop n (js "type")) (js "sticky_note").

Definition with_id (id : JsVal) (f : FrameSpec) : FrameSpec :=
  mkFrame id (frame_title f) (frame_x f) (frame_y f) (frame_width f) (frame_height f).

Definition lacks_frame_tool : JsVal :=
  mkError (js "MCP server lacks frame creation tool").

Section Board.
Context {W : Type}.
(** [this.call(tool, args)], [this.tools] and [Date.now()] as text. *)
Variable call : McpTool -> JsVal -> Async W JsVal.
Variable tools : list McpTool.
Variable now : jsstring.
Variable boardId : jsstring.

Definition shape_args (title : jsstring) (x y width height : number) : JsVal :=
  VObj [ (js "boardId", VStr boardId);
         (js "shape", VStr (js "rectangle"));
         (js "content", VStr title);
         (js "style", VObj [ (js "fillColor", VStr (js "transparent"));
                             (js "borderColor", VStr (js "#333333"));
                             (js "borderWidth", VNum 2%float) ]);
         (js "position", VObj [(js "x", VNum x); (js "y", VNum y)]);
         (js "geometry", VObj [(js "width", VNum width); (js "height", VNum height)]) ].

(** The second half of [getOrCreateFrame]: the frame is made as a shape. *)
Definition createShape (title : jsstring) (x y width height : number)
    : Async W FrameSpec :=
  match findTool tools [re_create_shape] with
  | None => throw lacks_frame_tool
  | Some createTool =>
      (created <- call createTool (shape_args title x y width height) ;;
       match prop created (js "id") with
       | None => throw typeError
       | Some id =>
           ret (with_id (or_else id (VStr (js "shape_" ++ now)))
                        (Rest.frame_of created title x y width height))
       end)%async
  end.

Definition getOrCreateFrame (title : jsstring) (x y width height : number)
    : Async W FrameSpec :=
  match findTool tools [re_get_frames] with
  | Some framesTool =>
      (frames <- call framesTool (VObj [(js "boardId", VStr boardId)]) ;;
       match array_or_data frames with
       | None => throw typeError
       | Some frameArray =>
           match Rest.find_throwing (Rest.title_matches title) frameArray with
           | None => throw typeError
           | Some (Some m) => ret (Rest.frame_of m title x y width height)
           | Some None => createShape title x y width height
           end
       end)%async
  | None => createShape title x y width height
  end.

Definition listStickyNotesInFrame (frameId : JsVal) : Async W (list JsVal) :=
  match findTool tools [re_get_items_in_frame] with
  | Some tool =>
      (result <- call tool (VObj [(js "boardId", VStr boardId); (js "frameId", frameId)]) ;;
       match array_or_data result with
       | None => throw typeError
       | Some items => ret (filter is_sticky_note items)
       end)%async
  | None => ret []
  end.

(** The transport the main flow uses for [--transport mcp]. *)
Definition McpTransport (pause : Z -> W -> W) : Main.TransportLayer W :=
  Main.mkTransport getOrCreateFrame listStickyNotesInFrame
    (fun notes chunkSize w =>
       Some (Mcp.bulkCreateStickies call pause tools boardId notes chunkSize w)).
End Board.

End McpBoard.

(* ================================================================== *)
(** ** A tool server seen through the calls made to it *)
(* ================================================================== *)

Module Calls.

(** The world is the list of the calls so far, oldest first; the server
    answers from the tool, the arguments and that history; waiting makes
    no call. *)
Definition Log := list (Mcp.McpTool * JsVal).

Definition logged (server : Mcp.McpTool -> JsVal -> Log -> JsVal + JsVal)
    : Mcp.McpTool -> JsVal -> Async Log JsVal :=
  fun tool args log => (server tool args log, log ++ [(tool, args)]).

Definition idle : Z -> Log -> Log := fun _ log => log.

(** [log'] is [log] followed by at most [n] calls, all to tools with a
    name among [allowed]. *)
Definition within (n : nat) (allowed : list jsstring) (log log' : Log) : Prop :=
  exists l, log' = log ++ l
            /\ length l <= n
            /\ Forall (fun c => In (Mcp.tool_name (fst c)) allowed) l.

(** The tools a run that only previews may call. *)
Definition preview_tools : list jsstring :=
  [js "get_frames"; js "create_shape"; js "get_items_in_frame"].

End Calls.

(* ================================================================== *)
(** ** The handshake of [connect] on the child's stdout *)
(* ================================================================== *)

Module Connect.

(** The text ["result"], quotes included. *)
Definition result_key : jsstring := Stdio.quote :: js "result" ++ [Stdio.quote].

(** The transport while [connect] is pending and after it. *)
Record State : Type := mkState {
  connected : bool;
  tools : list Mcp.McpTool;
  listening : bool;                  (* onData is registered on stdout *)
  settled : option (JsVal + JsVal)   (* rejected with / resolved with *)
}.

(** After the child was started and the initialize message written. *)
Definition initial : State := mkState false [] true None.

Definition timeout_error : JsVal := mkError (js "Connection timeout").

Definition onData (s : State) (data : Stdio.Buffer) : State :=
  let response := trim (Stdio.toString data) in
  if includes response result_key then
    mkState true Mcp.connected_tools false (Stdio.settle (settled s) (inr VUndefined))
  else s.

(** A chunk on stdout, or the 5 s timer firing; the timer leaves the
    listener in place. *)
Definition deliver (s : State) (ev : Stdio.StreamEvent) : State :=
  match ev with
  | Stdio.Data data => if listening s then onData s data else s
  | Stdio.Timeout =>
      mkState (connected s) (tools s) (listening s)
              (Stdio.settle (settled s) (inl timeout_error))
  end.

Definition run (events : list Stdio.StreamEvent) : State :=
  fold_left deliver events initial.

(** Whether a chunk, taken alone, shows the key. *)
Definition shows_result (data : Stdio.Buffer) : bool :=
  includes (trim (Stdio.toString data)) result_key.

End Connect.

(* ================================================================== *)
(** ** Tool calls against a child process ([McpTransport.call]) *)
(* ================================================================== *)

Module Wire.

(** The child as a connected transport sees it: for each call still to
    come, the chunks its stdout delivers while that call is pending, and
    [this.messageId]. *)
Record Child : Type := mkChild {
  answers : list (list Stdio.Buffer);
  messageId : Z
}.

Section Transport.
Variable JSON_parse : jsstring -> option JsVal.
Variable ToString : JsVal -> jsstring.
Variables now random_suffix : jsstring.

(** [call(tool, args)]: the message takes the next id, the chunks of the
    call reach its listener, and the 10 s timer fires after them. *)
Definition call (tool : Mcp.McpTool) (args : JsVal) : Async Child JsVal :=
  fun c =>
    let chunks := hd [] (answers c) in
    let p := Stdio.run JSON_parse ToString now random_suffix (Mcp.tool_name tool) args
               (messageId c) (map Stdio.Data chunks ++ [Stdio.Timeout]) in
    let c' := mkChild (tl (answers c)) (messageId c + 1) in
    match Stdio.settled p with
    | Some (inr v) => (inr v, c')
    | Some (inl e) => (inl e, c')
    | None => (inl Stdio.timeout_error, c')
    end.
End Transport.

(** Waiting 100 ms between two calls leaves the child as it is. *)
Definition wait : Z -> Child -> Child := fun _ c => c.

End Wire.

(* ================================================================== *)
(** ** Further concrete collaborators *)
(* ================================================================== *)

Module Samples.

(** An operation that throws a 500 the first two times it is called and
    returns afterwards; one that throws two 500 and then a 403. *)
Definition flaky : Async nat unit :=
  fun calls =>
    if calls <? 2 then (inl (Examples.http_error 500), S calls)
    else (inr tt, S calls).

Definition flaky_then_forbidden : Async nat unit :=
  fun calls =>
    if calls <? 2 then (inl (Examples.http_error 500), S calls)
    else (inl (Examples.http_error 403), S calls).

(** A service that answers every request with status 429. *)
Definition too_many_requests : Rest.Request -> Async nat Rest.Response :=
  fun _ calls =>
    (inr (Rest.mkResponse false 429 (js "slow down") None), S calls).

(** A board that already holds fifty frames titled "Other". *)
Definition other_frame : JsVal :=
  VObj [ (js "id", VStr (js "9")); (js "type", VStr (js "frame"));
         (js "data", VObj [(js "title", VStr (js "Other"))]) ].

Definition crowded_board : Rest.World :=
  Rest.mkWorld (repeat other_frame 50) 100 [].

(** The preview and the board after the preparation of a run for one
    insight on the empty board. *)
Definition prepared_once : Main.Preview * Rest.World :=
  match Main.prepare Examples.not_a_number (Main.RestTransport Rest.service)
          Examples.one_insight Rest.empty_board with
  | (inr p, w1) => (p, w1)
  | (inl _, w1) =>
      (Main.mkPreview Examples.insights_frame Examples.insights_frame [] [] [] [], w1)
  end.

(** The messages API answering with one text block, a digest function
    that always gives the same digest, and a parser that knows two
    answers: one insight and no risk; an insight and a blank one. *)
Definition good_answer : jsstring :=
  Stdio.toString (Examples.json "{'insights':['Ship on Friday'],'risks':[]}").

Definition blank_answer : jsstring :=
  Stdio.toString (Examples.json "{'insights':['Ship on Friday',' '],'risks':[]}").

Definition answer_parse (text : jsstring) : option JsVal :=
  if str_eqb text good_answer then
    Some (VObj [ (js "insights", VArr [VStr (js "Ship on Friday")]);
                 (js "risks", VArr []) ])
  else if str_eqb text blank_answer then
    Some (VObj [ (js "insights", VArr [VStr (js "Ship on Friday"); VStr (js " ")]);
                 (js "risks", VArr []) ])
  else None.

Definition claude_says (text : jsstring) : Extract.Request -> Async nat Rest.Response :=
  fun _ calls =>
    (inr (Rest.mkResponse true 200 []
            (Some (VObj [(js "content",
                          VArr [VObj [ (js "type", VStr (js "text"));
                                       (js "text", VStr text) ]])]))),
     S calls).

Definition digest_of : jsstring -> jsstring := fun _ => Examples.digest_a.

Definition object_text : JsVal -> jsstring := fun _ => js "[object Object]".

(** A server that answers every call with the text "done". *)
Definition done_server : Mcp.McpTool -> JsVal -> Calls.Log -> JsVal + JsVal :=
  fun _ _ _ => inr (VObj [(js "result", VStr (js "done"))]).

(** An initialize response cut in two inside the word result. *)
Definition handshake_head : Stdio.Buffer := Examples.json "{'jsonrpc':'2.0','id':1,'res".
Definition handshake_tail : Stdio.Buffer := Examples.json "ult':{}}".

(** What a tool server writes for five [create_sticky_note] calls, the
    first of which has the id 2: a confirmation for the first, the second,
    the fourth and the fifth, an error for the third. *)
Definition reply2 : Stdio.Buffer :=
  Examples.json "{'jsonrpc':'2.0','id':2,'result':{'content':[{'type':'text','text':'Created sticky note 3458764001 on board b1'}]}}".

Definition reply3 : Stdio.Buffer :=
  Examples.json "{'jsonrpc':'2.0','id':3,'result':{'content':[{'type':'text','text':'Created sticky note 3458764002 on board b1'}]}}".

Definition reply4_error : Stdio.Buffer :=
  Examples.json "{'jsonrpc':'2.0','id':4,'error':{'code':-32603,'message':'Miro API error'}}".

Definition reply5 : Stdio.Buffer :=
  Examples.json "{'jsonrpc':'2.0','id':5,'result':{'content':[{'type':'text','text':'Created sticky note 3458764004 on board b1'}]}}".

Definition reply6 : Stdio.Buffer :=
  Examples.json "{'jsonrpc':'2.0','id':6,'result':{'content':[{'type':'text','text':'Created sticky note 3458764005 on board b1'}]}}".

(** The values these lines are the JSON text of. *)
Definition confirmation (sticky : string) : jsstring :=
  js "Created sticky note " ++ js sticky ++ js " on board b1".

Definition confirmed (id : Z) (sticky : string) : JsVal :=
  Examples.response id
    (VObj [(js "content",
            VArr [VObj [ (js "type", VStr (js "text"));
                         (js "text", VStr (confirmation sticky)) ]])]).

Definition refused (id : Z) : JsVal :=
  VObj [ (js "jsonrpc", VStr (js "2.0")); (js "id", VNum (of_Z id));
         (js "error", VObj [ (js "code", VNum (-32603)%float);
                             (js "message", VStr (js "Miro API error")) ]) ].

(** Each line is one chunk, newline included.  In [third_refused] the
    third call is answered by the error; in [third_silent] it is not
    answered at all. *)
Definition chunk (line : Stdio.Buffer) : Stdio.Buffer := line ++ [Byte.x0a].

Definition third_refused : list (list Stdio.Buffer) :=
  [[chunk reply2]; [chunk reply3]; [chunk reply4_error]; [chunk reply5]; [chunk reply6]].

Definition third_silent : list (list Stdio.Buffer) :=
  [[chunk reply2]; [chunk reply3]; []; [chunk reply5]; [chunk reply6]].

(** A parser that knows the five lines. *)
Definition reply_parse (text : jsstring) : option JsVal :=
  if str_eqb text (Stdio.toString reply2) then Some (confirmed 2 "3458764001")
  else if str_eqb text (Stdio.toString reply3) then Some (confirmed 3 "3458764002")
  else if str_eqb text (Stdio.toString reply4_error) then Some (refused 4)
  else if str_eqb text (Stdio.toString reply5) then Some (confirmed 5 "3458764004")
  else if str_eqb text (Stdio.toString reply6) then Some (confirmed 6 "3458764005")
  else None.

End Samples.

(* ================================================================== *)
(** * Properties *)
(* ================================================================== *)

Unset Implicit Arguments.

(** ** Strings *)

Lemma str_eqb_eq (a b : jsstring) : str_eqb a b = true <-> a = b.
Proof.
  revert b; induction a as [|x a IH]; intros [|y b]; simpl; split;
    try congruence; try reflexivity.
  - intros H. apply andb_true_iff in H as [Hx Hab].
    apply N.eqb_eq in Hx. apply IH in Hab. congruence.
  - intros H. injection H as -> ->. rewrite N.eqb_refl. simpl. now apply IH.
Qed.

Lemma str_eqb_refl (a : jsstring) : str_eqb a a = true.
Proof. now apply str_eqb_eq. Qed.

Lemma str_eqb_neq (a b : jsstring) : str_eqb a b = false <-> a <> b.
Proof.
  split.
  - intros H E. apply str_eqb_eq in E. congruence.
  - intros H. destruct (str_eqb a b) eqn:E; [|reflexivity].
    apply str_eqb_eq in E. contradiction.
Qed.

(** ** Retry *)

Section RetryFacts.
Import Retry.
Context {W T : Type}.
Variable fn : Async W T.

Lemma delay_at_0 : delay_at 0 = 500%Z.
Proof. reflexivity. Qed.

Lemma delay_at_S (k : nat) :
  Z.min (delay_at k * 2) 8000 = delay_at (S k).
Proof.
  unfold delay_at. rewrite Nat2Z.inj_succ, Z.pow_succ_r by lia.
  assert (0 < 2 ^ Z.of_nat k)%Z by (apply Z.pow_pos_nonneg; lia).
  lia.
Qed.

(** An attempt that throws [err] with a 401 or 403 ends the run at once,
    whichever attempt it is. *)
Lemma backoff_loop_auth (maxAttempts rem attempt : nat) (delay : Z)
    (lastErr err : JsVal) (w w' : W) :
  fn w = (inl err, w') -> is_auth err = true ->
  backoff_loop fn maxAttempts (S rem) attempt delay lastErr w
  = (inl err, w', [Attempt attempt]).
Proof. intros Hfn Hauth. simpl. now rewrite Hfn, Hauth. Qed.

(** A successful attempt ends the run with its value. *)
Lemma backoff_loop_success (maxAttempts rem attempt : nat) (delay : Z)
    (lastErr : JsVal) (v : T) (w w' : W) :
  fn w = (inr v, w') ->
  backoff_loop fn maxAttempts (S rem) attempt delay lastErr w
  = (inr v, w', [Attempt attempt]).
Proof. intros Hfn. simpl. now rewrite Hfn. Qed.

(** An attempt before the last that throws anything else is followed by
    a sleep of the current delay and the rest of the loop. *)
Lemma backoff_loop_retry (maxAttempts rem attempt : nat) (delay : Z)
    (lastErr err : JsVal) (w w' : W) :
  fn w = (inl err, w') -> is_auth err = false -> attempt <> maxAttempts ->
  backoff_loop fn maxAttempts (S rem) attempt delay lastErr w
  = let '(r, w'', evs) :=
      backoff_loop fn maxAttempts rem (S attempt) (Z.min (delay * 2) 8000) err w' in
    (r, w'', Attempt attempt :: Sleep delay :: Warn attempt (Z.min (delay * 2) 8000) :: evs).
Proof.
  intros Hfn Hauth Hne. simpl. rewrite Hfn, Hauth.
  apply Nat.eqb_neq in Hne. now rewrite Hne.
Qed.

Lemma backoff_loop_last (maxAttempts rem : nat) (delay : Z)
    (lastErr err : JsVal) (w w' : W) :
  fn w = (inl err, w') ->
  backoff_loop fn maxAttempts (S rem) maxAttempts delay lastErr w
  = (inl err, w', [Attempt maxAttempts]).
Proof.
  intros Hfn. simpl. rewrite Hfn, Nat.eqb_refl. now destruct (is_auth err).
Qed.

(** When every attempt throws something other than 401 or 403, the loop
    sleeps the scheduled delays, one between two attempts, and throws. *)
Lemma backoff_loop_all_fail (maxAttempts : nat)
    (Hfail : forall w, exists e w', fn w = (inl e, w') /\ is_auth e = false) :
  forall rem attempt k lastErr w,
    attempt + rem = maxAttempts ->
    let '(r, _, evs) :=
      backoff_loop fn maxAttempts (S rem) attempt (delay_at k) lastErr w in
    sleeps evs = map delay_at (seq k rem)
    /\ attempts evs = S rem
    /\ exists e, r = inl e.
Proof.
  induction rem as [|rem IH]; intros attempt k lastErr w Hsum.
  - destruct (Hfail w) as (e & w' & Hfn & _).
    replace attempt with maxAttempts by lia.
    rewrite (@backoff_loop_last maxAttempts 0 (delay_at k) lastErr e w w' Hfn). simpl. eauto.
  - destruct (Hfail w) as (e & w' & Hfn & Hauth).
    rewrite (@backoff_loop_retry maxAttempts (S rem) attempt (delay_at k) lastErr e w w' Hfn Hauth) by lia.
    rewrite delay_at_S.
    specialize (IH (S attempt) (S k) e w' ltac:(lia)).
    destruct (backoff_loop fn maxAttempts (S rem) (S attempt) (delay_at (S k)) e w')
      as [[r w''] evs].
    destruct IH as (Hs & Ha & He). simpl. rewrite Hs, Ha. eauto.
Qed.
End RetryFacts.

(** C6. The retry wrapper with its default of five attempts.  An error
    whose status (read as [err?.status || err?.code]) is 401 or 403 is
    rethrown by the attempt that met it, the first one included, with no
    sleep and no further attempt.  Five failures of any other kind make
    five attempts separated by sleeps of 500, 1000, 2000 and 4000 ms, and
    the fifth error is rethrown.  For any number of attempts the delays
    start at 500 ms, double, and are capped at 8000 ms. *)
Theorem backoff_policy (W T : Type) (fn : Async W T) :
  (forall w err w',
      fn w = (inl err, w') -> Retry.is_auth err = true ->
      Retry.backoff_trace fn 5 w = (inl err, w', [Retry.Attempt 1]))
  /\
  (forall w0 e1 w1 e2 w2 e3 w3 e4 w4 e5 w5,
      fn w0 = (inl e1, w1) -> fn w1 = (inl e2, w2) -> fn w2 = (inl e3, w3) ->
      fn w3 = (inl e4, w4) -> fn w4 = (inl e5, w5) ->
      Retry.is_auth e1 = false -> Retry.is_auth e2 = false ->
      Retry.is_auth e3 = false -> Retry.is_auth e4 = false ->
      Retry.backoff_trace fn 5 w0
      = (inl e5, w5,
         [ Retry.Attempt 1; Retry.Sleep 500; Retry.Warn 1 1000;
           Retry.Attempt 2; Retry.Sleep 1000; Retry.Warn 2 2000;
           Retry.Attempt 3; Retry.Sleep 2000; Retry.Warn 3 4000;
           Retry.Attempt 4; Retry.Sleep 4000; Retry.Warn 4 8000;
           Retry.Attempt 5 ]))
  /\
  (forall maxAttempts w,
      (forall w, exists e w', fn w = (inl e, w') /\ Retry.is_auth e = false) ->
      let '(r, _, evs) := Retry.backoff_trace fn (S maxAttempts) w in
      Retry.sleeps evs = map Retry.delay_at (seq 0 maxAttempts)
      /\ Retry.attempts evs = S maxAttempts
      /\ exists e, r = inl e).
Proof.
  split; [|split].
  - intros w err w' Hfn Hauth. unfold Retry.backoff_trace.
    now apply backoff_loop_auth.
  - intros w0 e1 w1 e2 w2 e3 w3 e4 w4 e5 w5 H1 H2 H3 H4 H5 A1 A2 A3 A4.
    unfold Retry.backoff_trace.
    rewrite (@backoff_loop_retry W T fn 5 4 1 500 VUndefined e1 w0 w1 H1 A1) by discriminate.
    change (Z.min (500 * 2) 8000)%Z with 1000%Z.
    rewrite (@backoff_loop_retry W T fn 5 3 2 1000 e1 e2 w1 w2 H2 A2) by discriminate.
    change (Z.min (1000 * 2) 8000)%Z with 2000%Z.
    rewrite (@backoff_loop_retry W T fn 5 2 3 2000 e2 e3 w2 w3 H3 A3) by discriminate.
    change (Z.min (2000 * 2) 8000)%Z with 4000%Z.
    rewrite (@backoff_loop_retry W T fn 5 1 4 4000 e3 e4 w3 w4 H4 A4) by discriminate.
    change (Z.min (4000 * 2) 8000)%Z with 8000%Z.
    rewrite (@backoff_loop_last W T fn 5 0 8000 e4 e5 w4 w5 H5). reflexivity.
  - intros maxAttempts w Hfail. unfold Retry.backoff_trace.
    rewrite <- delay_at_0.
    apply (@backoff_loop_all_fail W T fn (S maxAttempts) Hfail maxAttempts 1 0 VUndefined w).
    lia.
Qed.

(** The retry wrapper on an operation that always throws 401, and on one
    that always throws 500 or 429. *)
Lemma backoff_policy_witness :
  (Retry.backoff_trace (Examples.always_throws 401) 5 0
   = (inl (Examples.http_error 401), 1, [Retry.Attempt 1]))
  /\
  (Retry.backoff_trace (Examples.always_throws 500) 5 0
   = (inl (Examples.http_error 500), 5,
      [ Retry.Attempt 1; Retry.Sleep 500; Retry.Warn 1 1000;
        Retry.Attempt 2; Retry.Sleep 1000; Retry.Warn 2 2000;
        Retry.Attempt 3; Retry.Sleep 2000; Retry.Warn 3 4000;
        Retry.Attempt 4; Retry.Sleep 4000; Retry.Warn 4 8000;
        Retry.Attempt 5 ]))
  /\
  (let '(r, _, evs) := Retry.backoff_trace (Examples.always_throws 429) 7 0 in
   Retry.sleeps evs = map Retry.delay_at (seq 0 6)
   /\ Retry.attempts evs = 7
   /\ exists e, r = inl e).
Proof.
  split; [|split].
  - apply (proj1 (backoff_policy nat unit (Examples.always_throws 401)));
      reflexivity.
  - apply (proj1 (proj2 (backoff_policy nat unit (Examples.always_throws 500)))
             0 (Examples.http_error 500) 1 (Examples.http_error 500) 2
             (Examples.http_error 500) 3 (Examples.http_error 500) 4);
      reflexivity.
  - apply (proj2 (proj2 (backoff_policy nat unit (Examples.always_throws 429))) 6 0).
    intros w. exists (Examples.http_error 429), (S w). split; reflexivity.
Defined.

(** ** Layout *)

Lemma forEach_from_nth (ToNumber : JsVal -> number) (frame : FrameSpec)
    (opts : LayoutOpts) :
  forall (items : list jsstring) (idx i : nat) (text : jsstring),
    nth_error items i = Some text ->
    nth_error (forEach_from ToNumber frame opts idx items) i
    = Some (place ToNumber frame opts text (idx + i)).
Proof.
  induction items as [|t items IH]; intros idx [|i] text H; simpl in *;
    try discriminate.
  - injection H as ->. now rewrite Nat.add_0_r.
  - rewrite (IH (S idx) i text H). f_equal. f_equal. lia.
Qed.

Lemma forEach_from_length (ToNumber : JsVal -> number) (frame : FrameSpec)
    (opts : LayoutOpts) :
  forall (items : list jsstring) (idx : nat),
    length (forEach_from ToNumber frame opts idx items) = length items.
Proof. induction items; intros; simpl; auto. Qed.

Lemma below_all (n : nat) (P : nat -> Prop) :
  below n P -> forall i, i < n -> P i.
Proof.
  induction n as [|n IH]; intros H i Hi; [lia|].
  destruct H as [Hn H]. destruct (Nat.eq_dec i n) as [->|Hne]; [exact Hn|].
  apply IH; [exact H|lia].
Qed.

(** On whole numbers the operators of the source are the integer
    remainder and quotient. *)
Lemma whole_columns :
  below 64 (fun i => below 16 (fun c =>
    fmod (of_index i) (of_index (S c)) = of_index (i mod S c)
    /\ floor (of_index i / of_index (S c))%float = of_index (i / S c))).
Proof. vm_compute. repeat split. Qed.

(** C7. The layout returns one sticky per item, and for a frame whose
    centre and size are numbers the item at index [i] is placed at the
    anchor (top-left corner of the frame plus the padding) moved right by
    [i % columns] cells and down by [Math.floor(i / columns)] cells, a
    cell being the note size plus the gap, each option taken from [opts]
    when it is there and from the defaults 3, 20, 40, 180 and 120 when it
    is not; the arithmetic is the one of the source, on doubles and in
    its order.  For a whole number of columns up to 16 and an index
    below 64 the column and the row are [i mod columns] and
    [floor(i / columns)] on the integers.  With three columns the item at
    index 6 of seven is in column 0, row 2. *)
Theorem gridLayout_places_by_index :
  (forall (ToNumber : JsVal -> number) (id : JsVal) (title : jsstring)
          (x y width height : number) (items : list jsstring)
          (columns gap pad noteW noteH : option number) (runId : option jsstring)
          (i : nat) (text : jsstring),
      nth_error items i = Some text ->
      let c := match columns with Some v => v | None => 3%float end in
      let g := match gap with Some v => v | None => 20%float end in
      let p := match pad with Some v => v | None => 40%float end in
      let nW := match noteW with Some v => v | None => 180%float end in
      let nH := match noteH with Some v => v | None => 120%float end in
      let anchorX := (x - width / 2 + p)%float in
      let anchorY := (y - height / 2 + p)%float in
      nth_error
        (gridLayoutInFrame ToNumber
           (mkFrame id title (VNum x) (VNum y) (VNum width) (VNum height)) items
           (mkOpts columns gap pad noteW noteH runId)) i
      = Some (mkSticky text
                (anchorX + fmod (of_index i) c * (nW + g))%float
                (anchorY + floor (of_index i / c) * (nH + g))%float
                (Some nW) None None))
  /\
  (forall (ToNumber : JsVal -> number) (frame : FrameSpec) (items : list jsstring)
          (opts : LayoutOpts),
      length (gridLayoutInFrame ToNumber frame items opts) = length items)
  /\
  (forall (i c : nat),
      i < 64 -> 1 <= c <= 16 ->
      fmod (of_index i) (of_index c) = of_index (i mod c)
      /\ floor (of_index i / of_index c)%float = of_index (i / c))
  /\
  (forall (ToNumber : JsVal -> number) (id : JsVal) (title : jsstring)
          (x y width height : number) (t0 t1 t2 t3 t4 t5 t6 : jsstring),
      nth_error
        (gridLayoutInFrame ToNumber
           (mkFrame id title (VNum x) (VNum y) (VNum width) (VNum height))
           [t0; t1; t2; t3; t4; t5; t6]
           (mkOpts (Some 3%float) None None None None None)) 6
      = Some (mkSticky t6
                (x - width / 2 + 40 + 0 * (180 + 20))%float
                (y - height / 2 + 40 + 2 * (120 + 20))%float
                (Some 180%float) None None)).
Proof.
  split; [|split; [|split]].
  - intros ToNumber id title x y width height items columns gap pad noteW noteH runId
           i text H c g p nW nH anchorX anchorY.
    unfold gridLayoutInFrame. rewrite (forEach_from_nth ToNumber _ _ items 0 i text H).
    reflexivity.
  - intros. apply forEach_from_length.
  - intros i c Hi [Hc1 Hc16].
    destruct c as [|c]; [lia|].
    exact (below_all 16 _ (below_all 64 _ whole_columns i Hi) c ltac:(lia)).
  - intros. reflexivity.
Qed.

(** The seventh of seven items in the insights frame of the main flow,
    laid out in four columns of notes 100 wide and 50 high, 10 apart and
    5 from the border: column 2, row 1. *)
Lemma gridLayout_places_by_index_witness :
  nth_error Examples.seven_items 6 = Some (js "g")
  /\
  nth_error (gridLayoutInFrame Examples.not_a_number Examples.insights_frame
               Examples.seven_items
               (mkOpts (Some 4%float) (Some 10%float) (Some 5%float)
                       (Some 100%float) (Some 50%float) None)) 6
  = Some (mkSticky (js "g") (-1375)%float (-385)%float (Some 100%float) None None).
Proof.
  split; [reflexivity|].
  apply (proj1 gridLayout_places_by_index Examples.not_a_number
           (VStr (js "1")) (js "Insights")
           (-900)%float 0%float 1400%float 900%float
           Examples.seven_items
           (Some 4%float) (Some 10%float) (Some 5%float) (Some 100%float)
           (Some 50%float) None 6 (js "g")).
  reflexivity.
Defined.

(** ** Batch creation *)

Section RestBatchFacts.
Context {W : Type}.
Variable createSticky : StickySpec -> Async W JsVal.

Lemma for_chunk_app (a b : list StickySpec) :
  forall (results : BatchResult) (w : W),
    for_chunk createSticky (a ++ b) results w
    = let '(results', w') := for_chunk createSticky a results w in
      for_chunk createSticky b results' w'.
Proof.
  induction a as [|n a IH]; intros results w; simpl.
  - reflexivity.
  - destruct (Batch.create_one createSticky results n w) as [r1 w1].
    apply IH.
Qed.

(** With a chunk size of at least one the chunked loop is the plain
    loop over the notes not yet visited, and as many iterations as there
    are such notes are enough. *)
Lemma chunk_loop_enough (notes : list StickySpec) (chunkSize : nat) :
  1 <= chunkSize ->
  forall (fuel i : nat) (results : BatchResult) (w : W),
    length notes <= fuel + i ->
    chunk_loop createSticky fuel notes chunkSize i results w
    = Some (for_chunk createSticky (skipn i notes) results w).
Proof.
  intros Hc. induction fuel as [|fuel IH]; intros i results w Hfuel.
  - simpl. destruct (i <? length notes) eqn:E.
    + apply Nat.ltb_lt in E. lia.
    + apply Nat.ltb_ge in E. now rewrite skipn_all2.
  - simpl. destruct (i <? length notes) eqn:E.
    + unfold slice. replace (i + chunkSize - i) with chunkSize by lia.
      rewrite <- (firstn_skipn chunkSize (skipn i notes)) at 2.
      rewrite for_chunk_app.
      destruct (for_chunk createSticky (firstn chunkSize (skipn i notes)) results w)
        as [r1 w1].
      rewrite skipn_skipn, (Nat.add_comm chunkSize i).
      apply IH. lia.
    + apply Nat.ltb_ge in E. now rewrite skipn_all2.
Qed.

Lemma bulk_rest_returns (notes : list StickySpec) (chunkSize : nat) (w : W) :
  1 <= chunkSize ->
  Batch.bulkCreateStickies createSticky notes chunkSize w
  = Some (for_chunk createSticky notes Batch.empty w).
Proof.
  intros Hc. unfold Batch.bulkCreateStickies, bulkCreateStickies_fuel.
  now rewrite (chunk_loop_enough notes chunkSize Hc (length notes) 0) by lia.
Qed.

(** More iterations than needed change nothing. *)
Lemma bulk_rest_fuel (notes : list StickySpec) (chunkSize fuel : nat) (w : W) :
  1 <= chunkSize -> length notes <= fuel ->
  bulkCreateStickies_fuel createSticky fuel notes chunkSize w
  = Some (for_chunk createSticky notes Batch.empty w).
Proof.
  intros Hc Hf. unfold bulkCreateStickies_fuel.
  now rewrite (chunk_loop_enough notes chunkSize Hc fuel 0) by lia.
Qed.

(** With a chunk size of zero and a note to create, the loop is still
    running after any number of iterations. *)
Lemma chunk_loop_zero (notes : list StickySpec) :
  notes <> [] ->
  forall (fuel : nat) (results : BatchResult) (w : W),
    chunk_loop createSticky fuel notes 0 0 results w = None.
Proof.
  intros Hne. induction fuel as [|fuel IH]; intros results w.
  - simpl. destruct notes; [contradiction|reflexivity].
  - simpl. destruct notes as [|n notes]; [contradiction|]. simpl.
    apply IH.
Qed.

(** One iteration accounts for its note once or, when the response has
    no properties to read, twice. *)
Lemma create_one_rest_count (results : BatchResult) (n : StickySpec) (w : W) :
  let '(results', _) := Batch.create_one createSticky results n w in
  let before := ok results + length (failed results) in
  let after := ok results' + length (failed results') in
  match createSticky n w with
  | (inr r, _) =>
      match prop r (js "id") with
      | Some _ => after = S before
      | None => after = S (S before)
      end
  | (inl _, _) => after = S before
  end.
Proof.
  unfold Batch.create_one.
  destruct (createSticky n w) as [[e|r] w'].
  - simpl. rewrite length_app. simpl. lia.
  - destruct (prop r (js "id")); simpl; [lia|].
    rewrite length_app. simpl. lia.
Qed.

(** If no create call resolves with [null] or [undefined], every note
    is accounted for exactly once. *)
Lemma for_chunk_rest_count
    (Hobj : forall n w r w', createSticky n w = (inr r, w') -> prop r (js "id") <> None) :
  forall (notes : list StickySpec) (results : BatchResult) (w : W),
    let '(results', _) := for_chunk createSticky notes results w in
    ok results' + length (failed results')
    = ok results + length (failed results) + length notes.
Proof.
  induction notes as [|n notes IH]; intros results w; simpl.
  - lia.
  - pose proof (create_one_rest_count results n w) as H1.
    destruct (Batch.create_one createSticky results n w) as [r1 w1].
    specialize (IH r1 w1).
    destruct (for_chunk createSticky notes r1 w1) as [r2 w2].
    destruct (createSticky n w) as [[e|r] w'] eqn:E.
    + simpl in H1. lia.
    + destruct (prop r (js "id")) eqn:P.
      * simpl in H1. lia.
      * exfalso. exact (Hobj _ _ _ _ E P).
Qed.
End RestBatchFacts.

Section McpBatchFacts.
Context {W : Type}.
Variable call : Mcp.McpTool -> JsVal -> Async W JsVal.
Variable pause : Z -> W -> W.
Variable boardId : jsstring.

Lemma record_created_count (results : BatchResult) (result : JsVal) :
  ok (Mcp.record_created results result) = S (ok results)
  /\ failed (Mcp.record_created results result) = failed results.
Proof.
  unfold Mcp.record_created.
  destruct (truthy (optprop result (js "id"))); [split; reflexivity|].
  destruct (optprop result (js "result")); try (split; reflexivity).
  destruct (includes s (js "Created sticky note")); [|split; reflexivity].
  destruct (Mcp.match_created s); split; reflexivity.
Qed.

Lemma for_notes_count (tool : Mcp.McpTool) :
  forall (notes : list StickySpec) (results : BatchResult) (w : W),
    let '(results', _) := Mcp.for_notes call pause boardId tool notes results w in
    ok results' + length (failed results')
    = ok results + length (failed results) + length notes.
Proof.
  induction notes as [|n notes IH]; intros results w; simpl.
  - lia.
  - unfold Mcp.create_one.
    destruct (call tool (Mcp.sticky_args boardId n) w) as [[e|r] w'].
    + specialize (IH (push_failed results n e) w').
      destruct (Mcp.for_notes call pause boardId tool notes (push_failed results n e) w')
        as [r2 w2].
      simpl in IH. rewrite length_app in IH. simpl in IH. lia.
    + specialize (IH (Mcp.record_created results r) (pause 100 w')).
      destruct (Mcp.for_notes call pause boardId tool notes
                  (Mcp.record_created results r) (pause 100 w')) as [r2 w2].
      destruct (record_created_count results r) as [Hok Hf].
      rewrite Hok, Hf in IH. lia.
Qed.

(** The stdio transport accounts for every note exactly once, whatever
    the calls do. *)
Lemma bulk_mcp_accounts (tools : list Mcp.McpTool) (notes : list StickySpec)
    (chunkSize : nat) (w w' : W) (results : BatchResult) :
  Mcp.bulkCreateStickies call pause tools boardId notes chunkSize w = (inr results, w') ->
  ok results + length (failed results) = length notes.
Proof.
  unfold Mcp.bulkCreateStickies.
  destruct (Mcp.findTool tools _) as [tool|]; [|discriminate].
  pose proof (for_notes_count tool notes Batch.empty w) as H.
  destruct (Mcp.for_notes call pause boardId tool notes Batch.empty w) as [r2 w2].
  intros E. injection E as <- <-. simpl in H. lia.
Qed.
End McpBatchFacts.

(** C4. Five notes, the third of which fails.  Over REST the third create
    call throws (the request fails or is answered with an error status)
    and the batch returns [ok = 4], the ids of the four items in
    [created], in order, and one entry in [failed], the third note with
    its error, for any chunk size of at least one.  Over stdio a call
    throws only when it times out: when the third call is not answered
    the batch returns the same, but when the server answers it with an
    error the call resolves with [undefined] and the batch returns
    [ok = 5] and an empty [failed], the ids of the other four in
    [created]. *)
Theorem batch_isolation_fails_over_stdio :
  (forall (W : Type) (createSticky : StickySpec -> Async W JsVal)
          (chunkSize : nat) (n1 n2 n3 n4 n5 : StickySpec)
          (w0 w1 w2 w3 w4 w5 : W) (r1 r2 r4 r5 e id1 id2 id4 id5 : JsVal),
      1 <= chunkSize ->
      createSticky n1 w0 = (inr r1, w1) -> prop r1 (js "id") = Some id1 ->
      createSticky n2 w1 = (inr r2, w2) -> prop r2 (js "id") = Some id2 ->
      createSticky n3 w2 = (inl e, w3) ->
      createSticky n4 w3 = (inr r4, w4) -> prop r4 (js "id") = Some id4 ->
      createSticky n5 w4 = (inr r5, w5) -> prop r5 (js "id") = Some id5 ->
      Batch.bulkCreateStickies createSticky [n1; n2; n3; n4; n5] chunkSize w0
      = Some (mkResult 4 [id1; id2; id4; id5] [(n3, e)], w5))
  /\
  (forall (JSON_parse : jsstring -> option JsVal) (ToString : JsVal -> jsstring)
          (now random_suffix : jsstring) (chunkSize : nat),
      JSON_parse (Stdio.toString Samples.reply2)
      = Some (Samples.confirmed 2 "3458764001") ->
      JSON_parse (Stdio.toString Samples.reply3)
      = Some (Samples.confirmed 3 "3458764002") ->
      JSON_parse (Stdio.toString Samples.reply4_error) = Some (Samples.refused 4) ->
      JSON_parse (Stdio.toString Samples.reply5)
      = Some (Samples.confirmed 5 "3458764004") ->
      JSON_parse (Stdio.toString Samples.reply6)
      = Some (Samples.confirmed 6 "3458764005") ->
      JSON_parse (Samples.confirmation "3458764001") = None ->
      JSON_parse (Samples.confirmation "3458764002") = None ->
      JSON_parse (Samples.confirmation "3458764004") = None ->
      JSON_parse (Samples.confirmation "3458764005") = None ->
      let batch :=
        Mcp.bulkCreateStickies (Wire.call JSON_parse ToString now random_suffix)
          Wire.wait Mcp.connected_tools (js "b1") Examples.five_notes chunkSize in
      let ids := [ VStr (js "3458764001"); VStr (js "3458764002");
                   VStr (js "3458764004"); VStr (js "3458764005") ] in
      batch (Wire.mkChild Samples.third_refused 2)
      = (inr (mkResult 5 ids []), Wire.mkChild [] 7)
      /\
      batch (Wire.mkChild Samples.third_silent 2)
      = (inr (mkResult 4 ids [(Examples.note "three", Stdio.timeout_error)]),
         Wire.mkChild [] 7)).
Proof.
  split.
  - intros W createSticky chunkSize n1 n2 n3 n4 n5 w0 w1 w2 w3 w4 w5
           r1 r2 r4 r5 e id1 id2 id4 id5 Hc C1 I1 C2 I2 C3 C4 I4 C5 I5.
    rewrite (bulk_rest_returns createSticky _ chunkSize w0 Hc).
    simpl. unfold Batch.create_one.
    rewrite C1, I1, C2, I2, C3, C4, I4, C5, I5. reflexivity.
  - intros JSON_parse ToString now random_suffix chunkSize
           L2 L3 L4 L5 L6 T1 T2 T4 T5 batch ids.
    set (tool := Mcp.mkTool (js "create_sticky_note")
                   (js "Create a sticky note on a board")).
    set (call := Wire.call JSON_parse ToString now random_suffix) in *.
    vm_compute in L2, L3, L4, L5, L6, T1, T2, T4, T5.
    assert (C2 : forall args rest,
               call tool args (Wire.mkChild ([Samples.chunk Samples.reply2] :: rest) 2)
               = (inr (VObj [(js "result", VStr (Samples.confirmation "3458764001"))]),
                  Wire.mkChild rest 3)).
    { intros args rest. vm_compute. rewrite L2. vm_compute. rewrite T1. reflexivity. }
    assert (C3 : forall args rest,
               call tool args (Wire.mkChild ([Samples.chunk Samples.reply3] :: rest) 3)
               = (inr (VObj [(js "result", VStr (Samples.confirmation "3458764002"))]),
                  Wire.mkChild rest 4)).
    { intros args rest. vm_compute. rewrite L3. vm_compute. rewrite T2. reflexivity. }
    assert (C4 : forall args rest,
               call tool args
                 (Wire.mkChild ([Samples.chunk Samples.reply4_error] :: rest) 4)
               = (inr VUndefined, Wire.mkChild rest 5)).
    { intros args rest. vm_compute. rewrite L4. reflexivity. }
    assert (C4' : forall args rest,
               call tool args (Wire.mkChild ([] :: rest) 4)
               = (inl Stdio.timeout_error, Wire.mkChild rest 5)).
    { intros args rest. reflexivity. }
    assert (C5 : forall args rest,
               call tool args (Wire.mkChild ([Samples.chunk Samples.reply5] :: rest) 5)
               = (inr (VObj [(js "result", VStr (Samples.confirmation "3458764004"))]),
                  Wire.mkChild rest 6)).
    { intros args rest. vm_compute. rewrite L5. vm_compute. rewrite T4. reflexivity. }
    assert (C6 : forall args rest,
               call tool args (Wire.mkChild ([Samples.chunk Samples.reply6] :: rest) 6)
               = (inr (VObj [(js "result", VStr (Samples.confirmation "3458764005"))]),
                  Wire.mkChild rest 7)).
    { intros args rest. vm_compute. rewrite L6. vm_compute. rewrite T5. reflexivity. }
    clearbody call.
    unfold batch, Mcp.bulkCreateStickies.
    change (Mcp.findTool Mcp.connected_tools
              [Mcp.re_create_sticky; Mcp.re_create_sticky_note]) with (Some tool).
    unfold Examples.five_notes, Samples.third_refused, Samples.third_silent, Wire.wait.
    cbn [Mcp.for_notes]. unfold Mcp.create_one.
    split.
    + rewrite C2. cbv beta iota zeta. rewrite C3. cbv beta iota zeta.
      rewrite C4. cbv beta iota zeta. rewrite C5. cbv beta iota zeta.
      rewrite C6. cbv beta iota zeta. reflexivity.
    + rewrite C2. cbv beta iota zeta. rewrite C3. cbv beta iota zeta.
      rewrite C4'. cbv beta iota zeta. rewrite C5. cbv beta iota zeta.
      rewrite C6. cbv beta iota zeta. reflexivity.
Qed.

(** The two transports on five notes: a REST service that fails the third
    request, and a tool server that answers the third call with an error
    or not at all, read by a parser that knows its lines. *)
Lemma batch_isolation_fails_over_stdio_witness :
  Batch.bulkCreateStickies Examples.third_fails Examples.five_notes 20 0
  = Some (mkResult 4
            [VStr (js "item0"); VStr (js "item1"); VStr (js "item3"); VStr (js "item4")]
            [(Examples.note "three", Examples.http_error 500)], 5)
  /\
  let batch :=
    Mcp.bulkCreateStickies (Wire.call Samples.reply_parse Samples.object_text [] [])
      Wire.wait Mcp.connected_tools (js "b1") Examples.five_notes 20 in
  let ids := [ VStr (js "3458764001"); VStr (js "3458764002");
               VStr (js "3458764004"); VStr (js "3458764005") ] in
  batch (Wire.mkChild Samples.third_refused 2)
  = (inr (mkResult 5 ids []), Wire.mkChild [] 7)
  /\
  batch (Wire.mkChild Samples.third_silent 2)
  = (inr (mkResult 4 ids [(Examples.note "three", Stdio.timeout_error)]),
     Wire.mkChild [] 7).
Proof.
  split.
  - apply (proj1 batch_isolation_fails_over_stdio nat Examples.third_fails 20
             (Examples.note "one") (Examples.note "two") (Examples.note "three")
             (Examples.note "four") (Examples.note "five") 0 1 2 3 4 5
             (Examples.item_with_id 0) (Examples.item_with_id 1)
             (Examples.item_with_id 3) (Examples.item_with_id 4)
             (Examples.http_error 500));
      solve [lia | reflexivity].
  - apply (proj2 batch_isolation_fails_over_stdio Samples.reply_parse
             Samples.object_text [] [] 20);
      vm_compute; reflexivity.
Defined.

Section RestCaptureFacts.
Context {W : Type}.
Variable createSticky : StickySpec -> Async W JsVal.

(** Every error a create call throws ends up in [failed], with its note. *)
Lemma for_chunk_captures :
  forall (notes : list StickySpec) (results : BatchResult) (w : W),
    incl (failed results ++ thrown (Batch.calls_of createSticky notes w))
         (failed (fst (for_chunk createSticky notes results w))).
Proof.
  induction notes as [|n notes IH]; intros results w; simpl.
  - rewrite app_nil_r. apply incl_refl.
  - unfold Batch.create_one.
    destruct (createSticky n w) as [[e|r] w'].
    + specialize (IH (push_failed results n e) w').
      destruct (for_chunk createSticky notes (push_failed results n e) w')
        as [r2 w2] eqn:E.
      simpl in *. intros x Hx. apply IH.
      rewrite <- app_assoc. exact Hx.
    + destruct (prop r (js "id")) as [id|].
      * apply (IH (push_created (incr_ok results) id) w').
      * specialize (IH (push_failed (incr_ok results) n typeError) w').
        intros x Hx. apply IH. simpl.
        apply in_app_or in Hx as [Hx|Hx]; apply in_or_app; [left|right; exact Hx].
        apply in_or_app. now left.
Qed.
End RestCaptureFacts.

Section McpCaptureFacts.
Context {W : Type}.
Variable call : Mcp.McpTool -> JsVal -> Async W JsVal.
Variable pause : Z -> W -> W.
Variable boardId : jsstring.

Lemma for_notes_captures (tool : Mcp.McpTool) :
  forall (notes : list StickySpec) (results : BatchResult) (w : W),
    failed (fst (Mcp.for_notes call pause boardId tool notes results w))
    = failed results ++ thrown (Mcp.calls_of call pause boardId tool notes w).
Proof.
  induction notes as [|n notes IH]; intros results w; simpl.
  - now rewrite app_nil_r.
  - unfold Mcp.create_one.
    destruct (call tool (Mcp.sticky_args boardId n) w) as [[e|r] w'].
    + specialize (IH (push_failed results n e) w').
      destruct (Mcp.for_notes call pause boardId tool notes (push_failed results n e) w')
        as [r2 w2].
      simpl in *. rewrite IH, <- app_assoc. reflexivity.
    + specialize (IH (Mcp.record_created results r) (pause 100%Z w')).
      destruct (Mcp.for_notes call pause boardId tool notes
                  (Mcp.record_created results r) (pause 100%Z w')) as [r2 w2].
      simpl in *. rewrite IH.
      now destruct (record_created_count results r) as [_ ->].
Qed.
End McpCaptureFacts.

(** C5, as the code has it.  Over REST a batch with a chunk size of at
    least one returns a result and throws nothing, whatever the create
    calls do, and every error a create call throws is in [failed] with its
    note.  Over stdio the same holds when the tool list has a sticky-note
    creation tool, as it has after [connect]; when it has none the batch
    throws "MCP server lacks sticky note creation tool" before any call
    is made. *)
Theorem batch_create_captures_item_errors :
  (forall (W : Type) (createSticky : StickySpec -> Async W JsVal)
          (notes : list StickySpec) (chunkSize : nat) (w : W),
      1 <= chunkSize ->
      exists results w',
        Batch.bulkCreateStickies createSticky notes chunkSize w = Some (results, w')
        /\ incl (thrown (Batch.calls_of createSticky notes w)) (failed results))
  /\
  (forall (W : Type) (call : Mcp.McpTool -> JsVal -> Async W JsVal)
          (pause : Z -> W -> W) (tools : list Mcp.McpTool) (tool : Mcp.McpTool)
          (boardId : jsstring) (notes : list StickySpec) (chunkSize : nat) (w : W),
      Mcp.findTool tools [Mcp.re_create_sticky; Mcp.re_create_sticky_note] = Some tool ->
      exists results w',
        Mcp.bulkCreateStickies call pause tools boardId notes chunkSize w = (inr results, w')
        /\ failed results = thrown (Mcp.calls_of call pause boardId tool notes w))
  /\
  (forall (W : Type) (call : Mcp.McpTool -> JsVal -> Async W JsVal)
          (pause : Z -> W -> W) (tools : list Mcp.McpTool)
          (boardId : jsstring) (notes : list StickySpec) (chunkSize : nat) (w : W),
      Mcp.findTool tools [Mcp.re_create_sticky; Mcp.re_create_sticky_note] = None ->
      Mcp.bulkCreateStickies call pause tools boardId notes chunkSize w
      = (inl Mcp.lacks_tool, w)).
Proof.
  split; [|split].
  - intros W createSticky notes chunkSize w Hc.
    rewrite (bulk_rest_returns createSticky notes chunkSize w Hc).
    pose proof (for_chunk_captures createSticky notes Batch.empty w) as H.
    destruct (for_chunk createSticky notes Batch.empty w) as [results w'].
    exists results, w'. split; [reflexivity|exact H].
  - intros W call pause tools tool boardId notes chunkSize w Ht.
    unfold Mcp.bulkCreateStickies. rewrite Ht.
    pose proof (for_notes_captures call pause boardId tool notes Batch.empty w) as H.
    destruct (Mcp.for_notes call pause boardId tool notes Batch.empty w) as [results w'].
    exists results, w'. split; [reflexivity|exact H].
  - intros W call pause tools boardId notes chunkSize w Ht.
    unfold Mcp.bulkCreateStickies. now rewrite Ht.
Qed.

(** The three cases on concrete collaborators: the third call fails. *)
Lemma batch_create_captures_item_errors_witness :
  (exists results w',
      Batch.bulkCreateStickies Examples.third_fails Examples.five_notes 20 0
      = Some (results, w')
      /\ incl (thrown (Batch.calls_of Examples.third_fails Examples.five_notes 0))
              (failed results))
  /\
  (exists results w',
      Mcp.bulkCreateStickies Examples.third_fails_call Examples.no_pause
        Mcp.connected_tools (js "board") Examples.five_notes 20 0 = (inr results, w')
      /\ failed results
         = thrown (Mcp.calls_of Examples.third_fails_call Examples.no_pause (js "board")
                     (Mcp.mkTool (js "create_sticky_note")
                                 (js "Create a sticky note on a board"))
                     Examples.five_notes 0))
  /\
  (Mcp.bulkCreateStickies Examples.third_fails_call Examples.no_pause
     [] (js "board") Examples.five_notes 20 0
   = (inl Mcp.lacks_tool, 0)).
Proof.
  destruct batch_create_captures_item_errors as (Hrest & Hmcp & Hnone).
  split; [|split].
  - apply (Hrest nat Examples.third_fails Examples.five_notes 20 0). lia.
  - apply (Hmcp nat Examples.third_fails_call Examples.no_pause Mcp.connected_tools).
    reflexivity.
  - apply (Hnone nat Examples.third_fails_call Examples.no_pause []). reflexivity.
Defined.

(** C5 as stated fails: on a transport that is not connected yet, whose
    tool list is still empty, the batch throws and returns no result. *)
Lemma batch_create_throws_without_tool :
  ~ (forall (tools : list Mcp.McpTool) (notes : list StickySpec),
        exists results w',
          Mcp.bulkCreateStickies Examples.third_fails_call Examples.no_pause
            tools (js "board") notes 20 0 = (inr results, w')).
Proof.
  intros H. destruct (H [] Examples.five_notes) as (results & w' & E).
  discriminate E.
Qed.

(** C9. A create call whose response body is the JSON document [null]:
    [ok] is incremented, reading [r.id] throws, and the same note is
    pushed to [failed]; one note is counted twice. *)
Theorem bulk_rest_counts_null_response_twice :
  Rest.bulkCreateStickies Examples.null_fetch [Examples.note "one"] 20 0
  = Some (inr (mkResult 1 [] [(Examples.note "one", typeError)]), 1)
  /\ 1 + length [(Examples.note "one", typeError)] <> length [Examples.note "one"].
Proof. split; [reflexivity|discriminate]. Qed.

(** ** Delta computation *)

Lemma app_same_length_tail {A : Type} :
  forall (a b x y : list A),
    a ++ x = b ++ y -> length x = length y -> a = b /\ x = y.
Proof.
  induction a as [|h a IH]; intros [|k b] x y E L; simpl in *.
  - now split.
  - subst x. simpl in L. rewrite length_app in L. lia.
  - subst y. simpl in L. rewrite length_app in L. lia.
  - injection E as -> E. destruct (IH b x y E L) as [-> ->]. now split.
Qed.

Lemma marker_inj (r r' : jsstring) : Main.marker r = Main.marker r' -> r = r'.
Proof.
  unfold Main.marker. intros E.
  apply app_inv_head in E. now apply app_inv_tail in E.
Qed.

(** Texts decorated with run ids of one length are equal only for equal
    run ids (and then equal texts). *)
Lemma decorate_inj (r r' t t' : jsstring) :
  length r = length r' ->
  Main.decorate r t = Main.decorate r' t' -> r = r' /\ t = t'.
Proof.
  intros L E. unfold Main.decorate in E.
  apply app_same_length_tail in E as [Et Em].
  - split; [|exact Et]. apply marker_inj.
    exact (app_inv_head _ _ _ Em).
  - simpl. unfold Main.marker. rewrite !length_app. simpl. lia.
Qed.

Lemma skipSet_app (id : jsstring) (a b : list JsVal) :
  Main.skipSet id (a ++ b) = Main.skipSet id a ++ Main.skipSet id b.
Proof. unfold Main.skipSet. now rewrite filter_app, flat_map_app. Qed.

Lemma has_app (a b : list jsstring) (s : jsstring) :
  Main.has (a ++ b) s = Main.has a s || Main.has b s.
Proof. unfold Main.has. apply existsb_app. Qed.

Lemma has_true (set : list jsstring) (s : jsstring) :
  Main.has set s = true <-> In s set.
Proof.
  unfold Main.has. rewrite existsb_exists. split.
  - intros (c & Hin & E). apply str_eqb_eq in E. now subst.
  - intros H. exists s. split; [exact H|apply str_eqb_refl].
Qed.

Lemma in_skipSet (id : jsstring) (existing : list JsVal) (c : jsstring) :
  In c (Main.skipSet id existing) <->
  exists n, In n existing /\ Main.hasRunId id n = true /\ Main.content_of n = Some c.
Proof.
  unfold Main.skipSet. rewrite in_flat_map. split.
  - intros (n & Hn & Hc). apply filter_In in Hn as [Hin Hrun].
    exists n. repeat split; auto.
    destruct (Main.content_of n); simpl in Hc; [|contradiction].
    destruct Hc as [->|[]]. reflexivity.
  - intros (n & Hin & Hrun & Hc). exists n. split.
    + apply filter_In. now split.
    + rewrite Hc. now left.
Qed.

(** C8. A decorated item of the current run is skipped only when an
    existing item of the container carries the current marker and has
    exactly that content.  An existing item decorated by a prior run (a
    different run id, any text, the same text included) changes nothing in
    the delta: with it or without it the same items are created. *)
Theorem prior_run_marker_never_skips :
  forall (digest digest' : jsstring) (existing1 existing2 : list JsVal)
         (prior : JsVal) (text' : jsstring) (texts : list jsstring),
    length digest = 64 -> length digest' = 64 ->
    Main.runId_of digest <> Main.runId_of digest' ->
    Main.content_of prior = Some (Main.decorate (Main.runId_of digest') text') ->
    let id := Main.runId_of digest in
    let bullets := map (Main.decorate id) texts in
    Main.toCreate id (existing1 ++ prior :: existing2) bullets
    = Main.toCreate id (existing1 ++ existing2) bullets
    /\
    forall s, In s bullets ->
              ~ In s (Main.toCreate id (existing1 ++ prior :: existing2) bullets) ->
              exists n, In n (existing1 ++ existing2)
                        /\ Main.hasRunId id n = true
                        /\ Main.content_of n = Some s.
Proof.
  intros digest digest' existing1 existing2 prior text' texts Hd Hd' Hne Hprior id bullets.
  assert (Hlen : length id = length (Main.runId_of digest')).
  { unfold id, Main.runId_of. rewrite !length_firstn. lia. }
  assert (Hsame : forall s, In s bullets ->
            Main.has (Main.skipSet id (existing1 ++ prior :: existing2)) s
            = Main.has (Main.skipSet id (existing1 ++ existing2)) s).
  { intros s Hs. apply in_map_iff in Hs as (t & <- & _).
    change (prior :: existing2) with ([prior] ++ existing2).
    rewrite !skipSet_app, !has_app.
    assert (Main.has (Main.skipSet id [prior]) (Main.decorate id t) = false) as ->.
    { unfold Main.skipSet. simpl. destruct (Main.hasRunId id prior); [|reflexivity].
      simpl. rewrite Hprior. simpl. rewrite orb_false_r.
      apply str_eqb_neq. intros E.
      apply decorate_inj in E as [E _]; [|exact Hlen]. now apply Hne. }
    reflexivity. }
  split.
  - unfold Main.toCreate. apply filter_ext_in.
    intros s Hs. now rewrite Hsame.
  - intros s Hs Hskip.
    assert (Main.has (Main.skipSet id (existing1 ++ existing2)) s = true) as Hhas.
    { rewrite <- Hsame by exact Hs.
      destruct (Main.has (Main.skipSet id (existing1 ++ prior :: existing2)) s) eqn:E;
        [reflexivity|].
      exfalso. apply Hskip. unfold Main.toCreate. apply filter_In.
      split; [exact Hs|]. now rewrite E. }
    apply has_true in Hhas. now apply in_skipSet in Hhas.
Qed.

(** The same bullet under the run ids of two transcripts. *)
Lemma prior_run_marker_never_skips_witness :
  let id := Main.runId_of Examples.digest_a in
  let prior :=
    Examples.listed (Main.decorate (Main.runId_of Examples.digest_b) (js "Ship on Friday")) in
  Main.toCreate id ([] ++ prior :: []) (map (Main.decorate id) [js "Ship on Friday"])
  = Main.toCreate id ([] ++ []) (map (Main.decorate id) [js "Ship on Friday"])
  /\
  forall s, In s (map (Main.decorate id) [js "Ship on Friday"]) ->
            ~ In s (Main.toCreate id ([] ++ prior :: [])
                      (map (Main.decorate id) [js "Ship on Friday"])) ->
            exists n, In n ([] ++ []) /\ Main.hasRunId id n = true
                      /\ Main.content_of n = Some s.
Proof.
  apply (prior_run_marker_never_skips Examples.digest_a Examples.digest_b [] []
           (Examples.listed
              (Main.decorate (Main.runId_of Examples.digest_b) (js "Ship on Friday")))
           (js "Ship on Friday") [js "Ship on Friday"]).
  - reflexivity.
  - reflexivity.
  - discriminate.
  - reflexivity.
Defined.

(** ** Stickies created over REST and the listing of a frame *)

Lemma sticky_body_no_parent (note : StickySpec) :
  optprop (Rest.sticky_body note) (js "parent") = VUndefined.
Proof.
  unfold Rest.sticky_body.
  destruct (note_width note) as [q|]; [destruct (truthy (VNum q))|]; reflexivity.
Qed.

Lemma store_no_parent (ty : string) (body : JsVal) (w : Rest.World) :
  optprop body (js "parent") = VUndefined ->
  optprop (Rest.store ty body w) (js "parent") = VUndefined.
Proof.
  intros Hbody. unfold Rest.store, optprop, prop. simpl.
  destruct body; try reflexivity. exact Hbody.
Qed.

Lemma listed_in_frame {W : Type} (fetch : Rest.Request -> Async W Rest.Response)
    (frameId : JsVal) (w w' : W) (result : list JsVal) :
  Rest.listStickyNotesInFrame fetch frameId w = (inr result, w') ->
  forall n, In n result -> Rest.in_frame frameId n = true.
Proof.
  unfold Rest.listStickyNotesInFrame, bind.
  destruct (Rest.miroGET fetch _ w) as [[e|notes] w1]; [discriminate|].
  destruct (Rest.data_array notes) as [arr|]; [|discriminate].
  unfold ret. intros E. injection E as <- _.
  intros n Hn. now apply filter_In in Hn.
Qed.

Lemma createSticky_on_service (note : StickySpec) (w : Rest.World) :
  Rest.createSticky Rest.service note w
  = (inr (Rest.store "sticky_note" (Rest.sticky_body note) w),
     Rest.mkWorld
       (Rest.items w ++ [Rest.store "sticky_note" (Rest.sticky_body note) w])
       (S (Rest.next_id w))
       (Rest.requests w ++ [Rest.CreateStickyNote (Rest.sticky_body note)])).
Proof. reflexivity. Qed.

(** C10. The body [createSticky] posts never has a [parent]: the
    [parentId] the main flow sets on a note is not sent.  An item without
    a parent is in no result of [listStickyNotesInFrame], whatever the
    service and the frame id.  So the sticky the board service stores for
    such a request is on the board and in no listing of any frame. *)
Theorem rest_sticky_never_listed_in_frame :
  (forall (note : StickySpec) (fid : JsVal),
      Rest.sticky_body (set_parent fid note) = Rest.sticky_body note
      /\ optprop (Rest.sticky_body note) (js "parent") = VUndefined)
  /\
  (forall (W : Type) (fetch : Rest.Request -> Async W Rest.Response)
          (frameId : jsstring) (w w' : W) (result : list JsVal) (n : JsVal),
      Rest.listStickyNotesInFrame fetch (VStr frameId) w = (inr result, w') ->
      optprop n (js "parent") = VUndefined ->
      ~ In n result)
  /\
  (forall (note : StickySpec) (w : Rest.World) (frameId : jsstring),
      exists item w1,
        Rest.createSticky Rest.service note w = (inr item, w1)
        /\ In item (Rest.items w1)
        /\ forall w2 result,
             Rest.listStickyNotesInFrame Rest.service (VStr frameId) w1 = (inr result, w2) ->
             ~ In item result).
Proof.
  assert (Hlist : forall (W : Type) (fetch : Rest.Request -> Async W Rest.Response)
            (frameId : jsstring) (w w' : W) (result : list JsVal) (n : JsVal),
            Rest.listStickyNotesInFrame fetch (VStr frameId) w = (inr result, w') ->
            optprop n (js "parent") = VUndefined ->
            ~ In n result).
  { intros W fetch frameId w w' result n Hl Hp Hin.
    pose proof (listed_in_frame fetch (VStr frameId) w w' result Hl n Hin) as Hf.
    unfold Rest.in_frame in Hf. rewrite Hp in Hf. discriminate Hf. }
  split; [|split].
  - intros note fid. split; [reflexivity|apply sticky_body_no_parent].
  - exact Hlist.
  - intros note w frameId.
    eexists _, _. split; [apply createSticky_on_service|]. split.
    + simpl. apply in_or_app. right. now left.
    + intros w2 result Hl.
      apply (Hlist _ _ _ _ _ _ _ Hl).
      apply store_no_parent, sticky_body_no_parent.
Qed.

(** A note with its parent set, created on the empty board and looked for
    in the frame it was laid out for. *)
Lemma rest_sticky_never_listed_in_frame_witness :
  let note := set_parent (VStr (js "1")) (Examples.note "one") in
  exists item w1,
    Rest.createSticky Rest.service note Rest.empty_board = (inr item, w1)
    /\ In item (Rest.items w1)
    /\ forall w2 result,
         Rest.listStickyNotesInFrame Rest.service (VStr (js "1")) w1 = (inr result, w2) ->
         ~ In item result.
Proof.
  exact (proj2 (proj2 rest_sticky_never_listed_in_frame)
           (set_parent (VStr (js "1")) (Examples.note "one")) Rest.empty_board (js "1")).
Defined.

(** ** The main flow on the board service *)

(** Without [--execute] the flow is the preparation alone: no batch is
    started. *)
Lemma dry_run_is_prepare {W : Type} (ToNumber : JsVal -> number)
    (transport : Main.TransportLayer W) (extracted : Main.InsightsRisks) (w : W) :
  Main.main ToNumber transport false extracted w
  = match Main.prepare ToNumber transport extracted w with
    | (inl e, w') => Some (inl e, w')
    | (inr p, w') => Some (inr (Main.DryRun p), w')
    end.
Proof.
  unfold Main.main.
  now destruct (Main.prepare ToNumber transport extracted w) as [[e|p] w'].
Qed.

(** When the listing of a container holds, for every bullet, an item of
    the current run with exactly that content, nothing is left to create. *)
Lemma toCreate_empty_when_listed (id : jsstring) (existing : list JsVal)
    (bullets : list jsstring) :
  (forall s, In s bullets ->
             exists n, In n existing /\ Main.hasRunId id n = true
                       /\ Main.content_of n = Some s) ->
  Main.toCreate id existing bullets = [].
Proof.
  intros H. unfold Main.toCreate.
  induction bullets as [|s bullets IH]; simpl; [reflexivity|].
  assert (Main.has (Main.skipSet id existing) s = true) as ->.
  { apply has_true, in_skipSet, H. now left. }
  simpl. apply IH. intros s' Hs'. apply H. now right.
Qed.

(** C1. A first run with [--execute] on the empty board creates the one
    decorated insight (one created, none failed).  The second run with the
    same extraction on the board the first run left finds nothing in the
    listing of the frame and computes the same insight to create again. *)
Theorem second_run_recreates_rest_stickies :
  forall ToNumber : JsVal -> number,
  let bullet := Main.decorate (Main.runId_of Examples.digest_a) (js "Ship on Friday") in
  match Main.run_rest ToNumber true Examples.one_insight Rest.empty_board with
  | Some (inr (Main.Executed p1 s1), w1) =>
      Main.insightsToCreate p1 = [bullet]
      /\ Main.sum_created s1 = 1 /\ Main.sum_failed s1 = 0
      /\ (exists n, In n (Rest.items w1) /\ Main.content_of n = Some bullet)
      /\ match Main.run_rest ToNumber true Examples.one_insight w1 with
         | Some (inr o2, _) => Main.insightsToCreate (Main.preview_of o2) = [bullet]
         | _ => False
         end
  | _ => False
  end.
Proof.
  intros ToNumber. vm_compute. repeat split.
  eexists. split; [right; right; left; reflexivity|reflexivity].
Qed.

(** C2. A run without [--execute] on a board that has neither frame
    sends two frame-creation requests before it stops at the preview
    gate, and leaves the two frames on the board. *)
Theorem dry_run_creates_missing_frames :
  forall ToNumber : JsVal -> number,
  match Main.run_rest ToNumber false Examples.one_insight Rest.empty_board with
  | Some (inr (Main.DryRun _), w) =>
      filter Rest.is_write (Rest.requests w)
      = [ Rest.CreateFrame
            (Rest.frame_body (js "Insights") (-900)%float 0%float 1400%float 900%float);
          Rest.CreateFrame
            (Rest.frame_body (js "Risks") 900%float 0%float 1400%float 900%float) ]
      /\ length (Rest.items w) = 2
  | _ => False
  end.
Proof. intros ToNumber. vm_compute. split; reflexivity. Qed.

(** ** Reassembly of a response line from stdout events *)

Lemma decode_from_feed (bs : Stdio.Buffer) :
  forall st,
    Stdio.decode_from st bs
    = fst (Stdio.feed st bs) ++ Stdio.flush (snd (Stdio.feed st bs)).
Proof.
  induction bs as [|b bs IH]; intros st; simpl.
  - reflexivity.
  - destruct (Stdio.step st (Byte.to_N b)) as [out st'].
    rewrite IH. destruct (Stdio.feed st' bs) as [outs st'']. simpl.
    now rewrite app_assoc.
Qed.

Lemma feed_app (a b : Stdio.Buffer) :
  forall st,
    Stdio.feed st (a ++ b)
    = let '(o1, s1) := Stdio.feed st a in
      let '(o2, s2) := Stdio.feed s1 b in
      (o1 ++ o2, s2).
Proof.
  induction a as [|x a IH]; intros st; simpl.
  - now destruct (Stdio.feed st b).
  - destruct (Stdio.step st (Byte.to_N x)) as [out st'].
    rewrite IH. destruct (Stdio.feed st' a) as [o1 s1].
    destruct (Stdio.feed s1 b) as [o2 s2]. now rewrite app_assoc.
Qed.

(** Decoding two buffers one after the other is decoding their
    concatenation when the first ends between two characters. *)
Lemma toString_app (a b : Stdio.Buffer) :
  Stdio.ends_on_boundary a = true ->
  Stdio.toString (a ++ b) = Stdio.toString a ++ Stdio.toString b.
Proof.
  unfold Stdio.ends_on_boundary, Stdio.toString. intros Ha.
  rewrite !decode_from_feed, feed_app.
  destruct (Stdio.feed None a) as [o1 s1]. simpl in Ha.
  destruct s1; [discriminate|].
  destruct (Stdio.feed None b) as [o2 s2]. simpl.
  now rewrite app_nil_r, <- flat_map_app, app_assoc.
Qed.

(** ASCII bytes never leave a sequence open. *)
Lemma ascii_ends_on_boundary (a : Stdio.Buffer) :
  Forall (fun b => (Byte.to_N b <= 127)%N) a ->
  Stdio.ends_on_boundary a = true.
Proof.
  unfold Stdio.ends_on_boundary.
  assert (H : Forall (fun b => (Byte.to_N b <= 127)%N) a ->
              snd (Stdio.feed None a) = None).
  { induction 1 as [|b a Hb _ IH]; simpl; [reflexivity|].
    unfold Stdio.start. apply N.leb_le in Hb. rewrite Hb.
    destruct (Stdio.feed None a) as [outs st'']. exact IH. }
  intros Ha. now rewrite (H Ha).
Qed.

Section CallFacts.
Variable JSON_parse : jsstring -> option JsVal.
Variable ToString : JsVal -> jsstring.
Variables now random_suffix toolName : jsstring.
Variable args : JsVal.
Variable messageId : Z.

(** [resolve] is only called after [off]. *)
Lemma scan_resolves_after_off (lines : list jsstring) :
  fst (Stdio.scan JSON_parse ToString now random_suffix toolName args messageId lines)
  = false ->
  snd (Stdio.scan JSON_parse ToString now random_suffix toolName args messageId lines)
  = None.
Proof.
  induction lines as [|line lines IH]; [reflexivity|].
  cbn [Stdio.scan].
  destruct (truthy (VStr (trim line)) && includes line Stdio.id_key); [|exact IH].
  destruct (JSON_parse line) as [response|]; [|exact IH].
  destruct (prop response (js "id")) as [id|]; [|exact IH].
  destruct (is_num id messageId); [|exact IH].
  destruct (Stdio.resolved_value _ _ _ _ _ _ response); discriminate.
Qed.

(** A first event that ends between two characters and leaves the
    listener registered, followed by a second event, has the effect of
    one event carrying both buffers. *)
Lemma two_events_as_one (p : Stdio.Pending) (c1 c2 : Stdio.Buffer) :
  Stdio.ends_on_boundary c1 = true ->
  Stdio.listening p = true ->
  Stdio.listening
    (Stdio.deliver JSON_parse ToString now random_suffix toolName args messageId
       p (Stdio.Data c1)) = true ->
  Stdio.deliver JSON_parse ToString now random_suffix toolName args messageId
    (Stdio.deliver JSON_parse ToString now random_suffix toolName args messageId
       p (Stdio.Data c1))
    (Stdio.Data c2)
  = Stdio.deliver JSON_parse ToString now random_suffix toolName args messageId
      p (Stdio.Data (c1 ++ c2)).
Proof.
  intros Hb Hp H1. unfold Stdio.deliver in *. rewrite Hp in *.
  rewrite H1. unfold Stdio.onData in *.
  pose proof (scan_resolves_after_off
                (split Stdio.newline (Stdio.responseData p ++ Stdio.toString c1))) as Hs.
  destruct (Stdio.scan JSON_parse ToString now random_suffix toolName args messageId
              (split Stdio.newline (Stdio.responseData p ++ Stdio.toString c1)))
    as [off resolved].
  simpl in H1, Hs. destruct off; [discriminate|].
  rewrite (Hs eq_refl). simpl. rewrite Hp.
  now rewrite (toString_app c1 c2 Hb), app_assoc.
Qed.

(** In particular a line of ASCII bytes cut anywhere: as long as the first
    piece resolves nothing, the two events are one. *)
Lemma ascii_fragments_as_one (c1 c2 : Stdio.Buffer) :
  Forall (fun b => (Byte.to_N b <= 127)%N) c1 ->
  Stdio.listening
    (Stdio.run JSON_parse ToString now random_suffix toolName args messageId
       [Stdio.Data c1]) = true ->
  Stdio.run JSON_parse ToString now random_suffix toolName args messageId
    [Stdio.Data c1; Stdio.Data c2]
  = Stdio.run JSON_parse ToString now random_suffix toolName args messageId
      [Stdio.Data (c1 ++ c2)].
Proof.
  intros Hascii Hlisten. unfold Stdio.run in *. cbn [fold_left] in *.
  apply two_events_as_one;
    [now apply ascii_ends_on_boundary|reflexivity|exact Hlisten].
Qed.
End CallFacts.

(** C3. A response line cut between the two bytes of a character.  Each
    event is decoded on its own, so the buffer holds two replacement
    characters where the line has one letter: the call is resolved, but
    with another result than when the line arrives in one event. *)
Theorem fragmented_multibyte_response_is_corrupted :
  forall (JSON_parse : jsstring -> option JsVal) (ToString : JsVal -> jsstring)
         (now random_suffix toolName : jsstring) (args : JsVal),
    JSON_parse (Stdio.toString Examples.line_head) = None ->
    JSON_parse (Stdio.toString (Examples.line_head ++ Examples.line_tail))
    = Some (Examples.response 1 (VStr Examples.cafe)) ->
    JSON_parse (Stdio.toString Examples.line_head ++ Stdio.toString Examples.line_tail)
    = Some (Examples.response 1 (VStr Examples.cafe_replaced)) ->
    let run := Stdio.run JSON_parse ToString now random_suffix toolName args 1 in
    let one := run [Stdio.Data (Examples.first_event ++ Examples.second_event)] in
    let two := run [Stdio.Data Examples.first_event; Stdio.Data Examples.second_event] in
    Stdio.settled one = Some (inr (VStr Examples.cafe))
    /\ Stdio.settled two = Some (inr (VStr Examples.cafe_replaced))
    /\ Stdio.responseData two <> Stdio.responseData one.
Proof.
  intros JSON_parse ToString now random_suffix toolName args Hhead Hone Htwo run one two.
  vm_compute in Hhead, Hone, Htwo.
  split; [|split].
  - vm_compute. rewrite Hone. reflexivity.
  - vm_compute. rewrite Hhead, Htwo. reflexivity.
  - vm_compute. rewrite Hhead, Htwo, Hone. discriminate.
Qed.

(** The theorem for a parser that reads the two texts of the line. *)
Lemma fragmented_multibyte_response_is_corrupted_witness :
  let run := Stdio.run Examples.two_line_parse (fun _ => []) [] [] (js "get_frames") VNull 1 in
  let one := run [Stdio.Data (Examples.first_event ++ Examples.second_event)] in
  let two := run [Stdio.Data Examples.first_event; Stdio.Data Examples.second_event] in
  Stdio.settled one = Some (inr (VStr Examples.cafe))
  /\ Stdio.settled two = Some (inr (VStr Examples.cafe_replaced))
  /\ Stdio.responseData two <> Stdio.responseData one.
Proof.
  apply (fragmented_multibyte_response_is_corrupted Examples.two_line_parse
           (fun _ => []) [] [] (js "get_frames") VNull);
    reflexivity.
Defined.

(* ================================================================== *)
(** * Further properties of the code *)
(* ================================================================== *)

(** ** Retry and the REST helpers *)

Lemma sleeps_app (a b : list Retry.Event) :
  Retry.sleeps (a ++ b) = Retry.sleeps a ++ Retry.sleeps b.
Proof.
  induction a as [|[n|ms|n ms] a IH]; simpl; auto. now rewrite IH.
Qed.

Lemma attempts_app (a b : list Retry.Event) :
  Retry.attempts (a ++ b) = Retry.attempts a + Retry.attempts b.
Proof.
  induction a as [|[n|ms|n ms] a IH]; simpl; auto.
Qed.

Section RetryRuns.
Context {W T : Type}.
Variable fn : Async W T.
Variable maxAttempts : nat.

(** The loop through [k] retried failures. *)
Lemma backoff_loop_through_failures :
  forall (k rem attempt j : nat) (lastErr : JsVal) (w wk : W),
    Runs.after_failures fn k w = Some wk ->
    attempt + k <= maxAttempts ->
    exists lastErr' evs,
      Retry.sleeps evs = map Retry.delay_at (seq j k)
      /\ Retry.attempts evs = k
      /\ Retry.backoff_loop fn maxAttempts (S (k + rem)) attempt (Retry.delay_at j) lastErr w
         = let '(r, w', evs') :=
             Retry.backoff_loop fn maxAttempts (S rem) (attempt + k)
               (Retry.delay_at (j + k)) lastErr' wk in
           (r, w', evs ++ evs').
Proof.
  induction k as [|k IH]; intros rem attempt j lastErr w wk Hk Hle.
  - simpl in Hk. injection Hk as <-. exists lastErr, [].
    rewrite !Nat.add_0_r. repeat split.
    change (0 + rem) with rem.
    now destruct (Retry.backoff_loop fn maxAttempts (S rem) attempt
                    (Retry.delay_at j) lastErr w) as [[r w'] evs'].
  - simpl in Hk. destruct (fn w) as [[e|v] w1] eqn:Hfn; [|discriminate].
    destruct (Retry.is_auth e) eqn:Hauth; [discriminate|].
    destruct (IH rem (S attempt) (S j) e w1 wk Hk ltac:(lia))
      as (lastErr' & evs & Hs & Ha & Hloop).
    exists lastErr',
      (Retry.Attempt attempt :: Retry.Sleep (Retry.delay_at j)
         :: Retry.Warn attempt (Retry.delay_at (S j)) :: evs).
    split; [simpl; now rewrite Hs|]. split; [simpl; now rewrite Ha|].
    change (S (S k + rem)) with (S (S (k + rem))).
    rewrite (backoff_loop_retry fn maxAttempts (S (k + rem)) attempt
               (Retry.delay_at j) lastErr e w w1 Hfn Hauth) by lia.
    rewrite delay_at_S, Hloop.
    replace (S attempt + k) with (attempt + S k) by lia.
    replace (S j + k) with (j + S k) by lia.
    now destruct (Retry.backoff_loop fn maxAttempts (S rem) (attempt + S k)
                    (Retry.delay_at (j + S k)) lastErr' wk) as [[r w'] evs'].
Qed.
End RetryRuns.

(** X1. After [k] failures that are retried, the attempt that succeeds ends
    the run with its value, and the attempt that throws a 401 or a 403
    ends it with that error; either way the wrapper has made [k + 1]
    attempts and slept the first [k] delays of the schedule, no more. *)
Theorem backoff_stops_at_first_decisive_attempt :
  forall (W T : Type) (fn : Async W T) (maxAttempts k : nat) (w wk : W),
    Runs.after_failures fn k w = Some wk ->
    k < maxAttempts ->
    (forall v w', fn wk = (inr v, w') ->
       exists evs,
         Retry.backoff_trace fn maxAttempts w = (inr v, w', evs)
         /\ Retry.sleeps evs = map Retry.delay_at (seq 0 k)
         /\ Retry.attempts evs = S k)
    /\
    (forall e w', fn wk = (inl e, w') -> Retry.is_auth e = true ->
       exists evs,
         Retry.backoff_trace fn maxAttempts w = (inl e, w', evs)
         /\ Retry.sleeps evs = map Retry.delay_at (seq 0 k)
         /\ Retry.attempts evs = S k).
Proof.
  intros W T fn maxAttempts k w wk Hk Hlt.
  destruct (backoff_loop_through_failures fn maxAttempts k (maxAttempts - S k) 1 0
              VUndefined w wk Hk ltac:(lia))
    as (lastErr' & evs & Hs & Ha & Hloop).
  assert (Htrace : Retry.backoff_trace fn maxAttempts w
                   = Retry.backoff_loop fn maxAttempts (S (k + (maxAttempts - S k))) 1
                       (Retry.delay_at 0) VUndefined w).
  { unfold Retry.backoff_trace. rewrite delay_at_0. f_equal. lia. }
  rewrite Htrace, Hloop. split.
  - intros v w' Hfn.
    rewrite (backoff_loop_success fn maxAttempts (maxAttempts - S k) (1 + k)
               (Retry.delay_at (0 + k)) lastErr' v wk w' Hfn).
    exists (evs ++ [Retry.Attempt (1 + k)]). split; [reflexivity|].
    rewrite sleeps_app, attempts_app, Hs, Ha. simpl.
    rewrite app_nil_r. split; [reflexivity|lia].
  - intros e w' Hfn Hauth.
    rewrite (backoff_loop_auth fn maxAttempts (maxAttempts - S k) (1 + k)
               (Retry.delay_at (0 + k)) lastErr' e wk w' Hfn Hauth).
    exists (evs ++ [Retry.Attempt (1 + k)]). split; [reflexivity|].
    rewrite sleeps_app, attempts_app, Hs, Ha. simpl.
    rewrite app_nil_r. split; [reflexivity|lia].
Qed.

(** Two failures, then a success; two failures, then a 403. *)
Lemma backoff_stops_at_first_decisive_attempt_witness :
  (exists evs,
      Retry.backoff_trace Samples.flaky 5 0 = (inr tt, 3, evs)
      /\ Retry.sleeps evs = map Retry.delay_at (seq 0 2)
      /\ Retry.attempts evs = 3)
  /\
  (exists evs,
      Retry.backoff_trace Samples.flaky_then_forbidden 5 0
      = (inl (Examples.http_error 403), 3, evs)
      /\ Retry.sleeps evs = map Retry.delay_at (seq 0 2)
      /\ Retry.attempts evs = 3).
Proof.
  split.
  - apply (proj1 (backoff_stops_at_first_decisive_attempt nat unit Samples.flaky
                    5 2 0 2 eq_refl ltac:(lia)) tt 3).
    reflexivity.
  - apply (proj2 (backoff_stops_at_first_decisive_attempt nat unit
                    Samples.flaky_then_forbidden 5 2 0 2 eq_refl ltac:(lia))
             (Examples.http_error 403) 3);
      reflexivity.
Defined.

(** X2. A request whose [fetch] resolves is sent once, whatever the status of
    the response: the retry wrapper sees a success.  A response that is
    not [ok] (a 429 or a 500 as well as a 404) becomes a thrown error that
    carries its status and body; an [ok] response gives its JSON body.
    Only a [fetch] that rejects is retried. *)
Theorem miro_request_is_sent_once :
  forall (W : Type) (fetch : Rest.Request -> Async W Rest.Response)
         (req : Rest.Request) (w w' : W) (resp : Rest.Response),
    fetch req w = (inr resp, w') ->
    let error_of (verb : string) :=
      VObj [ (js "message", VStr (js verb));
             (js "status", VNum (of_Z (Rest.resp_status resp)));
             (js "body", VStr (Rest.resp_text resp)) ] in
    Retry.backoff_trace (fetch req) 5 w = (inr resp, w', [Retry.Attempt 1])
    /\
    (Rest.resp_ok resp = false ->
     Rest.miroGET fetch req w = (inl (error_of "Miro GET"%string), w')
     /\ Rest.miroPOST fetch req w = (inl (error_of "Miro POST"%string), w'))
    /\
    (Rest.resp_ok resp = true ->
     forall v, Rest.resp_json resp = Some v ->
               Rest.miroGET fetch req w = (inr v, w')
               /\ Rest.miroPOST fetch req w = (inr v, w')).
Proof.
  intros W fetch req w w' resp Hfetch error_of.
  assert (Htrace : Retry.backoff_trace (fetch req) 5 w = (inr resp, w', [Retry.Attempt 1])).
  { unfold Retry.backoff_trace.
    apply (backoff_loop_success (fetch req) 5 4 1 500%Z VUndefined resp w w' Hfetch). }
  split; [exact Htrace|].
  unfold Rest.miroGET, Rest.miroPOST, Rest.miro, bind, Retry.backoff.
  rewrite Htrace. simpl. split.
  - intros Hok. rewrite Hok. simpl. split; reflexivity.
  - intros Hok v Hv. rewrite Hok, Hv. simpl. split; reflexivity.
Qed.

(** A service that answers 429: one request, and the error carries 429. *)
Lemma miro_request_is_sent_once_witness :
  Rest.miroGET Samples.too_many_requests (Rest.ListItems (js "frame") 50) 0
  = (inl (VObj [ (js "message", VStr (js "Miro GET"));
                 (js "status", VNum 429%float);
                 (js "body", VStr (js "slow down")) ]), 1).
Proof.
  exact (proj1 (proj1 (proj2 (miro_request_is_sent_once nat Samples.too_many_requests
                                (Rest.ListItems (js "frame") 50) 0 1
                                (Rest.mkResponse false 429 (js "slow down") None) eq_refl))
                  eq_refl)).
Defined.

(** ** Frames and listings on the board service *)

Lemma miroGET_list_on_service (ty : jsstring) (limit : nat) (w : Rest.World) :
  Rest.miroGET Rest.service (Rest.ListItems ty limit) w
  = (inr (VObj [(js "data",
                 VArr (firstn limit (filter (Rest.has_type ty) (Rest.items w))))]),
     Rest.mkWorld (Rest.items w) (Rest.next_id w)
                  (Rest.requests w ++ [Rest.ListItems ty limit])).
Proof. reflexivity. Qed.

(** What [getOrCreateFrame] does on the service, by what the scan of the
    first page of frames finds. *)
Lemma getOrCreateFrame_on_service (title : jsstring) (x y width height : number)
    (w : Rest.World) :
  let listed :=
    Rest.mkWorld (Rest.items w) (Rest.next_id w)
                 (Rest.requests w ++ [Rest.ListItems (js "frame") 50]) in
  let body := Rest.frame_body title x y width height in
  let created := Rest.store "frame" body listed in
  Rest.getOrCreateFrame Rest.service title x y width height w
  = match Rest.find_throwing (Rest.title_matches title) (firstn 50 (Runs.frames_on w)) with
    | None => (inl typeError, listed)
    | Some (Some m) => (inr (Rest.frame_of m title x y width height), listed)
    | Some None =>
        (inr (Rest.frame_of created title x y width height),
         Rest.mkWorld (Rest.items w ++ [created]) (S (Rest.next_id w))
                      (Rest.requests listed ++ [Rest.CreateFrame body]))
    end.
Proof.
  intros listed body created.
  unfold Rest.getOrCreateFrame, bind.
  rewrite miroGET_list_on_service.
  change (Rest.data_array _) with (Some (firstn 50 (Runs.frames_on w))).
  cbv beta iota.
  destruct (Rest.find_throwing (Rest.title_matches title) (firstn 50 (Runs.frames_on w)))
    as [[m|]|]; reflexivity.
Qed.

Lemma find_throwing_total (pred : JsVal -> option bool) (arr : list JsVal) :
  (forall f, In f arr -> pred f <> None) ->
  Rest.find_throwing pred arr <> None.
Proof.
  induction arr as [|f arr IH]; intros H; simpl; [discriminate|].
  destruct (pred f) as [[|]|] eqn:E.
  - discriminate.
  - apply IH. intros g Hg. apply H. now right.
  - exfalso. apply (H f); [now left|exact E].
Qed.

Lemma find_throwing_app_found (pred : JsVal -> option bool) (a b : list JsVal) (m : JsVal) :
  Rest.find_throwing pred a = Some (Some m) ->
  Rest.find_throwing pred (a ++ b) = Some (Some m).
Proof.
  induction a as [|f a IH]; simpl; [discriminate|].
  destruct (pred f) as [[|]|]; auto.
Qed.

Lemma find_throwing_app_none (pred : JsVal -> option bool) (a b : list JsVal) :
  Rest.find_throwing pred a = Some None ->
  Rest.find_throwing pred (a ++ b) = Rest.find_throwing pred b.
Proof.
  induction a as [|f a IH]; simpl; [reflexivity|].
  destruct (pred f) as [[|]|]; auto; discriminate.
Qed.

Lemma find_throwing_found (pred : JsVal -> option bool) (arr : list JsVal) (m : JsVal) :
  Rest.find_throwing pred arr = Some (Some m) -> In m arr /\ pred m = Some true.
Proof.
  induction arr as [|f arr IH]; simpl; [discriminate|].
  destruct (pred f) as [[|]|] eqn:E; try discriminate.
  - intros H. injection H as <-. split; [now left|exact E].
  - intros H. destruct (IH H). split; [now right|assumption].
Qed.

(** The frame the service stores for the body [getOrCreateFrame] posts is
    a frame, and its title matches the title asked for. *)
Lemma stored_frame_matches (title : jsstring) (x y width height : number) (w : Rest.World) :
  let created := Rest.store "frame" (Rest.frame_body title x y width height) w in
  Rest.has_type (js "frame") created = true
  /\ Rest.title_matches title created = Some true
  /\ optprop created (js "id") = VStr (Rest.fresh_id w).
Proof.
  repeat split. unfold Rest.title_matches. simpl. now rewrite str_eqb_refl.
Qed.

Lemma firstn_snoc_short {A : Type} (n : nat) (l : list A) (c : A) :
  length l < n -> firstn n (l ++ [c]) = l ++ [c].
Proof.
  intros H. apply firstn_all2. rewrite length_app. simpl. lia.
Qed.

Lemma firstn_snoc_full {A : Type} (n : nat) (l : list A) (c : A) :
  n <= length l -> firstn n (l ++ [c]) = firstn n l.
Proof.
  intros H. rewrite firstn_app. replace (n - length l) with 0 by lia.
  simpl. apply app_nil_r.
Qed.

(** X3. Ensuring a frame twice.  On a board with fewer than 50 frames, all
    with a title that is a string or absent, the first call returns a
    frame (found or created) and the second call, whatever geometry it
    asks for, returns the frame of the same id, sends no write and leaves
    the board as the first call left it; the first call adds at most one
    item. *)
Theorem getOrCreateFrame_reuses_its_frame :
  forall (w : Rest.World) (title : jsstring) (x y width height x' y' width' height' : number),
    length (Runs.frames_on w) < 50 ->
    (forall f, In f (Runs.frames_on w) -> Rest.title_matches title f <> None) ->
    exists f1 w1 f2 w2,
      Rest.getOrCreateFrame Rest.service title x y width height w = (inr f1, w1)
      /\ Rest.getOrCreateFrame Rest.service title x' y' width' height' w1 = (inr f2, w2)
      /\ frame_id f2 = frame_id f1
      /\ frame_title f2 = title
      /\ Rest.items w2 = Rest.items w1
      /\ Runs.writes w2 = Runs.writes w1
      /\ length (Rest.items w1) <= S (length (Rest.items w)).
Proof.
  intros w title x y width height x' y' width' height' Hshort Htitles.
  rewrite getOrCreateFrame_on_service.
  assert (Hpage : firstn 50 (Runs.frames_on w) = Runs.frames_on w)
    by (apply firstn_all2; lia).
  rewrite Hpage.
  destruct (Rest.find_throwing (Rest.title_matches title) (Runs.frames_on w))
    as [[m|]|] eqn:Hfind.
  - (* found: the second call finds it again *)
    eexists _, _, _, _. split; [reflexivity|].
    rewrite getOrCreateFrame_on_service.
    unfold Runs.frames_on in *. simpl Rest.items. rewrite Hpage, Hfind.
    repeat split.
    + unfold Runs.writes. simpl. rewrite filter_app. simpl. now rewrite app_nil_r.
    + simpl. lia.
  - (* created: the second call finds the frame just stored *)
    set (listed := Rest.mkWorld (Rest.items w) (Rest.next_id w)
                     (Rest.requests w ++ [Rest.ListItems (js "frame") 50])).
    set (created := Rest.store "frame" (Rest.frame_body title x y width height) listed).
    destruct (stored_frame_matches title x y width height listed)
      as (Htype & Hmatch & _).
    fold created in Htype, Hmatch.
    eexists _, _, _, _. split; [reflexivity|].
    rewrite getOrCreateFrame_on_service.
    assert (Hframes : forall n r,
               Runs.frames_on (Rest.mkWorld (Rest.items w ++ [created]) n r)
               = Runs.frames_on w ++ [created]).
    { intros n r. unfold Runs.frames_on. simpl Rest.items.
      rewrite filter_app. cbn [filter]. now rewrite Htype. }
    rewrite Hframes.
    rewrite firstn_snoc_short by exact Hshort.
    rewrite (find_throwing_app_none _ _ _ Hfind).
    cbn [Rest.find_throwing]. rewrite Hmatch.
    repeat split.
    + unfold Runs.writes. simpl. rewrite !filter_app. simpl. now rewrite app_nil_r.
    + simpl. rewrite length_app. simpl. lia.
  - exfalso. now apply (find_throwing_total _ _ Htitles).
Qed.

(** The empty board: the first call creates the frame, the second finds it. *)
Lemma getOrCreateFrame_reuses_its_frame_witness :
  exists f1 w1 f2 w2,
    Rest.getOrCreateFrame Rest.service (js "Insights") (-900)%float 0%float 1400%float 900%float Rest.empty_board
    = (inr f1, w1)
    /\ Rest.getOrCreateFrame Rest.service (js "Insights") 0%float 0%float 10%float 10%float w1 = (inr f2, w2)
    /\ frame_id f2 = frame_id f1
    /\ frame_title f2 = js "Insights"
    /\ Rest.items w2 = Rest.items w1
    /\ Runs.writes w2 = Runs.writes w1
    /\ length (Rest.items w1) <= S (length (Rest.items Rest.empty_board)).
Proof.
  apply (getOrCreateFrame_reuses_its_frame Rest.empty_board (js "Insights")).
  - simpl. lia.
  - intros f [].
Defined.

(** X4. The listing of frames is one page of 50.  On a board whose first 50
    frames do not have the title, a frame is created at every call: the
    frame the first call created lies past the page and the second call
    does not see it, so the board ends with two frames of that title. *)
Theorem getOrCreateFrame_misses_frames_past_the_page :
  forall (w : Rest.World) (title : jsstring) (x y width height x' y' width' height' : number),
    50 <= length (Runs.frames_on w) ->
    Rest.find_throwing (Rest.title_matches title) (firstn 50 (Runs.frames_on w))
    = Some None ->
    exists f1 w1 f2 w2 c1 c2,
      Rest.getOrCreateFrame Rest.service title x y width height w = (inr f1, w1)
      /\ Rest.getOrCreateFrame Rest.service title x' y' width' height' w1 = (inr f2, w2)
      /\ Rest.items w2 = Rest.items w ++ [c1; c2]
      /\ Rest.title_matches title c1 = Some true
      /\ Rest.title_matches title c2 = Some true
      /\ frame_id f1 = optprop c1 (js "id")
      /\ frame_id f2 = optprop c2 (js "id").
Proof.
  intros w title x y width height x' y' width' height' Hfull Hfind.
  rewrite getOrCreateFrame_on_service, Hfind.
  set (listed := Rest.mkWorld (Rest.items w) (Rest.next_id w)
                   (Rest.requests w ++ [Rest.ListItems (js "frame") 50])).
  set (c1 := Rest.store "frame" (Rest.frame_body title x y width height) listed).
  destruct (stored_frame_matches title x y width height listed) as (Htype & Hmatch & _).
  fold c1 in Htype, Hmatch.
  eexists _, _, _, _, c1, _. split; [reflexivity|].
  rewrite getOrCreateFrame_on_service.
  assert (Hframes : forall n r,
             Runs.frames_on (Rest.mkWorld (Rest.items w ++ [c1]) n r)
             = Runs.frames_on w ++ [c1]).
  { intros n r. unfold Runs.frames_on. simpl Rest.items.
    rewrite filter_app. cbn [filter]. now rewrite Htype. }
  rewrite Hframes, firstn_snoc_full by exact Hfull.
  rewrite Hfind. cbn [Rest.items].
  split; [reflexivity|]. split; [now rewrite <- app_assoc|].
  split; [exact Hmatch|]. split; [|split; reflexivity].
  apply stored_frame_matches.
Qed.

(** Fifty frames of another title are on the board. *)
Lemma getOrCreateFrame_misses_frames_past_the_page_witness :
  exists f1 w1 f2 w2 c1 c2,
    Rest.getOrCreateFrame Rest.service (js "Insights") (-900)%float 0%float 1400%float 900%float
      Samples.crowded_board = (inr f1, w1)
    /\ Rest.getOrCreateFrame Rest.service (js "Insights") (-900)%float 0%float 1400%float 900%float w1 = (inr f2, w2)
    /\ Rest.items w2 = Rest.items Samples.crowded_board ++ [c1; c2]
    /\ Rest.title_matches (js "Insights") c1 = Some true
    /\ Rest.title_matches (js "Insights") c2 = Some true
    /\ frame_id f1 = optprop c1 (js "id")
    /\ frame_id f2 = optprop c2 (js "id").
Proof.
  apply (getOrCreateFrame_misses_frames_past_the_page Samples.crowded_board (js "Insights")).
  - vm_compute. apply le_n.
  - reflexivity.
Defined.

Lemma in_firstn {A : Type} (n : nat) (l : list A) (x : A) :
  In x (firstn n l) -> In x l.
Proof.
  intros H. rewrite <- (firstn_skipn n l). apply in_or_app. now left.
Qed.

Lemma listStickyNotesInFrame_on_service (frameId : JsVal) (w : Rest.World) :
  Rest.listStickyNotesInFrame Rest.service frameId w
  = (inr (filter (Rest.in_frame frameId) (firstn 50 (Runs.stickies_on w))),
     Rest.mkWorld (Rest.items w) (Rest.next_id w)
                  (Rest.requests w ++ [Rest.ListItems (js "sticky_note") 50])).
Proof.
  unfold Rest.listStickyNotesInFrame, bind. now rewrite miroGET_list_on_service.
Qed.

(** X5. Listing the notes of a frame on the service: the call returns, reads
    and does not write, and gives at most 50 items, each a sticky note of
    the board whose parent is the frame.  It gives every such note when
    the board holds at most 50 sticky notes; a note that is not among the
    first 50 sticky notes of the board is never listed, in its frame or in
    any other. *)
Theorem listStickyNotesInFrame_reads_one_page :
  forall (w : Rest.World) (frameId : JsVal),
    exists result w',
      Rest.listStickyNotesInFrame Rest.service frameId w = (inr result, w')
      /\ Rest.items w' = Rest.items w
      /\ Runs.writes w' = Runs.writes w
      /\ length result <= 50
      /\ (forall n, In n result ->
                    In n (Rest.items w)
                    /\ Rest.has_type (js "sticky_note") n = true
                    /\ Rest.in_frame frameId n = true)
      /\ (length (Runs.stickies_on w) <= 50 ->
          forall n, In n (Rest.items w) ->
                    Rest.has_type (js "sticky_note") n = true ->
                    Rest.in_frame frameId n = true ->
                    In n result)
      /\ (forall n, ~ In n (firstn 50 (Runs.stickies_on w)) -> ~ In n result).
Proof.
  intros w frameId. rewrite listStickyNotesInFrame_on_service.
  eexists _, _. split; [reflexivity|]. split; [reflexivity|].
  split; [|split; [|split; [|split]]].
  - unfold Runs.writes. simpl. rewrite filter_app. simpl. apply app_nil_r.
  - etransitivity; [apply filter_length_le|]. rewrite length_firstn. lia.
  - intros n Hn. apply filter_In in Hn as [Hpage Hin].
    apply in_firstn in Hpage. apply filter_In in Hpage as [Hitem Hty]. auto.
  - intros Hfew n Hitem Hty Hin. apply filter_In. split; [|exact Hin].
    rewrite firstn_all2 by exact Hfew. apply filter_In. now split.
  - intros n Hn Hres. apply Hn. now apply filter_In in Hres as [Hpage _].
Qed.

(** ** Layout *)

Lemma forEach_from_content (ToNumber : JsVal -> number) (frame : FrameSpec)
    (opts : LayoutOpts) :
  forall (items : list jsstring) (idx : nat),
    map content (forEach_from ToNumber frame opts idx items) = items.
Proof. induction items as [|t items IH]; intros idx; simpl; [|rewrite IH]; reflexivity. Qed.

Lemma forEach_from_nth_inv (ToNumber : JsVal -> number) (frame : FrameSpec)
    (opts : LayoutOpts) :
  forall (items : list jsstring) (idx i : nat) (n : StickySpec),
    nth_error (forEach_from ToNumber frame opts idx items) i = Some n ->
    exists text, nth_error items i = Some text
                 /\ n = place ToNumber frame opts text (idx + i).
Proof.
  intros items idx i n H.
  destruct (nth_error items i) as [text|] eqn:E.
  - exists text. split; [reflexivity|].
    rewrite (forEach_from_nth ToNumber frame opts items idx i text E) in H.
    now injection H.
  - apply nth_error_None in E.
    assert (nth_error (forEach_from ToNumber frame opts idx items) i = None) as Hn.
    { apply nth_error_None. now rewrite forEach_from_length. }
    congruence.
Qed.

(** X6. The layout returns the items' texts in their order, each with the
    note width and no parent.  In a frame as the main flow asks for it
    (centred at -900 or 900 and 0, 1400 wide and 900 high), with three
    columns, up to twelve notes, the most one run lays out in a frame,
    are put at different places: two of them never have both the same [x]
    and the same [y]. *)
Theorem gridLayout_keeps_items_apart :
  forall (ToNumber : JsVal -> number) (frame : FrameSpec) (items : list jsstring)
         (opts : LayoutOpts),
    let notes := gridLayoutInFrame ToNumber frame items opts in
    map content notes = items
    /\ (forall n, In n notes ->
                  note_width n
                  = Some (match opt_noteW opts with Some v => v | None => 180%float end)
                  /\ note_height n = None
                  /\ parentId n = None)
    /\ (forall (id : JsVal) (title : jsstring) (x : number),
          x = (-900)%float \/ x = 900%float ->
          frame = mkFrame id title (VNum x) (VNum 0%float) (VNum 1400%float)
                          (VNum 900%float) ->
          opts = Main.three_columns ->
          length items <= 12 ->
          forall i j ni nj,
            nth_error notes i = Some ni -> nth_error notes j = Some nj ->
            (note_x ni =? note_x nj)%float = true ->
            (note_y ni =? note_y nj)%float = true ->
            i = j).
Proof.
  intros ToNumber frame items opts notes. unfold notes, gridLayoutInFrame.
  split; [apply forEach_from_content|]. split.
  - intros n Hn. apply In_nth_error in Hn as [i Hi].
    apply forEach_from_nth_inv in Hi as (text & _ & ->). repeat split.
  - intros id title x Hx0 -> -> Hlen i j ni nj Hi Hj Hx Hy.
    assert (Hi12 : i < 12).
    { apply Nat.lt_le_trans with (2 := Hlen). rewrite <- (forEach_from_length ToNumber
        (mkFrame id title (VNum x) (VNum 0%float) (VNum 1400%float) (VNum 900%float))
        Main.three_columns items 0).
      apply nth_error_Some. congruence. }
    assert (Hj12 : j < 12).
    { apply Nat.lt_le_trans with (2 := Hlen). rewrite <- (forEach_from_length ToNumber
        (mkFrame id title (VNum x) (VNum 0%float) (VNum 1400%float) (VNum 900%float))
        Main.three_columns items 0).
      apply nth_error_Some. congruence. }
    apply forEach_from_nth_inv in Hi as (ti & _ & ->).
    apply forEach_from_nth_inv in Hj as (tj & _ & ->).
    destruct Hx0 as [-> | ->];
      do 12 (destruct i as [|i];
             [do 12 (destruct j as [|j];
                     [first [ reflexivity
                            | exfalso; vm_compute in Hx; discriminate Hx
                            | exfalso; vm_compute in Hy; discriminate Hy ]|]);
              exfalso; lia|]);
      exfalso; lia.
Qed.

(** ** Delta computation *)

Lemma starts_with_app (p b : jsstring) : starts_with p (p ++ b) = true.
Proof. induction p as [|c p IH]; simpl; [reflexivity|]. now rewrite N.eqb_refl. Qed.

Lemma includes_starts (s p : jsstring) : starts_with p s = true -> includes s p = true.
Proof. intros H. destruct s; simpl in *; now rewrite H. Qed.

Lemma includes_app_r (a s p : jsstring) :
  includes s p = true -> includes (a ++ s) p = true.
Proof.
  intros H. induction a as [|c a IH]; simpl; [exact H|].
  rewrite IH. apply orb_true_r.
Qed.

(** A decorated text carries the marker [hasRunId] looks for. *)
Lemma decorate_includes_marker (id s : jsstring) :
  includes (Main.decorate id s) (Main.marker id) = true.
Proof.
  unfold Main.decorate. apply includes_app_r.
  apply (includes_app_r [Stdio.newline; Stdio.newline]).
  apply includes_starts.
  rewrite <- (app_nil_r (Main.marker id)) at 2. apply starts_with_app.
Qed.

(** X7. The delta, for the bullets of a run.  A listed item whose content is
    a bullet of the run passes [hasRunId]; a bullet is to be created if
    and only if no listed item has exactly its content; and with nothing
    listed every bullet is to be created, in order. *)
Theorem decorated_bullet_created_iff_not_listed :
  forall (id : jsstring) (existing : list JsVal) (texts : list jsstring),
    let bullets := map (Main.decorate id) texts in
    (forall n t, Main.content_of n = Some (Main.decorate id t) ->
                 Main.hasRunId id n = true)
    /\ (forall s,
          In s (Main.toCreate id existing bullets)
          <-> In s bullets
              /\ forall n, In n existing -> Main.content_of n <> Some s)
    /\ Main.toCreate id [] bullets = bullets.
Proof.
  intros id existing texts bullets.
  assert (Hrun : forall n t, Main.content_of n = Some (Main.decorate id t) ->
                             Main.hasRunId id n = true).
  { intros n t Hc. unfold Main.hasRunId. rewrite Hc. apply decorate_includes_marker. }
  split; [exact Hrun|]. split.
  - intros s. unfold Main.toCreate. rewrite filter_In. split.
    + intros [Hs Hskip]. split; [exact Hs|].
      intros n Hn Hc. apply negb_true_iff in Hskip.
      assert (Main.has (Main.skipSet id existing) s = true) as Hhas.
      { apply has_true, in_skipSet. exists n. repeat split; auto.
        unfold bullets in Hs. apply in_map_iff in Hs as (t & <- & _).
        now apply (Hrun n t). }
      congruence.
    + intros [Hs Hnone]. split; [exact Hs|]. apply negb_true_iff.
      destruct (Main.has (Main.skipSet id existing) s) eqn:E; [|reflexivity].
      apply has_true, in_skipSet in E as (n & Hn & _ & Hc).
      exfalso. exact (Hnone n Hn Hc).
  - unfold Main.toCreate. simpl. induction bullets as [|b bs IH]; simpl; congruence.
Qed.

(** ** The main flow on the board service, without [--execute] *)

Lemma adds_frames_only_refl (w : Rest.World) : Runs.adds_frames_only 0 w w.
Proof. unfold Runs.adds_frames_only. repeat split; lia. Qed.

Lemma adds_frames_only_trans (j k : nat) (a b c : Rest.World) :
  Runs.adds_frames_only j a b -> Runs.adds_frames_only k b c ->
  Runs.adds_frames_only (j + k) a c.
Proof.
  unfold Runs.adds_frames_only. intros (S1 & R1 & I1 & W1) (S2 & R2 & I2 & W2).
  repeat split; try congruence; lia.
Qed.

Lemma adds_frames_only_weaken (j k : nat) (a b : Rest.World) :
  j <= k -> Runs.adds_frames_only j a b -> Runs.adds_frames_only k a b.
Proof.
  unfold Runs.adds_frames_only. intros Hjk (S1 & R1 & I1 & W1).
  repeat split; try assumption; lia.
Qed.

Lemma getOrCreateFrame_adds_frames_only (title : jsstring) (x y width height : number)
    (w w' : Rest.World) (r : JsVal + FrameSpec) :
  Rest.getOrCreateFrame Rest.service title x y width height w = (r, w') ->
  Runs.adds_frames_only 1 w w'.
Proof.
  rewrite getOrCreateFrame_on_service.
  destruct (Rest.find_throwing (Rest.title_matches title) (firstn 50 (Runs.frames_on w)))
    as [[m|]|]; intros E; injection E as _ <-;
    unfold Runs.adds_frames_only, Runs.stickies_on, Runs.writes; simpl;
    rewrite ?filter_app, ?length_app; simpl; rewrite ?app_nil_r;
    repeat split; lia.
Qed.

Lemma listStickyNotesInFrame_adds_nothing (frameId : JsVal) (w w' : Rest.World)
    (r : JsVal + list JsVal) :
  Rest.listStickyNotesInFrame Rest.service frameId w = (r, w') ->
  Runs.adds_frames_only 0 w w'.
Proof.
  rewrite listStickyNotesInFrame_on_service. intros E. injection E as _ <-.
  unfold Runs.adds_frames_only, Runs.stickies_on, Runs.writes; simpl.
  rewrite !filter_app. simpl. rewrite !app_nil_r. repeat split; lia.
Qed.

(** The preparation (frames, listings, delta, layout) on the service. *)
Lemma prepare_adds_frames_only (ToNumber : JsVal -> number)
    (extracted : Main.InsightsRisks) (w w' : Rest.World) (r : JsVal + Main.Preview) :
  Main.prepare ToNumber (Main.RestTransport Rest.service) extracted w = (r, w') ->
  Runs.adds_frames_only 2 w w'.
Proof.
  unfold Main.prepare, bind, Main.promise_all2, Main.RestTransport.
  cbn [Main.getOrCreateFrame Main.listStickyNotesInFrame].
  destruct (Rest.getOrCreateFrame Rest.service (js "Insights") _ _ _ _ w)
    as [[e1|iFrame] w1] eqn:E1.
  { intros E. injection E as _ <-.
    apply (adds_frames_only_weaken 1); [lia|].
    exact (getOrCreateFrame_adds_frames_only _ _ _ _ _ _ _ _ E1). }
  destruct (Rest.getOrCreateFrame Rest.service (js "Risks") _ _ _ _ w1)
    as [[e2|rFrame] w2] eqn:E2.
  { intros E. injection E as _ <-.
    apply (adds_frames_only_trans 1 1 w w1 w2).
    - exact (getOrCreateFrame_adds_frames_only _ _ _ _ _ _ _ _ E1).
    - exact (getOrCreateFrame_adds_frames_only _ _ _ _ _ _ _ _ E2). }
  destruct (Rest.listStickyNotesInFrame Rest.service (frame_id iFrame) w2)
    as [l1 w3] eqn:E3.
  destruct (Rest.listStickyNotesInFrame Rest.service (frame_id rFrame) w3)
    as [l2 w4] eqn:E4.
  assert (H : Runs.adds_frames_only 2 w w4).
  { change 2 with (1 + (1 + (0 + 0))).
    apply (adds_frames_only_trans _ _ w w1 w4);
      [exact (getOrCreateFrame_adds_frames_only _ _ _ _ _ _ _ _ E1)|].
    apply (adds_frames_only_trans _ _ w1 w2 w4);
      [exact (getOrCreateFrame_adds_frames_only _ _ _ _ _ _ _ _ E2)|].
    apply (adds_frames_only_trans _ _ w2 w3 w4).
    - exact (listStickyNotesInFrame_adds_nothing _ _ _ _ E3).
    - exact (listStickyNotesInFrame_adds_nothing _ _ _ _ E4). }
  destruct l1 as [e|x1]; destruct l2 as [e'|x2]; intros E; injection E as _ <-; exact H.
Qed.

(** X8. A run without [--execute] against the service always ends, creates
    no sticky note and sends no request to create one, on any board and
    for any extraction; the frames it may create are at most two. *)
Theorem dry_run_never_creates_a_sticky :
  forall (ToNumber : JsVal -> number) (extracted : Main.InsightsRisks) (w : Rest.World),
    exists r w',
      Main.run_rest ToNumber false extracted w = Some (r, w')
      /\ Runs.stickies_on w' = Runs.stickies_on w
      /\ filter Runs.is_sticky_write (Rest.requests w')
         = filter Runs.is_sticky_write (Rest.requests w)
      /\ length (Rest.items w') <= length (Rest.items w) + 2
      /\ length (Runs.writes w') <= length (Runs.writes w) + 2.
Proof.
  intros ToNumber extracted w. unfold Main.run_rest. rewrite dry_run_is_prepare.
  destruct (Main.prepare ToNumber (Main.RestTransport Rest.service) extracted w)
    as [[e|p] w'] eqn:E;
    eexists _, w'; (split; [reflexivity|]);
    exact (prepare_adds_frames_only ToNumber extracted w w' _ E).
Qed.

(** ** The main flow on the board service, with [--execute] *)

Lemma create_one_on_service (results : BatchResult) (n : StickySpec) (w : Rest.World) :
  Batch.create_one (Rest.createSticky Rest.service) results n w
  = (push_created (incr_ok results) (VStr (Rest.fresh_id w)),
     snd (Rest.createSticky Rest.service n w)).
Proof. unfold Batch.create_one. rewrite createSticky_on_service. reflexivity. Qed.

Lemma for_chunk_on_service :
  forall (notes : list StickySpec) (results : BatchResult) (w : Rest.World),
    for_chunk (Rest.createSticky Rest.service) notes results w
    = (mkResult (ok results + length notes)
                (created results ++ Runs.ids_created notes w)
                (failed results),
       Runs.after_creating notes w).
Proof.
  induction notes as [|n notes IH]; intros results w.
  - simpl. rewrite Nat.add_0_r, app_nil_r. now destruct results.
  - cbn [for_chunk Runs.after_creating Runs.ids_created length].
    rewrite create_one_on_service, IH.
    unfold push_created, incr_ok. cbn [ok created failed].
    f_equal. f_equal; [lia|]. now rewrite <- app_assoc.
Qed.

(** What the creation of [notes] adds to the board: one sticky note per
    note, without a parent. *)
Lemma after_creating_items :
  forall (notes : list StickySpec) (w : Rest.World),
    exists new,
      Rest.items (Runs.after_creating notes w) = Rest.items w ++ new
      /\ length new = length notes
      /\ Forall (fun n => Rest.has_type (js "sticky_note") n = true
                          /\ optprop n (js "parent") = VUndefined) new.
Proof.
  induction notes as [|n notes IH]; intros w.
  - exists []. simpl. rewrite app_nil_r. repeat split. constructor.
  - cbn [Runs.after_creating]. rewrite createSticky_on_service. cbn [snd].
    destruct (IH (Rest.mkWorld
                    (Rest.items w ++ [Rest.store "sticky_note" (Rest.sticky_body n) w])
                    (S (Rest.next_id w))
                    (Rest.requests w ++ [Rest.CreateStickyNote (Rest.sticky_body n)])))
      as (new & Hitems & Hlen & Hall).
    exists (Rest.store "sticky_note" (Rest.sticky_body n) w :: new).
    rewrite Hitems. cbn [Rest.items]. rewrite <- app_assoc. repeat split.
    + simpl. now rewrite Hlen.
    + constructor; [|exact Hall]. split; [reflexivity|].
      apply store_no_parent, sticky_body_no_parent.
Qed.

Lemma filter_none {A : Type} (f : A -> bool) (l : list A) :
  Forall (fun x => f x = false) l -> filter f l = [].
Proof. induction 1 as [|x l Hx _ IH]; simpl; [reflexivity|]. now rewrite Hx. Qed.

Lemma Forall_firstn {A : Type} (P : A -> Prop) (n : nat) (l : list A) :
  Forall P l -> Forall P (firstn n l).
Proof.
  intros H. apply Forall_forall. intros x Hx.
  apply in_firstn in Hx. revert x Hx. now apply Forall_forall.
Qed.

(** A listing after notes without a parent were added is the listing
    before, for a frame whose id is not [undefined]. *)
Lemma listing_ignores_parentless (frameId : JsVal) (old new : list JsVal) :
  frameId <> VUndefined ->
  Forall (fun n => Rest.has_type (js "sticky_note") n = true
                   /\ optprop n (js "parent") = VUndefined) new ->
  filter (Rest.in_frame frameId)
         (firstn 50 (filter (Rest.has_type (js "sticky_note")) (old ++ new)))
  = filter (Rest.in_frame frameId)
           (firstn 50 (filter (Rest.has_type (js "sticky_note")) old)).
Proof.
  intros Hid Hnew. rewrite filter_app, firstn_app, filter_app.
  rewrite (filter_none (Rest.in_frame frameId)
             (firstn _ (filter (Rest.has_type (js "sticky_note")) new))).
  - apply app_nil_r.
  - apply Forall_firstn. apply Forall_forall. intros n Hn.
    apply filter_In in Hn as [Hn _].
    apply (proj1 (Forall_forall _ _) Hnew) in Hn as [_ Hp].
    unfold Rest.in_frame. rewrite Hp. simpl.
    destruct frameId; try reflexivity. contradiction.
Qed.

(** X9. A run with [--execute] whose preparation succeeded, against the
    service: it ends with a summary in which every note of the preview
    is created and none failed, and the board has that many more sticky
    notes.  For frames whose id is not [undefined], the verification
    counts are those of the listings before the writes: the run does not
    see the notes it has just created. *)
Theorem executed_run_on_service_accounts :
  forall (ToNumber : JsVal -> number) (extracted : Main.InsightsRisks)
         (w w1 : Rest.World) (p : Main.Preview),
    Main.prepare ToNumber (Main.RestTransport Rest.service) extracted w = (inr p, w1) ->
    frame_id (Main.insightsFrame p) <> VUndefined ->
    frame_id (Main.risksFrame p) <> VUndefined ->
    exists s w2,
      Main.run_rest ToNumber true extracted w = Some (inr (Main.Executed p s), w2)
      /\ Main.sum_created s = length (Main.insightsNotes p) + length (Main.risksNotes p)
      /\ Main.sum_failed s = 0
      /\ Main.failures s = []
      /\ length (Runs.stickies_on w2) = length (Runs.stickies_on w1) + Main.sum_created s
      /\ Main.insightsWithRunId s
         = length (filter (Main.hasRunId (Main.runId extracted))
                     (filter (Rest.in_frame (frame_id (Main.insightsFrame p)))
                        (firstn 50 (Runs.stickies_on w1))))
      /\ Main.risksWithRunId s
         = length (filter (Main.hasRunId (Main.runId extracted))
                     (filter (Rest.in_frame (frame_id (Main.risksFrame p)))
                        (firstn 50 (Runs.stickies_on w1)))).
Proof.
  intros ToNumber extracted w w1 p Hprep Hi Hr.
  unfold Main.run_rest, Main.main. rewrite Hprep. cbn [negb].
  unfold Main.execute, Main.RestTransport.
  cbn [Main.bulkCreateStickies Main.listStickyNotesInFrame].
  unfold Rest.bulkCreateStickies.
  rewrite !bulk_rest_returns by lia. rewrite for_chunk_on_service.
  rewrite bulk_rest_returns by lia. rewrite for_chunk_on_service.
  unfold Main.promise_all2. rewrite !listStickyNotesInFrame_on_service.
  destruct (after_creating_items (Main.insightsNotes p) w1) as (new1 & Hit1 & Hl1 & Hp1).
  destruct (after_creating_items (Main.risksNotes p)
              (Runs.after_creating (Main.insightsNotes p) w1)) as (new2 & Hit2 & Hl2 & Hp2).
  assert (Hitems : Rest.items (Runs.after_creating (Main.risksNotes p)
                                 (Runs.after_creating (Main.insightsNotes p) w1))
                   = Rest.items w1 ++ (new1 ++ new2)).
  { now rewrite Hit2, Hit1, app_assoc. }
  assert (Hnew : Forall (fun n => Rest.has_type (js "sticky_note") n = true
                                  /\ optprop n (js "parent") = VUndefined) (new1 ++ new2)).
  { apply Forall_app. now split. }
  eexists _, _. split; [reflexivity|].
  cbn [Main.sum_created Main.sum_failed Main.failures Main.insightsWithRunId
       Main.risksWithRunId ok failed Batch.empty length Rest.items app].
  repeat split.
  - unfold Runs.stickies_on. cbn [Rest.items]. rewrite Hitems.
    rewrite filter_app, length_app.
    rewrite (forallb_filter_id (Rest.has_type (js "sticky_note")) (new1 ++ new2));
      [rewrite length_app; lia|].
    apply forallb_forall. intros n Hn.
    now apply (proj1 (Forall_forall _ _) Hnew) in Hn as [Ht _].
  - unfold Main.countRunId, Runs.stickies_on. cbn [Rest.items]. rewrite Hitems.
    now rewrite (listing_ignores_parentless _ _ _ Hi Hnew).
  - unfold Main.countRunId, Runs.stickies_on. cbn [Rest.items]. rewrite Hitems.
    now rewrite (listing_ignores_parentless _ _ _ Hr Hnew).
Qed.

(** One insight on the empty board. *)
Lemma executed_run_on_service_accounts_witness :
  let p := fst Samples.prepared_once in
  let w1 := snd Samples.prepared_once in
  exists s w2,
    Main.run_rest Examples.not_a_number true Examples.one_insight Rest.empty_board
    = Some (inr (Main.Executed p s), w2)
    /\ Main.sum_created s = length (Main.insightsNotes p) + length (Main.risksNotes p)
    /\ Main.sum_failed s = 0
    /\ Main.failures s = []
    /\ length (Runs.stickies_on w2) = length (Runs.stickies_on w1) + Main.sum_created s
    /\ Main.insightsWithRunId s
       = length (filter (Main.hasRunId (Main.runId Examples.one_insight))
                   (filter (Rest.in_frame (frame_id (Main.insightsFrame p)))
                      (firstn 50 (Runs.stickies_on w1))))
    /\ Main.risksWithRunId s
       = length (filter (Main.hasRunId (Main.runId Examples.one_insight))
                   (filter (Rest.in_frame (frame_id (Main.risksFrame p)))
                      (firstn 50 (Runs.stickies_on w1)))).
Proof.
  apply (executed_run_on_service_accounts Examples.not_a_number Examples.one_insight
           Rest.empty_board (snd Samples.prepared_once) (fst Samples.prepared_once)).
  - vm_compute. reflexivity.
  - intros H. vm_compute in H. discriminate H.
  - intros H. vm_compute in H. discriminate H.
Defined.

(** ** Tool lookup *)

(** X10. [findTool] returns a tool of the list whose name one of the patterns
    accepts, and returns nothing exactly when no pattern accepts the name
    of any tool.  Patterns come first: the tool found for an earlier
    pattern is returned whatever the later patterns accept. *)
Theorem findTool_sound_and_complete :
  forall (tools : list Mcp.McpTool) (patterns : list Mcp.Regex),
    (forall t, Mcp.findTool tools patterns = Some t ->
               In t tools
               /\ exists p, In p patterns /\ Mcp.test p (Mcp.tool_name t) = true)
    /\ (Mcp.findTool tools patterns = None
        <-> forall p t, In p patterns -> In t tools ->
                        Mcp.test p (Mcp.tool_name t) = false)
    /\ (forall p rest t,
          patterns = p :: rest ->
          In t tools -> Mcp.test p (Mcp.tool_name t) = true ->
          exists t', Mcp.findTool tools patterns = Some t'
                     /\ Mcp.test p (Mcp.tool_name t') = true).
Proof.
  intros tools patterns. split; [|split].
  - induction patterns as [|p ps IH]; intros t; simpl; [discriminate|].
    destruct (find (fun t0 => Mcp.test p (Mcp.tool_name t0)) tools) as [t0|] eqn:E.
    + intros H. injection H as <-. apply find_some in E as [Hin Ht].
      split; [exact Hin|]. exists p. split; [now left|exact Ht].
    + intros H. destruct (IH t H) as (Hin & q & Hq & Ht).
      split; [exact Hin|]. exists q. split; [now right|exact Ht].
  - induction patterns as [|p ps IH]; simpl.
    + split; [intros _ p t []|reflexivity].
    + destruct (find (fun t0 => Mcp.test p (Mcp.tool_name t0)) tools) as [t0|] eqn:E.
      * split; [discriminate|]. intros H. apply find_some in E as [Hin Ht].
        rewrite (H p t0 (or_introl eq_refl) Hin) in Ht. discriminate.
      * rewrite IH. split.
        -- intros H q t [<-|Hq] Ht; [|now apply H].
           exact (find_none _ _ E t Ht).
        -- intros H q t Hq Ht. apply H; [now right|exact Ht].
  - intros p rest t -> Hin Ht. simpl.
    destruct (find (fun t0 => Mcp.test p (Mcp.tool_name t0)) tools) as [t0|] eqn:E.
    + exists t0. split; [reflexivity|]. now apply find_some in E as [_ E].
    + rewrite (find_none _ _ E t Hin) in Ht. discriminate.
Qed.

Lemma match_here_lits (a : jsstring) (re : Mcp.Regex) :
  forall s, Mcp.match_here (map Mcp.Lit a ++ re) s
            = Names.ci_starts a s && Mcp.match_here re (skipn (length a) s).
Proof.
  induction a as [|c a IH]; intros s; simpl; [reflexivity|].
  destruct s as [|x s]; simpl; [reflexivity|].
  now rewrite IH, andb_assoc.
Qed.

Lemma match_here_only_lits (b : jsstring) :
  forall s, Mcp.match_here (map Mcp.Lit b) s = Names.ci_starts b s.
Proof.
  intros s. rewrite <- (app_nil_r (map Mcp.Lit b)), match_here_lits.
  simpl. apply andb_true_r.
Qed.

Lemma ci_starts_app (a b : jsstring) :
  forall s, Names.ci_starts (a ++ b) s
            = Names.ci_starts a s && Names.ci_starts b (skipn (length a) s).
Proof.
  induction a as [|c a IH]; intros s; simpl; [reflexivity|].
  destruct s as [|x s]; simpl.
  - now destruct (a ++ b).
  - now rewrite IH, andb_assoc.
Qed.

Lemma match_here_optional (a b : jsstring) (u : N) :
  forall s, Mcp.match_here (map Mcp.Lit a ++ [Mcp.Opt u] ++ map Mcp.Lit b) s
            = Names.ci_starts (a ++ u :: b) s || Names.ci_starts (a ++ b) s.
Proof.
  intros s. rewrite match_here_lits, !ci_starts_app, <- andb_orb_distrib_r.
  f_equal. cbn [app Mcp.match_here].
  destruct (skipn (length a) s) as [|x t].
  - rewrite match_here_only_lits. reflexivity.
  - rewrite !match_here_only_lits. reflexivity.
Qed.

Lemma match_here_prefix (r1 r2 : Mcp.Regex) :
  forall s, Mcp.match_here (r1 ++ r2) s = true -> Mcp.match_here r1 s = true.
Proof.
  induction r1 as [|[c|c] r1 IH]; intros s; simpl; [reflexivity| |].
  - destruct s as [|x s]; [discriminate|].
    intros H. apply andb_true_iff in H as [Hc H]. rewrite Hc. now apply IH.
  - destruct s as [|x s]; [apply IH|].
    intros H. apply orb_true_iff in H as [H|H].
    + apply andb_true_iff in H as [Hc H]. rewrite Hc, (IH s H). reflexivity.
    + rewrite (IH _ H). apply orb_true_r.
Qed.

Lemma test_prefix (r1 r2 : Mcp.Regex) :
  forall s, Mcp.test (r1 ++ r2) s = true -> Mcp.test r1 s = true.
Proof.
  induction s as [|x s IH]; simpl.
  - rewrite !orb_false_r. apply match_here_prefix.
  - intros H. apply orb_true_iff in H as [H|H].
    + now rewrite (match_here_prefix _ _ _ H).
    + rewrite (IH H). apply orb_true_r.
Qed.

(** X11. The tool a batch creates stickies with.  The first pattern accepts a
    name exactly when the name contains [create_sticky] or [createsticky],
    letters in either case; the second pattern accepts nothing the first
    does not, so the lookup with both patterns is the lookup with the
    first alone. *)
Theorem sticky_tool_lookup :
  forall (tools : list Mcp.McpTool) (name : jsstring),
    Mcp.test Mcp.re_create_sticky name
    = Names.ci_includes name (js "create_sticky")
      || Names.ci_includes name (js "createsticky")
    /\ (Mcp.test Mcp.re_create_sticky_note name = true ->
        Mcp.test Mcp.re_create_sticky name = true)
    /\ Mcp.findTool tools [Mcp.re_create_sticky; Mcp.re_create_sticky_note]
       = Mcp.findTool tools [Mcp.re_create_sticky].
Proof.
  intros tools name.
  assert (Hsub : forall s, Mcp.test Mcp.re_create_sticky_note s = true ->
                           Mcp.test Mcp.re_create_sticky s = true).
  { intros s. unfold Mcp.re_create_sticky_note, Mcp.re_create_sticky.
    rewrite !app_assoc. rewrite <- (app_assoc _ [Mcp.Opt Mcp.underscore] (Mcp.lits "note")).
    apply test_prefix. }
  split; [|split; [apply Hsub|]].
  - unfold Mcp.re_create_sticky, Mcp.lits.
    induction name as [|x name IH].
    + reflexivity.
    + cbn [Mcp.test Names.ci_includes]. rewrite IH.
      rewrite (match_here_optional (js "create") (js "sticky") Mcp.underscore).
      change (js "create" ++ Mcp.underscore :: js "sticky") with (js "create_sticky").
      change (js "create" ++ js "sticky") with (js "createsticky").
      destruct (Names.ci_starts (js "create_sticky") (x :: name));
        destruct (Names.ci_starts (js "createsticky") (x :: name));
        destruct (Names.ci_includes name (js "create_sticky"));
        destruct (Names.ci_includes name (js "createsticky")); reflexivity.
  - simpl.
    destruct (find (fun t => Mcp.test Mcp.re_create_sticky (Mcp.tool_name t)) tools)
      as [t|] eqn:E1; [reflexivity|].
    destruct (find (fun t => Mcp.test Mcp.re_create_sticky_note (Mcp.tool_name t)) tools)
      as [t|] eqn:E2; [|reflexivity].
    apply find_some in E2 as [Hin Ht]. apply Hsub in Ht.
    rewrite (find_none _ _ E1 t Hin) in Ht. discriminate.
Qed.

(** ** Results of a batch *)

Lemma record_created_bound (results : BatchResult) (result : JsVal) :
  length (created results) <= ok results ->
  length (created (Mcp.record_created results result))
  <= ok (Mcp.record_created results result).
Proof.
  intros H. unfold Mcp.record_created.
  destruct (truthy (optprop result (js "id"))).
  { simpl. rewrite length_app. simpl. lia. }
  destruct (optprop result (js "result")); simpl; try lia.
  destruct (includes s (js "Created sticky note")); simpl; [|lia].
  destruct (Mcp.match_created s); simpl; [|lia].
  rewrite length_app. simpl. lia.
Qed.

Lemma for_notes_created_bound {W : Type} (call : Mcp.McpTool -> JsVal -> Async W JsVal)
    (pause : Z -> W -> W) (boardId : jsstring) (tool : Mcp.McpTool) :
  forall (notes : list StickySpec) (results : BatchResult) (w : W),
    length (created results) <= ok results ->
    length (created (fst (Mcp.for_notes call pause boardId tool notes results w)))
    <= ok (fst (Mcp.for_notes call pause boardId tool notes results w)).
Proof.
  induction notes as [|n notes IH]; intros results w H; simpl; [exact H|].
  unfold Mcp.create_one.
  destruct (call tool (Mcp.sticky_args boardId n) w) as [[e|r] w'].
  - apply IH. exact H.
  - apply IH. now apply record_created_bound.
Qed.

(** X12. The result of a batch over stdio, whatever the tool calls do: every
    note is counted once, in [ok] or in [failed]; [created] never has more
    entries than [ok] counts (a call that resolves without an id the code
    can read is counted and adds no entry); and the chunk size plays no
    part. *)
Theorem bulk_mcp_result_invariants :
  forall (W : Type) (call : Mcp.McpTool -> JsVal -> Async W JsVal) (pause : Z -> W -> W)
         (tools : list Mcp.McpTool) (boardId : jsstring) (notes : list StickySpec)
         (chunkSize : nat) (w w' : W) (results : BatchResult),
    Mcp.bulkCreateStickies call pause tools boardId notes chunkSize w = (inr results, w') ->
    ok results + length (failed results) = length notes
    /\ length (created results) <= ok results
    /\ forall chunkSize',
         Mcp.bulkCreateStickies call pause tools boardId notes chunkSize' w
         = (inr results, w').
Proof.
  intros W call pause tools boardId notes chunkSize w w' results Hbulk.
  split; [exact (bulk_mcp_accounts call pause boardId tools notes chunkSize w w' results Hbulk)|].
  split; [|intros chunkSize'; exact Hbulk].
  unfold Mcp.bulkCreateStickies in Hbulk.
  destruct (Mcp.findTool tools _) as [tool|]; [|discriminate].
  pose proof (for_notes_created_bound call pause boardId tool notes Batch.empty w
                (Nat.le_refl 0)) as H.
  destruct (Mcp.for_notes call pause boardId tool notes Batch.empty w) as [r2 w2].
  injection Hbulk as <- _. exact H.
Qed.

(** Five notes over stdio, the third call failing. *)
Lemma bulk_mcp_result_invariants_witness :
  let results :=
    mkResult 4 [VStr (js "item0"); VStr (js "item1"); VStr (js "item3"); VStr (js "item4")]
             [(Examples.note "three", Examples.http_error 500)] in
  ok results + length (failed results) = length Examples.five_notes
  /\ length (created results) <= ok results
  /\ forall chunkSize',
       Mcp.bulkCreateStickies Examples.third_fails_call Examples.no_pause
         Mcp.connected_tools (js "board") Examples.five_notes chunkSize' 0
       = (inr results, 5).
Proof.
  apply (bulk_mcp_result_invariants nat Examples.third_fails_call Examples.no_pause
           Mcp.connected_tools (js "board") Examples.five_notes 20 0 5).
  reflexivity.
Defined.

Lemma create_one_rest_created (W : Type) (createSticky : StickySpec -> Async W JsVal)
    (results : BatchResult) (n : StickySpec) (w : W) :
  (forall n w r w', createSticky n w = (inr r, w') -> prop r (js "id") <> None) ->
  length (created results) = ok results ->
  length (created (fst (Batch.create_one createSticky results n w)))
  = ok (fst (Batch.create_one createSticky results n w)).
Proof.
  intros Hobj H. unfold Batch.create_one.
  destruct (createSticky n w) as [[e|r] w'] eqn:E; [exact H|].
  destruct (prop r (js "id")) eqn:P.
  - simpl. rewrite length_app. simpl. lia.
  - exfalso. exact (Hobj _ _ _ _ E P).
Qed.

Lemma for_chunk_rest_created (W : Type) (createSticky : StickySpec -> Async W JsVal)
    (Hobj : forall n w r w', createSticky n w = (inr r, w') -> prop r (js "id") <> None) :
  forall (notes : list StickySpec) (results : BatchResult) (w : W),
    length (created results) = ok results ->
    length (created (fst (for_chunk createSticky notes results w)))
    = ok (fst (for_chunk createSticky notes results w)).
Proof.
  induction notes as [|n notes IH]; intros results w H; simpl; [exact H|].
  pose proof (create_one_rest_created W createSticky results n w Hobj H) as H1.
  destruct (Batch.create_one createSticky results n w) as [r1 w1].
  apply IH. exact H1.
Qed.

(** X13. The result of a batch over REST when no create call resolves with
    [null]: for every chunk size of at least one the batch ends, every
    note is counted once, [created] has one entry per counted success, and
    the result is the one of the plain loop over the notes, the same for
    every such chunk size. *)
Theorem bulk_rest_result_invariants :
  forall (W : Type) (createSticky : StickySpec -> Async W JsVal)
         (notes : list StickySpec) (chunkSize : nat) (w : W),
    (forall n w r w', createSticky n w = (inr r, w') -> prop r (js "id") <> None) ->
    1 <= chunkSize ->
    exists results w',
      Batch.bulkCreateStickies createSticky notes chunkSize w = Some (results, w')
      /\ ok results + length (failed results) = length notes
      /\ length (created results) = ok results
      /\ forall chunkSize', 1 <= chunkSize' ->
           Batch.bulkCreateStickies createSticky notes chunkSize' w = Some (results, w').
Proof.
  intros W createSticky notes chunkSize w Hobj Hc.
  rewrite (bulk_rest_returns createSticky notes chunkSize w Hc).
  pose proof (for_chunk_rest_count createSticky Hobj notes Batch.empty w) as Hcount.
  pose proof (for_chunk_rest_created W createSticky Hobj notes Batch.empty w eq_refl) as Hcr.
  destruct (for_chunk createSticky notes Batch.empty w) as [results w'] eqn:E.
  exists results, w'. split; [reflexivity|]. split; [simpl in Hcount; lia|].
  split; [exact Hcr|].
  intros c' Hc'. rewrite (bulk_rest_returns createSticky notes c' w Hc'). now rewrite E.
Qed.

(** Five notes over REST, the third call failing. *)
Lemma bulk_rest_result_invariants_witness :
  exists results w',
    Batch.bulkCreateStickies Examples.third_fails Examples.five_notes 2 0
    = Some (results, w')
    /\ ok results + length (failed results) = length Examples.five_notes
    /\ length (created results) = ok results
    /\ forall chunkSize', 1 <= chunkSize' ->
         Batch.bulkCreateStickies Examples.third_fails Examples.five_notes chunkSize' 0
         = Some (results, w').
Proof.
  apply (bulk_rest_result_invariants nat Examples.third_fails Examples.five_notes 2 0).
  - intros n w r w'. unfold Examples.third_fails.
    destruct (Nat.eqb w 2); [discriminate|].
    intros E. injection E as <- _. discriminate.
  - lia.
Defined.

(** ** The id of a sticky read from a confirmation text *)

Lemma take_digits_app (digits rest : jsstring) :
  forallb Mcp.is_digit digits = true ->
  (forall c, hd_error rest = Some c -> Mcp.is_digit c = false) ->
  Mcp.take_digits (digits ++ rest) = digits.
Proof.
  intros Hd Hrest. induction digits as [|d digits IH]; simpl in *.
  - destruct rest as [|c rest]; [reflexivity|].
    simpl. now rewrite (Hrest c eq_refl).
  - apply andb_true_iff in Hd as [Hd Hds]. rewrite Hd. f_equal. now apply IH.
Qed.

Lemma match_created_at_start (digits rest : jsstring) :
  digits <> [] ->
  forallb Mcp.is_digit digits = true ->
  (forall c, hd_error rest = Some c -> Mcp.is_digit c = false) ->
  Mcp.match_created (Mcp.created_prefix ++ digits ++ rest) = Some digits.
Proof.
  intros Hne Hd Hrest.
  assert (Hhere : Mcp.match_created_here (Mcp.created_prefix ++ digits ++ rest)
                  = Some digits).
  { unfold Mcp.match_created_here. rewrite starts_with_app.
    rewrite skipn_app, Nat.sub_diag, skipn_all. cbn [skipn app].
    rewrite (take_digits_app digits rest Hd Hrest).
    destruct digits; [contradiction|reflexivity]. }
  revert Hhere. generalize (Mcp.created_prefix ++ digits ++ rest).
  intros s Hs. destruct s as [|c s]; [vm_compute in Hs; discriminate|].
  cbn [Mcp.match_created]. now rewrite Hs.
Qed.

(** X14. From the wire to [created].  A response to a [create_sticky_note]
    call whose one text block reads "Created sticky note", a space, some
    digits and anything that does not go on with a digit, and is not JSON:
    the call resolves with that text under [result], and the batch counts
    the note and records the digits as its id. *)
Theorem created_id_read_from_text :
  forall (JSON_parse : jsstring -> option JsVal) (ToString : JsVal -> jsstring)
         (now random_suffix : jsstring) (args id : JsVal)
         (digits rest : jsstring) (results : BatchResult),
    digits <> [] ->
    forallb Mcp.is_digit digits = true ->
    (forall c, hd_error rest = Some c -> Mcp.is_digit c = false) ->
    let text := Mcp.created_prefix ++ digits ++ rest in
    JSON_parse text = None ->
    let response :=
      VObj [ (js "id", id);
             (js "result",
              VObj [(js "content",
                     VArr [VObj [(js "type", VStr (js "text"));
                                 (js "text", VStr text)]])]) ] in
    Stdio.resolved_value JSON_parse ToString now random_suffix
      (js "create_sticky_note") args response
    = Some (VObj [(js "result", VStr text)])
    /\ Mcp.record_created results (VObj [(js "result", VStr text)])
       = push_created (incr_ok results) (VStr digits).
Proof.
  intros JSON_parse ToString now random_suffix args id digits rest results
         Hne Hd Hrest text Hparse response.
  assert (Hinc : includes text (js "Created sticky note") = true).
  { apply includes_starts. reflexivity. }
  assert (Hm : Mcp.match_created text = Some digits).
  { exact (match_created_at_start digits rest Hne Hd Hrest). }
  unfold response. clearbody text. split.
  - unfold Stdio.resolved_value. simpl. rewrite app_nil_r || idtac.
    now rewrite Hparse.
  - unfold Mcp.record_created. simpl. now rewrite Hinc, Hm.
Qed.

(** The text the tool answers for sticky 3458764 on a board. *)
Lemma created_id_read_from_text_witness :
  let text := Mcp.created_prefix ++ js "3458764" ++ js " on board b1" in
  Mcp.record_created Batch.empty (VObj [(js "result", VStr text)])
  = push_created (incr_ok Batch.empty) (VStr (js "3458764")).
Proof.
  refine (proj2 (created_id_read_from_text (fun _ => None) (fun _ => []) [] [] VNull
                   (VNum 7%float) (js "3458764") (js " on board b1") Batch.empty
                   _ eq_refl _ eq_refl)).
  - discriminate.
  - intros c H. injection H as <-. reflexivity.
Defined.

(** ** A pending call: settlement and correlation by id *)

Lemma trim_start_nil (s : jsstring) :
  trim_start s = [] -> forallb is_space s = true.
Proof.
  induction s as [|c s IH]; simpl; [reflexivity|].
  destruct (is_space c); [exact IH|discriminate].
Qed.

Lemma trim_start_head (s : jsstring) (c : N) (t : jsstring) :
  trim_start s = c :: t -> is_space c = false.
Proof.
  induction s as [|x s IH]; simpl; [discriminate|].
  destruct (is_space x) eqn:E; [exact IH|].
  intros H. now injection H as <- _.
Qed.

Lemma trim_nil (s : jsstring) : trim s = [] -> forallb is_space s = true.
Proof.
  unfold trim. intros H.
  assert (H1 : trim_start (rev (trim_start s)) = []).
  { destruct (trim_start (rev (trim_start s))) as [|c t]; [reflexivity|].
    simpl in H. now destruct (rev t). }
  apply trim_start_nil in H1.
  destruct (trim_start s) as [|c t] eqn:E; [now apply trim_start_nil|].
  apply trim_start_head in E.
  rewrite forallb_forall in H1. rewrite (H1 c) in E; [discriminate|].
  apply -> in_rev. now left.
Qed.

Lemma includes_head_in (s p : jsstring) (c : N) :
  includes s (c :: p) = true -> In c s.
Proof.
  induction s as [|x s IH]; simpl; [discriminate|].
  intros H. apply orb_true_iff in H as [H|H].
  - apply andb_true_iff in H as [H _]. apply N.eqb_eq in H. now left.
  - right. now apply IH.
Qed.

(** A line that includes the quoted key is not blank: the test on
    [line.trim()] adds nothing to the test on the key. *)
Lemma id_key_line_not_blank (line : jsstring) :
  includes line Stdio.id_key = true -> truthy (VStr (trim line)) = true.
Proof.
  intros H. apply includes_head_in in H.
  simpl. destruct (trim line) eqn:E; [|reflexivity].
  apply trim_nil in E. rewrite forallb_forall in E.
  specialize (E _ H). vm_compute in E. discriminate E.
Qed.

Section PendingFacts.
Variable JSON_parse : jsstring -> option JsVal.
Variable ToString : JsVal -> jsstring.
Variables now random_suffix toolName : jsstring.
Variable args : JsVal.
Variable messageId : Z.

Lemma deliver_keeps_settled (p : Stdio.Pending) (ev : Stdio.StreamEvent)
    (o : JsVal + JsVal) :
  Stdio.settled p = Some o ->
  Stdio.settled
    (Stdio.deliver JSON_parse ToString now random_suffix toolName args messageId p ev)
  = Some o.
Proof.
  intros H. destruct ev as [data|]; simpl.
  - destruct (Stdio.listening p); [|exact H].
    unfold Stdio.onData.
    destruct (Stdio.scan _ _ _ _ _ _ _ _) as [off [v|]]; simpl; now rewrite H.
  - now rewrite H.
Qed.

Lemma deliver_keeps_detached (p : Stdio.Pending) (ev : Stdio.StreamEvent) :
  Stdio.listening p = false ->
  Stdio.listening
    (Stdio.deliver JSON_parse ToString now random_suffix toolName args messageId p ev)
  = false
  /\ Stdio.responseData
       (Stdio.deliver JSON_parse ToString now random_suffix toolName args messageId p ev)
     = Stdio.responseData p.
Proof. intros H. destruct ev as [data|]; simpl; [rewrite H|]; now split. Qed.

Lemma events_keep_settled (evs : list Stdio.StreamEvent) :
  forall (p : Stdio.Pending) (o : JsVal + JsVal),
    Stdio.settled p = Some o ->
    Stdio.settled
      (fold_left
         (Stdio.deliver JSON_parse ToString now random_suffix toolName args messageId)
         evs p)
    = Some o.
Proof.
  induction evs as [|ev evs IH]; intros p o H; simpl; [exact H|].
  apply IH. now apply deliver_keeps_settled.
Qed.

Lemma events_keep_detached (evs : list Stdio.StreamEvent) :
  forall (p : Stdio.Pending),
    Stdio.listening p = false ->
    Stdio.listening
      (fold_left
         (Stdio.deliver JSON_parse ToString now random_suffix toolName args messageId)
         evs p)
    = false
    /\ Stdio.responseData
         (fold_left
            (Stdio.deliver JSON_parse ToString now random_suffix toolName args messageId)
            evs p)
       = Stdio.responseData p.
Proof.
  induction evs as [|ev evs IH]; intros p H; simpl; [now split|].
  destruct (deliver_keeps_detached p ev H) as [Hl Hd].
  destruct (IH _ Hl) as [Hl' Hd']. split; [exact Hl'|congruence].
Qed.

(** Lines none of which parses to a response with the id of the call
    leave the listener registered and resolve nothing. *)
Lemma scan_other_ids (lines : list jsstring) :
  (forall line response id,
      In line lines -> JSON_parse line = Some response ->
      prop response (js "id") = Some id -> is_num id messageId = false) ->
  Stdio.scan JSON_parse ToString now random_suffix toolName args messageId lines
  = (false, None).
Proof.
  induction lines as [|line lines IH]; intros H; [reflexivity|].
  cbn [Stdio.scan].
  assert (IH' := IH (fun l r i Hl => H l r i (or_intror Hl))).
  destruct (truthy (VStr (trim line)) && includes line Stdio.id_key); [|exact IH'].
  destruct (JSON_parse line) as [response|] eqn:Hp; [|exact IH'].
  destruct (prop response (js "id")) as [id|] eqn:Hid; [|exact IH'].
  now rewrite (H line response id (or_introl eq_refl) Hp Hid).
Qed.
End PendingFacts.

(** X15. A call is settled once and a timeout settles it.  Whatever stdout
    delivers after the call has been resolved or rejected, and whenever
    the timer fires after that, the outcome stays; a call not settled when
    the timer fires is rejected with "Tool call timeout"; and after the
    timer the listener is detached, so later data is not even buffered. *)
Theorem call_settles_once_and_by_timeout :
  forall (JSON_parse : jsstring -> option JsVal) (ToString : JsVal -> jsstring)
         (now random_suffix toolName : jsstring) (args : JsVal) (messageId : Z)
         (before after : list Stdio.StreamEvent),
    let run := Stdio.run JSON_parse ToString now random_suffix toolName args messageId in
    (forall o, Stdio.settled (run before) = Some o ->
               Stdio.settled (run (before ++ after)) = Some o)
    /\ (Stdio.settled (run before) = None ->
        Stdio.settled (run (before ++ Stdio.Timeout :: after))
        = Some (inl Stdio.timeout_error))
    /\ Stdio.listening (run (before ++ Stdio.Timeout :: after)) = false
    /\ Stdio.responseData (run (before ++ Stdio.Timeout :: after))
       = Stdio.responseData (run before).
Proof.
  intros JSON_parse ToString now random_suffix toolName args messageId before after run.
  unfold run, Stdio.run. rewrite !fold_left_app. cbn [fold_left].
  set (p := fold_left _ before Stdio.initial).
  split; [|split; [|split]].
  - intros o Ho. now apply events_keep_settled.
  - intros Hnone. apply events_keep_settled. simpl. now rewrite Hnone.
  - now apply (events_keep_detached JSON_parse ToString now random_suffix
                 toolName args messageId after
                 (Stdio.deliver JSON_parse ToString now random_suffix toolName args
                    messageId p Stdio.Timeout)).
  - now destruct (events_keep_detached JSON_parse ToString now random_suffix
                    toolName args messageId after
                    (Stdio.deliver JSON_parse ToString now random_suffix toolName args
                       messageId p Stdio.Timeout) eq_refl) as [_ ->].
Qed.

(** X16. Correlation by id.  Data in which no line parses to a response with
    the id of the call is buffered and changes nothing else: the listener
    stays, nothing is resolved.  And the first line that carries the id
    and can be decoded resolves the call with its decoded result, whatever
    lines for other ids come before it and whatever comes after it. *)
Theorem call_resolves_on_its_id_only :
  forall (JSON_parse : jsstring -> option JsVal) (ToString : JsVal -> jsstring)
         (now random_suffix toolName : jsstring) (args : JsVal) (messageId : Z)
         (p : Stdio.Pending) (data : Stdio.Buffer),
    let buffer := Stdio.responseData p ++ Stdio.toString data in
    let onData :=
      Stdio.onData JSON_parse ToString now random_suffix toolName args messageId in
    ((forall line response id,
         In line (split Stdio.newline buffer) -> JSON_parse line = Some response ->
         prop response (js "id") = Some id -> is_num id messageId = false) ->
     onData p data = Stdio.mkPending buffer (Stdio.listening p) (Stdio.settled p))
    /\
    (forall before line after response id v,
        split Stdio.newline buffer = before ++ line :: after ->
        (forall l r i, In l before -> JSON_parse l = Some r ->
                       prop r (js "id") = Some i -> is_num i messageId = false) ->
        includes line Stdio.id_key = true ->
        JSON_parse line = Some response ->
        prop response (js "id") = Some id -> is_num id messageId = true ->
        Stdio.resolved_value JSON_parse ToString now random_suffix toolName args response
        = Some v ->
        Stdio.settled p = None ->
        onData p data = Stdio.mkPending buffer false (Some (inr v))).
Proof.
  intros JSON_parse ToString now random_suffix toolName args messageId p data
         buffer onData.
  split.
  - intros H. unfold onData, Stdio.onData. fold buffer.
    now rewrite (scan_other_ids JSON_parse ToString now random_suffix toolName args
                   messageId _ H).
  - intros before line after response id v Hsplit Hbefore Hinc Hparse Hid Hnum Hv Hnone.
    unfold onData, Stdio.onData. fold buffer. rewrite Hsplit.
    assert (Hscan : Stdio.scan JSON_parse ToString now random_suffix toolName args
                      messageId (before ++ line :: after) = (true, Some v)).
    { clear Hsplit. induction before as [|l before IH].
      - cbn [app Stdio.scan].
        rewrite (id_key_line_not_blank line Hinc).
        rewrite Hinc, Hparse, Hid, Hnum, Hv. reflexivity.
      - cbn [app Stdio.scan].
        assert (IH' := IH (fun l0 r i Hl => Hbefore l0 r i (or_intror Hl))).
        destruct (truthy (VStr (trim l)) && includes l Stdio.id_key); [|exact IH'].
        destruct (JSON_parse l) as [r|] eqn:Hp; [|exact IH'].
        destruct (prop r (js "id")) as [i|] eqn:Hi; [|exact IH'].
        now rewrite (Hbefore l r i (or_introl eq_refl) Hp Hi). }
    rewrite Hscan. simpl. now rewrite Hnone.
Qed.

(** ** Command line *)

Lemma get_set_same (k : jsstring) (v : JsVal) (m : Cli.Args) :
  Cli.get k (Cli.set k v m) = v.
Proof.
  unfold Cli.get. induction m as [|[k' v'] m IH]; simpl.
  - now rewrite str_eqb_refl.
  - destruct (str_eqb k k') eqn:E; simpl.
    + now rewrite str_eqb_refl.
    + now rewrite E.
Qed.

Lemma includes_singleton (s : jsstring) (c : N) :
  includes s [c] = true <-> In c s.
Proof.
  induction s as [|x s IH]; simpl.
  - split; [discriminate|contradiction].
  - rewrite orb_true_iff, IH, andb_true_r, N.eqb_eq. split; intros [H|H]; auto.
Qed.

Lemma includes_singleton_false (s : jsstring) (c : N) :
  ~ In c s -> includes s [c] = false.
Proof.
  intros H. destruct (includes s [c]) eqn:E; [|reflexivity].
  now apply includes_singleton in E.
Qed.

Lemma split_no_sep (sep : N) (v : jsstring) : ~ In sep v -> split sep v = [v].
Proof.
  induction v as [|c v IH]; intros H; simpl; [reflexivity|].
  destruct (N.eqb c sep) eqn:E.
  - apply N.eqb_eq in E. exfalso. apply H. now left.
  - rewrite IH; [reflexivity|]. intros Hin. apply H. now right.
Qed.

Lemma split_app_sep (sep : N) (a b : jsstring) :
  ~ In sep a -> split sep (a ++ sep :: b) = a :: split sep b.
Proof.
  induction a as [|c a IH]; intros H; simpl.
  - now rewrite N.eqb_refl.
  - destruct (N.eqb c sep) eqn:E.
    + apply N.eqb_eq in E. exfalso. apply H. now left.
    + rewrite IH; [reflexivity|]. intros Hin. apply H. now right.
Qed.

Lemma strip_dashes (k : jsstring) : Cli.strip (Cli.dashes ++ k) = k.
Proof. reflexivity. Qed.

Lemma parse_cons (a : jsstring) (rest : list jsstring) (args : Cli.Args) :
  Cli.parse (a :: rest) args
  = if starts_with Cli.dashes a then
      if includes a [Cli.equals] then
        match split Cli.equals a with
        | k :: v :: _ => Cli.parse rest (Cli.set (Cli.strip k) (VStr v) args)
        | [k] => Cli.parse rest (Cli.set (Cli.strip k) VUndefined args)
        | [] => Cli.parse rest args
        end
      else
        match rest with
        | [] => Cli.parse rest (Cli.set (Cli.strip a) (VBool true) args)
        | v :: rest' =>
            if starts_with Cli.dashes v
            then Cli.parse rest (Cli.set (Cli.strip a) (VBool true) args)
            else Cli.parse rest' (Cli.set (Cli.strip a) (VStr v) args)
        end
    else Cli.parse rest args.
Proof. reflexivity. Qed.

(** An argument that starts with two dashes is read as an option,
    whatever comes before it. *)
Lemma parse_flag_after (t : jsstring) (rest : list jsstring) :
  starts_with Cli.dashes t = true ->
  forall (n : nat) (pre : list jsstring) (args : Cli.Args),
    length pre <= n ->
    Cli.parse (pre ++ t :: rest) args = Cli.parse (t :: rest) (Cli.parse pre args).
Proof.
  intros Ht. induction n as [|n IH]; intros pre args Hn.
  - destruct pre; [reflexivity|simpl in Hn; lia].
  - destruct pre as [|a pre]; [reflexivity|].
    simpl in Hn. cbn [app].
    rewrite (parse_cons a (pre ++ t :: rest)), (parse_cons a pre).
    destruct (starts_with Cli.dashes a); [|apply IH; lia].
    destruct (includes a [Cli.equals]).
    + destruct (split Cli.equals a) as [|k [|v l]]; apply IH; lia.
    + destruct pre as [|v pre].
      * cbn [app]. now rewrite Ht.
      * cbn [app]. destruct (starts_with Cli.dashes v).
        -- apply (IH (v :: pre)). simpl in Hn |- *. lia.
        -- apply IH. simpl in Hn. lia.
Qed.

(** Rewrites with [parse_flag_after], whichever name the type of the
    arguments is written with. *)
Ltac parse_after t rest pre args :=
  let E := fresh "E" in
  pose proof (@parse_flag_after t rest eq_refl (length pre) pre args (Nat.le_refl _)) as E;
  cbv delta [jsstring] in E |- *; rewrite E; clear E.

(** X17. The [--execute] option.  Written last without a value it turns
    execution on.  Written [--execute=v] it turns execution on for every
    non-empty [v], the words false, no and 0 included: only the truth of
    the string is read.  Written [--execute=] it leaves execution off. *)
Theorem cli_execute_reads_no_value :
  forall (pre : list jsstring) (env : Cli.Env),
    Cli.EXECUTE (Cli.config (pre ++ [js "--execute"]) env) = true
    /\ Cli.EXECUTE (Cli.config (pre ++ [js "--execute="]) env) = false
    /\ forall v : jsstring, v <> [] -> ~ In Cli.equals v ->
                 Cli.EXECUTE (Cli.config (pre ++ [js "--execute=" ++ v]) env) = true.
Proof.
  intros pre env. unfold Cli.config. cbn [Cli.EXECUTE].
  split; [|split].
  - parse_after (js "--execute") (@nil (list N)) pre (@nil (jsstring * JsVal)).
    rewrite parse_cons. change (starts_with Cli.dashes (js "--execute")) with true.
    change (includes (js "--execute") [Cli.equals]) with false. cbv iota.
    change (Cli.strip (js "--execute")) with (js "execute").
    cbn [Cli.parse]. now rewrite get_set_same.
  - parse_after (js "--execute=") (@nil (list N)) pre (@nil (jsstring * JsVal)).
    rewrite parse_cons. change (starts_with Cli.dashes (js "--execute=")) with true.
    change (includes (js "--execute=") [Cli.equals]) with true. cbv iota.
    change (split Cli.equals (js "--execute=")) with [js "--execute"; []].
    change (Cli.strip (js "--execute")) with (js "execute").
    cbn [Cli.parse]. now rewrite get_set_same.
  - intros v Hne Hv.
    parse_after (js "--execute=" ++ v) (@nil (list N)) pre (@nil (jsstring * JsVal)).
    rewrite parse_cons.
    change (starts_with Cli.dashes (js "--execute=" ++ v)) with true.
    assert (includes (js "--execute=" ++ v) [Cli.equals] = true) as ->.
    { apply includes_singleton. apply in_or_app. left. vm_compute. tauto. }
    change (js "--execute=" ++ v) with (js "--execute" ++ Cli.equals :: v).
    rewrite split_app_sep, (split_no_sep _ v Hv).
    + change (Cli.strip (js "--execute")) with (js "execute").
      cbn [Cli.parse]. rewrite get_set_same. now destruct v.
    + vm_compute. intuition discriminate.
Qed.

(** X18. The two ways to give an option a value.  For a key and a value
    without [=], the value not starting with two dashes, [--key value]
    and [--key=value] set the key to the value, wherever they stand. *)
Theorem cli_option_forms_agree :
  forall (pre rest : list jsstring) (k v : jsstring) (args : Cli.Args),
    ~ In Cli.equals k -> ~ In Cli.equals v -> starts_with Cli.dashes v = false ->
    Cli.parse (pre ++ (Cli.dashes ++ k) :: v :: rest) args
    = Cli.parse rest (Cli.set k (VStr v) (Cli.parse pre args))
    /\ Cli.parse (pre ++ (Cli.dashes ++ k ++ Cli.equals :: v) :: rest) args
       = Cli.parse rest (Cli.set k (VStr v) (Cli.parse pre args)).
Proof.
  intros pre rest k v args Hk Hv Hdash. split.
  - parse_after (Cli.dashes ++ k) (v :: rest) pre args.
    rewrite parse_cons. change (starts_with Cli.dashes (Cli.dashes ++ k)) with true.
    rewrite includes_singleton_false.
    + now rewrite Hdash, strip_dashes.
    + intros Hin. apply in_app_or in Hin as [Hin|Hin]; [|now apply Hk].
      vm_compute in Hin. intuition discriminate.
  - parse_after (Cli.dashes ++ k ++ Cli.equals :: v) rest pre args.
    rewrite parse_cons.
    change (starts_with Cli.dashes (Cli.dashes ++ k ++ Cli.equals :: v)) with true.
    assert (includes (Cli.dashes ++ k ++ Cli.equals :: v) [Cli.equals] = true) as ->.
    { apply includes_singleton. apply in_or_app. right. apply in_or_app. right. now left. }
    rewrite app_assoc, split_app_sep, (split_no_sep _ v Hv).
    + now rewrite strip_dashes.
    + intros Hin. apply in_app_or in Hin as [Hin|Hin]; [|now apply Hk].
      vm_compute in Hin. intuition discriminate.
Qed.

(** The board given in either form, between other arguments. *)
Lemma cli_option_forms_agree_witness :
  Cli.parse ([js "notes.txt"] ++ (Cli.dashes ++ js "board") :: js "b1" :: [js "--execute"]) []
  = Cli.parse [js "--execute"] (Cli.set (js "board") (VStr (js "b1")) (Cli.parse [js "notes.txt"] []))
  /\ Cli.parse ([js "notes.txt"] ++ (Cli.dashes ++ js "board" ++ Cli.equals :: js "b1")
                  :: [js "--execute"]) []
     = Cli.parse [js "--execute"] (Cli.set (js "board") (VStr (js "b1")) (Cli.parse [js "notes.txt"] [])).
Proof.
  apply (cli_option_forms_agree [js "notes.txt"] [js "--execute"] (js "board") (js "b1") []).
  - vm_compute. intuition discriminate.
  - vm_compute. intuition discriminate.
  - reflexivity.
Defined.

(** X19. An option written last without a value is set to [true].  For
    [--board] this passes the check for a missing board id: the program
    goes on with [true] for the board id instead of reporting it, and what
    the environment holds for the board is not read. *)
Theorem cli_option_without_value_is_true :
  forall (pre : list jsstring) (k : jsstring) (args : Cli.Args) (env : Cli.Env),
    (~ In Cli.equals k ->
     Cli.get k (Cli.parse (pre ++ [Cli.dashes ++ k]) args) = VBool true)
    /\ Cli.BOARD_ID (Cli.config (pre ++ [js "--board"]) env) = VBool true
    /\ Cli.startup (pre ++ [js "--board"]) env
       <> Cli.Exit (js "Missing --board <boardId> or MIRO_BOARD_ID env var").
Proof.
  intros pre k args env.
  assert (Hk : forall k' a, ~ In Cli.equals k' ->
             Cli.get k' (Cli.parse (pre ++ [Cli.dashes ++ k']) a) = VBool true).
  { clear k args. intros k a Hin.
    parse_after (Cli.dashes ++ k) (@nil (list N)) pre a.
    rewrite parse_cons. change (starts_with Cli.dashes (Cli.dashes ++ k)) with true.
    rewrite includes_singleton_false.
    - cbn [Cli.parse]. now rewrite strip_dashes, get_set_same.
    - intros H. apply in_app_or in H as [H|H]; [|now apply Hin].
      vm_compute in H. intuition discriminate. }
  assert (Hboard : Cli.get (js "board") (Cli.parse (pre ++ [js "--board"]) [])
                   = VBool true).
  { apply (Hk (js "board") []). vm_compute. intuition discriminate. }
  split; [apply Hk|]. split.
  - unfold Cli.config. cbn [Cli.BOARD_ID]. now rewrite Hboard.
  - unfold Cli.startup, Cli.config. cbn [Cli.BOARD_ID]. rewrite Hboard. cbn [or_else truthy negb].
    cbv iota.
    repeat match goal with
           | |- (if ?c then _ else _) <> _ => destruct c
           end; discriminate.
Qed.

(** X20. The part of a value after the second [=] is dropped: [--key=a=b]
    sets the key to [a]. *)
Theorem cli_value_ends_at_second_equals :
  forall (pre rest : list jsstring) (k v more : jsstring) (args : Cli.Args),
    ~ In Cli.equals k -> ~ In Cli.equals v ->
    Cli.parse (pre ++ (Cli.dashes ++ k ++ Cli.equals :: v ++ Cli.equals :: more) :: rest) args
    = Cli.parse (pre ++ (Cli.dashes ++ k ++ Cli.equals :: v) :: rest) args.
Proof.
  intros pre rest k v more args Hk Hv.
  assert (Hdk : ~ In Cli.equals (Cli.dashes ++ k)).
  { intros Hin. apply in_app_or in Hin as [Hin|Hin]; [|now apply Hk].
    vm_compute in Hin. intuition discriminate. }
  parse_after (Cli.dashes ++ k ++ Cli.equals :: v ++ Cli.equals :: more) rest pre args.
  parse_after (Cli.dashes ++ k ++ Cli.equals :: v) rest pre args.
  rewrite !parse_cons.
  change (starts_with Cli.dashes (Cli.dashes ++ k ++ Cli.equals :: v ++ Cli.equals :: more))
    with true.
  change (starts_with Cli.dashes (Cli.dashes ++ k ++ Cli.equals :: v)) with true.
  assert (includes (Cli.dashes ++ k ++ Cli.equals :: v ++ Cli.equals :: more) [Cli.equals]
          = true) as ->.
  { apply includes_singleton. apply in_or_app. right. apply in_or_app. right. now left. }
  assert (includes (Cli.dashes ++ k ++ Cli.equals :: v) [Cli.equals] = true) as ->.
  { apply includes_singleton. apply in_or_app. right. apply in_or_app. right. now left. }
  rewrite !app_assoc.
  rewrite (split_app_sep Cli.equals (Cli.dashes ++ k) (v ++ Cli.equals :: more) Hdk).
  rewrite (split_app_sep Cli.equals (Cli.dashes ++ k) v Hdk).
  rewrite (split_app_sep Cli.equals v more Hv), (split_no_sep Cli.equals v Hv).
  reflexivity.
Qed.

(** A token in a path given with [=] is lost. *)
Lemma cli_value_ends_at_second_equals_witness :
  Cli.parse ([] ++ (Cli.dashes ++ js "mcp-args" ++ Cli.equals
                      :: js "s.js --token" ++ Cli.equals :: js "abc") :: []) []
  = Cli.parse ([] ++ (Cli.dashes ++ js "mcp-args" ++ Cli.equals :: js "s.js --token") :: []) [].
Proof.
  apply (cli_value_ends_at_second_equals [] [] (js "mcp-args") (js "s.js --token")
           (js "abc") []).
  - vm_compute. intuition discriminate.
  - vm_compute. intuition discriminate.
Defined.

(** ** The extraction step *)

Lemma is_bullet_true (v : JsVal) :
  Extract.is_bullet v = true <-> exists s, v = VStr s /\ trim s <> [].
Proof.
  destruct v as [| |b|q|s|items|fields]; simpl;
    try (split; [discriminate | intros (s0 & H & _); discriminate]).
  split.
  - intros H. exists s. split; [reflexivity|]. intros E. rewrite E in H. discriminate.
  - intros (s0 & H & Hne). injection H as <-.
    destruct (trim s); [contradiction|reflexivity].
Qed.

Lemma isArrayOfStrings_true (a : JsVal) :
  Extract.isArrayOfStrings a = true
  <-> exists l, a = VArr (map VStr l) /\ Forall (fun s => trim s <> []) l.
Proof.
  destruct a as [| |b|q|s|items|fields]; simpl;
    try (split; [discriminate | intros (l & H & _); discriminate]).
  split.
  - induction items as [|v items IH]; simpl; intros H.
    + exists []. split; [reflexivity|constructor].
    + apply andb_true_iff in H as [Hv H].
      apply is_bullet_true in Hv as (s & -> & Hs).
      destruct (IH H) as (l & E & Hl). injection E as ->.
      exists (s :: l). split; [reflexivity|now constructor].
  - intros (l & E & Hl). injection E as ->.
    induction Hl as [|s l Hs Hl IH]; simpl; [reflexivity|].
    rewrite IH, andb_true_r. destruct (trim s); [contradiction|reflexivity].
Qed.

Lemma strings_map (l : list jsstring) : Extract.strings (VArr (map VStr l)) = l.
Proof. simpl. induction l as [|s l IH]; simpl; congruence. Qed.

Lemma validateLLMOutput_true (obj : JsVal) :
  Extract.validateLLMOutput obj = true
  <-> exists ins rs,
        optprop obj (js "insights") = VArr (map VStr ins)
        /\ optprop obj (js "risks") = VArr (map VStr rs)
        /\ Forall (fun s => trim s <> []) (ins ++ rs).
Proof.
  unfold Extract.validateLLMOutput.
  rewrite !andb_true_iff, !isArrayOfStrings_true. split.
  - intros [[_ (ins & Ei & Hi)] (rs & Er & Hr)]. exists ins, rs.
    repeat split; auto. apply Forall_app; auto.
  - intros (ins & rs & Ei & Er & H). apply Forall_app in H as [Hi Hr].
    split; [split|]; eauto.
    destruct obj; simpl in Ei; try discriminate; reflexivity.
Qed.

(** X21. What the validation lets through: an object whose [insights] and
    [risks] are both arrays of strings, none of them blank.  Empty arrays
    pass; a missing key, a key that is not an array, and one element that
    is not a string or has only white space each fail it. *)
Theorem validateLLMOutput_accepts_bullet_lists_only :
  forall obj : JsVal,
    (Extract.validateLLMOutput obj = true
     <-> exists ins rs,
           optprop obj (js "insights") = VArr (map VStr ins)
           /\ optprop obj (js "risks") = VArr (map VStr rs)
           /\ Forall (fun s => trim s <> []) (ins ++ rs))
    /\ (optprop obj (js "insights") = VArr [] -> optprop obj (js "risks") = VArr [] ->
        Extract.validateLLMOutput obj = true)
    /\ (forall items b,
          optprop obj (js "insights") = VArr items \/ optprop obj (js "risks") = VArr items ->
          In b items -> (forall s, b = VStr s -> trim s = []) ->
          Extract.validateLLMOutput obj = false).
Proof.
  intros obj. split; [apply validateLLMOutput_true|]. split.
  - intros Ei Er. apply validateLLMOutput_true. exists [], []. repeat split; auto.
  - intros items b Hitems Hb Hbad.
    destruct (Extract.validateLLMOutput obj) eqn:Hv; [|reflexivity]. exfalso.
    unfold Extract.validateLLMOutput in Hv.
    apply andb_true_iff in Hv as [Hv Hr]. apply andb_true_iff in Hv as [_ Hi].
    assert (Hall : forallb Extract.is_bullet items = true).
    { destruct Hitems as [E|E]; [rewrite E in Hi; exact Hi|rewrite E in Hr; exact Hr]. }
    rewrite forallb_forall in Hall. apply Hall in Hb.
    apply is_bullet_true in Hb as (s & -> & Hs). apply Hs. now apply Hbad.
Qed.

(** X22. What the extraction returns, when it returns: a run id that is the
    first ten characters of the digest of the transcript, at most twelve
    insights and at most twelve risks, none of them blank; and it has
    sent one request. *)
Theorem extraction_returns_checked_bullets :
  forall (W : Type) (sha256 : jsstring -> jsstring)
         (fetch : Extract.Request -> Async W Rest.Response)
         (JSON_parse : jsstring -> option JsVal) (ToString : JsVal -> jsstring)
         (MODEL : JsVal) (transcript : jsstring) (w w' : W) (r : Main.InsightsRisks),
    Extract.getInsightsRisksFromClaude sha256 fetch JSON_parse ToString MODEL transcript w
    = (inr r, w') ->
    Main.runId r = firstn 10 (sha256 transcript)
    /\ length (Main.insights r) <= 12
    /\ length (Main.risks r) <= 12
    /\ (forall s, In s (Main.insights r ++ Main.risks r) -> trim s <> [])
    /\ snd (fetch (Extract.request MODEL transcript) w) = w'.
Proof.
  intros W sha256 fetch JSON_parse ToString MODEL transcript w w' r.
  unfold Extract.getInsightsRisksFromClaude, bind.
  destruct (fetch (Extract.request MODEL transcript) w) as [[e|resp] w1]; [discriminate|].
  destruct (Rest.resp_ok resp); simpl; [|discriminate].
  destruct (Rest.resp_json resp) as [data|]; [|discriminate].
  destruct (JSON_parse _) as [parsed|]; [|discriminate].
  destruct (Extract.validateLLMOutput parsed) eqn:Hv; simpl; [|discriminate].
  intros E. injection E as <- <-.
  apply validateLLMOutput_true in Hv as (ins & rs & -> & -> & H).
  rewrite !strings_map. unfold Main.extraction, Main.runId_of.
  cbn [Main.runId Main.insights Main.risks snd].
  apply Forall_app in H as [Hi Hr].
  split; [reflexivity|]. split; [apply firstn_le_length|].
  split; [apply firstn_le_length|]. split; [|reflexivity].
  intros s Hs. apply in_app_or in Hs as [Hs|Hs].
  - exact (proj1 (Forall_forall _ _) (Forall_firstn _ 12 ins Hi) s Hs).
  - exact (proj1 (Forall_forall _ _) (Forall_firstn _ 12 rs Hr) s Hs).
Qed.

(** One insight and no risk are answered. *)
Lemma extraction_returns_checked_bullets_witness :
  Main.runId Examples.one_insight = firstn 10 Examples.digest_a
  /\ length (Main.insights Examples.one_insight) <= 12
  /\ length (Main.risks Examples.one_insight) <= 12
  /\ (forall s, In s (Main.insights Examples.one_insight ++ Main.risks Examples.one_insight) ->
                trim s <> [])
  /\ snd (Samples.claude_says Samples.good_answer
            (Extract.request (VStr (js "claude-3-5-sonnet-latest")) (js "We ship on Friday.")) 0)
     = 1.
Proof.
  apply (extraction_returns_checked_bullets nat Samples.digest_of
           (Samples.claude_says Samples.good_answer) Samples.answer_parse
           Samples.object_text (VStr (js "claude-3-5-sonnet-latest"))
           (js "We ship on Friday.") 0 1 Examples.one_insight).
  reflexivity.
Defined.

(** X23. How the extraction fails once the request has been answered: it is
    not sent again, and nothing is returned.  A response that is not [ok]
    is thrown with its status and body; an answer whose text is not JSON
    is reported as such; and one element that is not a non-blank string,
    in either list, fails the whole answer, the other bullets with it. *)
Theorem extraction_fails_as_a_whole :
  forall (W : Type) (sha256 : jsstring -> jsstring)
         (fetch : Extract.Request -> Async W Rest.Response)
         (JSON_parse : jsstring -> option JsVal) (ToString : JsVal -> jsstring)
         (MODEL : JsVal) (transcript : jsstring) (w w' : W) (resp : Rest.Response),
    fetch (Extract.request MODEL transcript) w = (inr resp, w') ->
    let run :=
      Extract.getInsightsRisksFromClaude sha256 fetch JSON_parse ToString MODEL transcript w in
    (Rest.resp_ok resp = false -> run = (inl (Extract.api_error resp), w'))
    /\ (Rest.resp_ok resp = true ->
        forall data, Rest.resp_json resp = Some data ->
          (JSON_parse (Extract.as_text ToString (Extract.answer_text data)) = None ->
           run = (inl Extract.non_json, w'))
          /\ (forall parsed items b,
                JSON_parse (Extract.as_text ToString (Extract.answer_text data)) = Some parsed ->
                optprop parsed (js "insights") = VArr items
                \/ optprop parsed (js "risks") = VArr items ->
                In b items -> Extract.is_bullet b = false ->
                run = (inl Extract.failed_validation, w'))).
Proof.
  intros W sha256 fetch JSON_parse ToString MODEL transcript w w' resp Hfetch run.
  subst run. unfold Extract.getInsightsRisksFromClaude, bind. rewrite Hfetch.
  split; [intros ->; reflexivity|].
  intros -> data ->. simpl. split; [intros ->; reflexivity|].
  intros parsed items b -> Hitems Hb Hbad.
  assert (Hv : Extract.validateLLMOutput parsed = false).
  { destruct (Extract.validateLLMOutput parsed) eqn:Hv; [|reflexivity].
    exfalso. unfold Extract.validateLLMOutput in Hv.
    apply andb_true_iff in Hv as [Hv Hr]. apply andb_true_iff in Hv as [_ Hi].
    assert (Hall : forallb Extract.is_bullet items = true).
    { destruct Hitems as [E|E]; [rewrite E in Hi; exact Hi|rewrite E in Hr; exact Hr]. }
    rewrite forallb_forall in Hall. rewrite (Hall b Hb) in Hbad. discriminate. }
  now rewrite Hv.
Qed.

(** Two insights are answered, the second one a single space. *)
Lemma extraction_fails_as_a_whole_witness :
  Extract.getInsightsRisksFromClaude Samples.digest_of
    (Samples.claude_says Samples.blank_answer) Samples.answer_parse Samples.object_text
    (VStr (js "claude-3-5-sonnet-latest")) (js "We ship on Friday.") 0
  = (inl Extract.failed_validation, 1).
Proof.
  refine (proj2 (proj2
            (extraction_fails_as_a_whole nat Samples.digest_of
               (Samples.claude_says Samples.blank_answer) Samples.answer_parse
               Samples.object_text (VStr (js "claude-3-5-sonnet-latest"))
               (js "We ship on Friday.") 0 1 _ eq_refl) eq_refl _ eq_refl)
            _ [VStr (js "Ship on Friday"); VStr (js " ")] (VStr (js " "))
            eq_refl (or_introl eq_refl) _ eq_refl).
  right. now left.
Defined.

(** ** Starting the tool server *)

Lemma trim_start_snoc (l : jsstring) (c : N) :
  is_space c = false -> exists l', trim_start (l ++ [c]) = l' ++ [c].
Proof.
  intros Hc. induction l as [|x l IH]; simpl.
  - rewrite Hc. now exists [].
  - destruct (is_space x); [exact IH|]. now exists (x :: l).
Qed.

Lemma trim_head (s : jsstring) :
  trim s <> [] -> exists c t, trim s = c :: t /\ is_space c = false.
Proof.
  unfold trim. destruct (trim_start s) as [|c t0] eqn:E.
  - simpl. contradiction.
  - intros _. pose proof (trim_start_head s c t0 E) as Hc.
    simpl rev at 2. destruct (trim_start_snoc (rev t0) c Hc) as [l' El].
    rewrite El, rev_app_distr. simpl. now exists c, (rev l').
Qed.

Lemma split_parts_free (sep : N) (s : jsstring) :
  Forall (fun part => ~ In sep part) (split sep s).
Proof.
  induction s as [|c s IH]; simpl.
  - constructor; [intros []|constructor].
  - destruct (N.eqb c sep) eqn:E.
    + constructor; [intros []|exact IH].
    + destruct (split sep s) as [|l ls].
      * constructor; [|constructor].
        intros [H|[]]. subst. now rewrite N.eqb_refl in E.
      * inversion IH as [|? ? Hl Hls]; subst. constructor; [|assumption].
        intros [H|H]; [subst; now rewrite N.eqb_refl in E|auto].
Qed.

Lemma split_head (sep c : N) (t : jsstring) :
  N.eqb c sep = false -> exists l ls, split sep (c :: t) = (c :: l) :: ls.
Proof.
  intros E. simpl. rewrite E. destruct (split sep t) as [|l ls]; eauto.
Qed.

Lemma argParts_parts (s : jsstring) :
  Forall (fun a => a <> [] /\ ~ In Launch.space a) (Launch.argParts s).
Proof.
  apply Forall_forall. intros a Ha. unfold Launch.argParts in Ha.
  apply filter_In in Ha as [Hin Hlen]. split.
  - intros ->. discriminate.
  - exact (proj1 (Forall_forall _ _) (split_parts_free Launch.space (trim s)) a Hin).
Qed.

Lemma get_set_other (k k' : jsstring) (v : JsVal) (m : Cli.Args) :
  str_eqb k k' = false -> Cli.get k (Cli.set k' v m) = Cli.get k m.
Proof.
  intros Hk. unfold Cli.get. induction m as [|[k0 v0] m IH]; simpl.
  - now rewrite Hk.
  - destruct (str_eqb k' k0) eqn:E; simpl.
    + rewrite Hk. apply str_eqb_eq in E. subst k0. now rewrite Hk.
    + destruct (str_eqb k k0); [reflexivity|exact IH].
Qed.

(** X24. The arguments of the tool server.  The text given as [--mcp-args] is
    cut at spaces after trimming, so every argument passed on is non-empty
    and has no space in it, and the first one is the script.  A text of
    white space only passes the check for a missing [--mcp-args] and fails
    in [connect]; [--mcp-args] written last without a value is [true], and
    trimming it throws a TypeError. *)
Theorem mcp_args_are_split_on_spaces :
  forall (cmd : JsVal) (s : jsstring) (pre : list jsstring) (env : Cli.Env),
    (s <> [] -> trim s = [] ->
     Launch.choose (VStr (js "mcp")) cmd (VStr s) = Launch.Throws Launch.not_provided)
    /\ (trim s <> [] ->
        exists p ps,
          Launch.choose (VStr (js "mcp")) cmd (VStr s)
          = Launch.Spawn cmd (VStr p) (map VStr ps)
          /\ Launch.argParts s = p :: ps
          /\ Forall (fun a => a <> [] /\ ~ In Launch.space a) (p :: ps))
    /\ Launch.of_config (Cli.config (pre ++ [js "--transport=mcp"; js "--mcp-args"]) env)
       = Launch.Throws typeError.
Proof.
  intros cmd s pre env. split; [|split].
  - intros Hs Ht. unfold Launch.choose.
    change (is_str (VStr (js "mcp")) (js "mcp")) with true. cbv iota.
    destruct s as [|c s]; [contradiction|]. cbn [truthy negb].
    unfold Launch.argParts. now rewrite Ht.
  - intros Ht. destruct (trim_head s Ht) as (c & t & Etrim & Hc).
    assert (Hsp : N.eqb c Launch.space = false).
    { destruct (N.eqb c Launch.space) eqn:E; [|reflexivity].
      apply N.eqb_eq in E. subst c. discriminate. }
    destruct (split_head Launch.space c t Hsp) as (l & ls & Esplit).
    assert (Eparts : Launch.argParts s
                     = (c :: l) :: filter (fun arg => negb (Nat.eqb (length arg) 0)) ls).
    { unfold Launch.argParts. now rewrite Etrim, Esplit. }
    exists (c :: l), (filter (fun arg => negb (Nat.eqb (length arg) 0)) ls).
    split; [|split; [exact Eparts|]].
    2: { pose proof (argParts_parts s) as Hparts. rewrite Eparts in Hparts. exact Hparts. }
    unfold Launch.choose.
    change (is_str (VStr (js "mcp")) (js "mcp")) with true. cbv iota.
    assert (Hne : truthy (VStr s) = true).
    { destruct s; [|reflexivity]. exfalso. apply Ht. reflexivity. }
    rewrite Hne. cbn [negb]. rewrite Eparts. reflexivity.
  - unfold Launch.of_config, Cli.config.
    cbn [Cli.TRANSPORT Cli.MCP_CMD Cli.MCP_ARGS].
    parse_after (js "--transport=mcp") [js "--mcp-args"] pre (@nil (jsstring * JsVal)).
    rewrite parse_cons.
    change (starts_with Cli.dashes (js "--transport=mcp")) with true.
    change (includes (js "--transport=mcp") [Cli.equals]) with true. cbv iota.
    change (split Cli.equals (js "--transport=mcp")) with [js "--transport"; js "mcp"].
    cbv iota. change (Cli.strip (js "--transport")) with (js "transport").
    rewrite parse_cons.
    change (starts_with Cli.dashes (js "--mcp-args")) with true.
    change (includes (js "--mcp-args") [Cli.equals]) with false. cbv iota.
    change (Cli.strip (js "--mcp-args")) with (js "mcp-args").
    cbn [Cli.parse].
    rewrite (get_set_other (js "transport") (js "mcp-args") (VBool true) _ eq_refl).
    rewrite !get_set_same. reflexivity.
Qed.

(** ** The tool transport in the main flow *)

Lemma for_notes_logged (server : Mcp.McpTool -> JsVal -> Calls.Log -> JsVal + JsVal)
    (boardId : jsstring) (tool : Mcp.McpTool) (notes : list StickySpec) :
  forall (results : BatchResult) (log : Calls.Log),
    snd (Mcp.for_notes (Calls.logged server) Calls.idle boardId tool notes results log)
    = log ++ map (fun n => (tool, Mcp.sticky_args boardId n)) notes.
Proof.
  induction notes as [|n notes IH]; intros results log; simpl.
  - now rewrite app_nil_r.
  - unfold Mcp.create_one, Calls.logged.
    destruct (server tool (Mcp.sticky_args boardId n) log) as [e|result];
      rewrite IH; unfold Calls.idle; now rewrite <- app_assoc.
Qed.

(** X25. The calls of a batch through the tools: one call per note, in the
    order of the notes, to the tool found for sticky notes, whatever the
    server answers.  The arguments of a call carry no parent and no frame:
    the batch for notes that were given a frame makes the calls of the
    batch for the notes without it. *)
Theorem mcp_batch_sends_no_frame :
  forall (server : Mcp.McpTool -> JsVal -> Calls.Log -> JsVal + JsVal)
         (tools : list Mcp.McpTool) (boardId : jsstring) (notes : list StickySpec)
         (chunkSize : nat) (log : Calls.Log) (singleTool : Mcp.McpTool),
    Mcp.findTool tools [Mcp.re_create_sticky; Mcp.re_create_sticky_note] = Some singleTool ->
    snd (Mcp.bulkCreateStickies (Calls.logged server) Calls.idle tools boardId
           notes chunkSize log)
    = log ++ map (fun n => (singleTool, Mcp.sticky_args boardId n)) notes
    /\ (forall fid,
          snd (Mcp.bulkCreateStickies (Calls.logged server) Calls.idle tools boardId
                 (map (set_parent fid) notes) chunkSize log)
          = snd (Mcp.bulkCreateStickies (Calls.logged server) Calls.idle tools boardId
                   notes chunkSize log))
    /\ (forall n, optprop (Mcp.sticky_args boardId n) (js "parentId") = VUndefined
                  /\ optprop (Mcp.sticky_args boardId n) (js "parent") = VUndefined
                  /\ optprop (Mcp.sticky_args boardId n) (js "frameId") = VUndefined).
Proof.
  intros server tools boardId notes chunkSize log singleTool Htool.
  assert (Hlog : forall l,
             snd (Mcp.bulkCreateStickies (Calls.logged server) Calls.idle tools boardId
                    l chunkSize log)
             = log ++ map (fun n => (singleTool, Mcp.sticky_args boardId n)) l).
  { intros l. unfold Mcp.bulkCreateStickies. rewrite Htool.
    pose proof (for_notes_logged server boardId singleTool l Batch.empty log) as H.
    destruct (Mcp.for_notes _ _ _ _ _ _ _) as [results w']. exact H. }
  split; [apply Hlog|]. split.
  - intros fid. rewrite !Hlog. f_equal. rewrite map_map. apply map_ext.
    intros n. reflexivity.
  - intros n. repeat split.
Qed.

(** Five notes in the frame with id 1, against the tools of [connect]. *)
Lemma mcp_batch_sends_no_frame_witness :
  snd (Mcp.bulkCreateStickies (Calls.logged Samples.done_server) Calls.idle
         Mcp.connected_tools (js "board")
         (map (set_parent (VStr (js "1"))) Examples.five_notes) 20 [])
  = snd (Mcp.bulkCreateStickies (Calls.logged Samples.done_server) Calls.idle
           Mcp.connected_tools (js "board") Examples.five_notes 20 []).
Proof.
  exact (proj1 (proj2
           (mcp_batch_sends_no_frame Samples.done_server Mcp.connected_tools (js "board")
              Examples.five_notes 20 []
              (Mcp.mkTool (js "create_sticky_note") (js "Create a sticky note on a board"))
              eq_refl))
           (VStr (js "1"))).
Defined.

Lemma within_trans (a b : nat) (allowed : list jsstring) (l1 l2 l3 : Calls.Log) :
  Calls.within a allowed l1 l2 -> Calls.within b allowed l2 l3 ->
  Calls.within (a + b) allowed l1 l3.
Proof.
  intros (x & -> & Hx & Fx) (y & -> & Hy & Fy). exists (x ++ y).
  split; [now rewrite app_assoc|]. split.
  - rewrite length_app. lia.
  - apply Forall_app. now split.
Qed.

Lemma within_weaken (a b : nat) (allowed : list jsstring) (l1 l2 : Calls.Log) :
  a <= b -> Calls.within a allowed l1 l2 -> Calls.within b allowed l1 l2.
Proof.
  intros Hab (x & -> & Hx & Fx). exists x. split; [reflexivity|]. split; [lia|exact Fx].
Qed.

Ltac close_within :=
  let E := fresh "E" in
  intros E; injection E as _ <-; unfold Calls.within; eexists;
  split; [try rewrite <- app_assoc; reflexivity|];
  split; [simpl; lia|];
  repeat (apply Forall_cons; [vm_compute; tauto|]); apply Forall_nil.

Lemma mcp_frame_calls (server : Mcp.McpTool -> JsVal -> Calls.Log -> JsVal + JsVal)
    (now boardId title : jsstring) (x y width height : number) (log log' : Calls.Log)
    (r : JsVal + FrameSpec) :
  McpBoard.getOrCreateFrame (Calls.logged server) Mcp.connected_tools now boardId
    title x y width height log = (r, log') ->
  Calls.within 2 Calls.preview_tools log log'.
Proof.
  unfold McpBoard.getOrCreateFrame.
  change (Mcp.findTool Mcp.connected_tools [McpBoard.re_get_frames])
    with (Some (Mcp.mkTool (js "get_frames") (js "Get all frames from a board"))).
  unfold bind, Calls.logged, throw, ret.
  destruct (server _ _ log) as [e|frames]; [close_within|].
  destruct (McpBoard.array_or_data frames) as [arr|]; [|close_within].
  destruct (Rest.find_throwing _ arr) as [[m|]|]; [close_within| |close_within].
  unfold McpBoard.createShape.
  change (Mcp.findTool Mcp.connected_tools [McpBoard.re_create_shape])
    with (Some (Mcp.mkTool (js "create_shape") (js "Create a shape on a board"))).
  unfold bind, Calls.logged, throw, ret.
  destruct (server _ _ _) as [e|made]; [close_within|].
  destruct (prop made (js "id")); close_within.
Qed.

Lemma mcp_listing_calls (server : Mcp.McpTool -> JsVal -> Calls.Log -> JsVal + JsVal)
    (now boardId : jsstring) (frameId : JsVal) (log log' : Calls.Log)
    (r : JsVal + list JsVal) :
  McpBoard.listStickyNotesInFrame (Calls.logged server) Mcp.connected_tools boardId
    frameId log = (r, log') ->
  Calls.within 1 Calls.preview_tools log log'.
Proof.
  unfold McpBoard.listStickyNotesInFrame.
  change (Mcp.findTool Mcp.connected_tools [McpBoard.re_get_items_in_frame])
    with (Some (Mcp.mkTool (js "get_items_in_frame") (js "Get items in a specific frame"))).
  unfold bind, Calls.logged, throw, ret.
  destruct (server _ _ log) as [e|result]; [close_within|].
  destruct (McpBoard.array_or_data result); close_within.
Qed.

Lemma mcp_prepare_calls (ToNumber : JsVal -> number)
    (server : Mcp.McpTool -> JsVal -> Calls.Log -> JsVal + JsVal)
    (now boardId : jsstring) (extracted : Main.InsightsRisks) (log log' : Calls.Log)
    (r : JsVal + Main.Preview) :
  Main.prepare ToNumber
    (McpBoard.McpTransport (Calls.logged server) Mcp.connected_tools now boardId Calls.idle)
    extracted log = (r, log') ->
  Calls.within 6 Calls.preview_tools log log'.
Proof.
  unfold Main.prepare, bind, Main.promise_all2, McpBoard.McpTransport.
  cbn [Main.getOrCreateFrame Main.listStickyNotesInFrame].
  destruct (McpBoard.getOrCreateFrame _ _ _ _ (js "Insights") _ _ _ _ log)
    as [[e1|iFrame] w1] eqn:E1.
  { intros E. injection E as _ <-.
    apply (within_weaken 2); [lia|]. exact (mcp_frame_calls _ _ _ _ _ _ _ _ _ _ _ E1). }
  destruct (McpBoard.getOrCreateFrame _ _ _ _ (js "Risks") _ _ _ _ w1)
    as [[e2|rFrame] w2] eqn:E2.
  { intros E. injection E as _ <-.
    apply (within_weaken (2 + 2)); [lia|].
    apply (within_trans _ _ _ log w1 w2).
    - exact (mcp_frame_calls _ _ _ _ _ _ _ _ _ _ _ E1).
    - exact (mcp_frame_calls _ _ _ _ _ _ _ _ _ _ _ E2). }
  destruct (McpBoard.listStickyNotesInFrame _ _ _ (frame_id iFrame) w2)
    as [l1 w3] eqn:E3.
  destruct (McpBoard.listStickyNotesInFrame _ _ _ (frame_id rFrame) w3)
    as [l2 w4] eqn:E4.
  assert (H : Calls.within 6 Calls.preview_tools log w4).
  { change 6 with (2 + (2 + (1 + 1))).
    apply (within_trans _ _ _ log w1 w4);
      [exact (mcp_frame_calls _ _ _ _ _ _ _ _ _ _ _ E1)|].
    apply (within_trans _ _ _ w1 w2 w4);
      [exact (mcp_frame_calls _ _ _ _ _ _ _ _ _ _ _ E2)|].
    apply (within_trans _ _ _ w2 w3 w4).
    - exact (mcp_listing_calls _ now _ _ _ _ _ E3).
    - exact (mcp_listing_calls _ now _ _ _ _ _ E4). }
  destruct l1 as [e|x1]; destruct l2 as [e'|x2]; intros E; injection E as _ <-; exact H.
Qed.

(** X26. A run without [--execute] through the tools of [connect], whatever
    the server answers: it always ends, after at most six calls, each to
    [get_frames], [create_shape] or [get_items_in_frame].  It never calls
    the tool that creates a sticky note; it may call the one that creates
    a shape. *)
Theorem mcp_dry_run_calls_no_sticky_tool :
  forall (ToNumber : JsVal -> number)
         (server : Mcp.McpTool -> JsVal -> Calls.Log -> JsVal + JsVal)
         (now boardId : jsstring) (extracted : Main.InsightsRisks) (log : Calls.Log),
    exists r calls,
      Main.main ToNumber
        (McpBoard.McpTransport (Calls.logged server) Mcp.connected_tools now boardId
           Calls.idle)
        false extracted log
      = Some (r, log ++ calls)
      /\ length calls <= 6
      /\ Forall (fun c => In (Mcp.tool_name (fst c)) Calls.preview_tools) calls
      /\ Forall (fun c =>
                   Mcp.findTool Mcp.connected_tools
                     [Mcp.re_create_sticky; Mcp.re_create_sticky_note]
                   <> Some (fst c)) calls.
Proof.
  intros ToNumber server now boardId extracted log. rewrite dry_run_is_prepare.
  destruct (Main.prepare ToNumber _ extracted log) as [r log'] eqn:E.
  destruct (mcp_prepare_calls ToNumber server now boardId extracted log log' r E)
    as (calls & -> & Hlen & Hall).
  exists (match r with inl e => inl e | inr p => inr (Main.DryRun p) end), calls.
  split; [now destruct r|]. split; [exact Hlen|]. split; [exact Hall|].
  apply Forall_forall. intros c Hc Hfound.
  pose proof (proj1 (Forall_forall _ _) Hall c Hc) as Hname.
  change (Mcp.findTool Mcp.connected_tools [Mcp.re_create_sticky; Mcp.re_create_sticky_note])
    with (Some (Mcp.mkTool (js "create_sticky_note") (js "Create a sticky note on a board")))
    in Hfound.
  injection Hfound as Hfound. cbv beta in Hname. rewrite <- Hfound in Hname.
  vm_compute in Hname. intuition discriminate.
Qed.

(** ** The handshake *)

Lemma connect_skips (chunks : list Stdio.Buffer) :
  forallb (fun d => negb (Connect.shows_result d)) chunks = true ->
  forall s, fold_left Connect.deliver (map Stdio.Data chunks) s = s.
Proof.
  induction chunks as [|d chunks IH]; simpl; intros H s; [reflexivity|].
  apply andb_true_iff in H as [Hd H]. apply negb_true_iff in Hd.
  rewrite IH by exact H.
  unfold Connect.onData. fold (Connect.shows_result d). rewrite Hd.
  now destruct (Connect.listening s).
Qed.

Lemma connect_stays (events : list Stdio.StreamEvent) :
  forall (s : Connect.State) (o : JsVal + JsVal),
    Connect.connected s = true -> Connect.tools s = Mcp.connected_tools ->
    Connect.settled s = Some o ->
    let s' := fold_left Connect.deliver events s in
    Connect.connected s' = true /\ Connect.tools s' = Mcp.connected_tools
    /\ Connect.settled s' = Some o.
Proof.
  induction events as [|ev events IH]; intros s o Hc Ht Hs; simpl; [auto|].
  apply IH; destruct ev as [d|]; simpl; auto.
  - destruct (Connect.listening s); [|exact Hc]. unfold Connect.onData.
    now destruct (includes _ _).
  - destruct (Connect.listening s); [|exact Ht]. unfold Connect.onData.
    now destruct (includes _ _).
  - destruct (Connect.listening s); [|exact Hs]. unfold Connect.onData.
    destruct (includes _ _); [|exact Hs]. simpl. now rewrite Hs.
  - now rewrite Hs.
Qed.

(** X27. [connect] reads every chunk of stdout alone.  While no chunk shows
    the text "result" by itself, nothing happens, and the timer then
    rejects with "Connection timeout", the transport not connected; this
    is so for an answer cut in two inside that word.  The first chunk
    that shows it connects the transport with the fixed list of tools,
    and nothing later undoes that.  A chunk that shows it after the timer
    has fired still marks the transport connected, the promise staying
    rejected. *)
Theorem connect_reads_each_chunk_alone :
  forall (chunks : list Stdio.Buffer) (chunk : Stdio.Buffer)
         (rest : list Stdio.StreamEvent),
    forallb (fun d => negb (Connect.shows_result d)) chunks = true ->
    (let s := Connect.run (map Stdio.Data chunks ++ [Stdio.Timeout]) in
     Connect.settled s = Some (inl Connect.timeout_error)
     /\ Connect.connected s = false)
    /\ (Connect.shows_result chunk = true ->
        (let s := Connect.run (map Stdio.Data chunks ++ Stdio.Data chunk :: rest) in
         Connect.settled s = Some (inr VUndefined)
         /\ Connect.connected s = true
         /\ Connect.tools s = Mcp.connected_tools)
        /\
        (let s := Connect.run (map Stdio.Data chunks ++ Stdio.Timeout
                                 :: Stdio.Data chunk :: rest) in
         Connect.settled s = Some (inl Connect.timeout_error)
         /\ Connect.connected s = true))
    /\ Connect.shows_result (Samples.handshake_head ++ Samples.handshake_tail) = true
    /\ Connect.shows_result Samples.handshake_head = false
    /\ Connect.shows_result Samples.handshake_tail = false.
Proof.
  intros chunks chunk rest Hchunks. unfold Connect.run.
  split; [|split].
  - rewrite fold_left_app, (connect_skips chunks Hchunks). simpl. auto.
  - intros Hchunk. split.
    + rewrite fold_left_app, (connect_skips chunks Hchunks).
      cbn [fold_left Connect.deliver Connect.initial Connect.listening].
      unfold Connect.onData. fold (Connect.shows_result chunk). rewrite Hchunk.
      match goal with
      | |- context [fold_left Connect.deliver rest ?s] =>
          destruct (connect_stays rest s (inr VUndefined) eq_refl eq_refl eq_refl)
            as (Hc & Ht & Hs)
      end.
      cbv zeta. auto.
    + rewrite fold_left_app, (connect_skips chunks Hchunks).
      cbn [fold_left Connect.deliver Connect.initial Connect.listening
             Connect.connected Connect.tools Connect.settled].
      unfold Connect.onData. fold (Connect.shows_result chunk). rewrite Hchunk.
      match goal with
      | |- context [fold_left Connect.deliver rest ?s] =>
          destruct (connect_stays rest s (inl Connect.timeout_error)
                      eq_refl eq_refl eq_refl) as (Hc & Ht & Hs)
      end.
      cbv zeta. auto.
  - repeat split; vm_compute; reflexivity.
Qed.

(** The answer cut in two, then the timer. *)
Lemma connect_reads_each_chunk_alone_witness :
  let s := Connect.run (map Stdio.Data [Samples.handshake_head; Samples.handshake_tail]
                          ++ [Stdio.Timeout]) in
  Connect.settled s = Some (inl Connect.timeout_error) /\ Connect.connected s = false.
Proof.
  exact (proj1 (connect_reads_each_chunk_alone
                  [Samples.handshake_head; Samples.handshake_tail] [] [] eq_refl)).
Defined.
